(** * Circuit breaker and retry orchestration of the GTFS realtime wrapper

    A shallow embedding of [lib/gtfs/robust-gtfs-wrapper.js]: the class
    [CircuitBreaker] and the class [RobustGtfsWrapper], with the JavaScript
    runtime they rely on made explicit:

    - [Date.now()] is the field [now] of a [World]; the clock moves only
      while the caller is suspended on an [await] (the wrapped operation, the
      timeout race, [sleep]), and a timer fires exactly when it is due;
    - the wrapped asynchronous operation is an [AsyncFn]: the behaviour of
      its k-th invocation (how long it takes to settle and with what), and
      [calls] counts its invocations; a rejection reason is an [Error]-like
      object with a string [message] and an optional [code];
    - [setTimeout] callbacks that are still pending are kept, by firing time,
      with the breaker whose counters their closure updates;
    - calls are awaited one after the other (no two calls overlap);
    - console output is left out;
    - numbers that only count or hold milliseconds are integers ([Z]); the
      average response time, which is produced by a division, is an IEEE-754
      binary64 value ([spec_float] with precision 53 and maximal exponent
      1024), so that a division by zero yields what it yields in JavaScript. *)

From Stdlib Require Import ZArith Lia Floats.SpecFloat.
From stdpp Require Import base option list gmap strings pretty.

Open Scope Z_scope.

(** ** JavaScript values *)

(** A timestamp field that starts as [null]. *)
Definition toNumber (t : option Z) : Z :=
  match t with Some n => n | None => 0 end.

(** Truthiness of a number-or-null: [null] and [0] are falsy. *)
Definition truthy (t : option Z) : bool :=
  match t with Some n => negb (n =? 0) | None => false end.

(** [x || d] for an optional number ([undefined], [NaN] and [0] are falsy). *)
Definition orDefault (x : option Z) (d : Z) : Z :=
  if truthy x then toNumber x else d.

(** [Math.ceil (x / y)] on integers, for a positive divisor. *)
Definition ceilDiv (x y : Z) : Z := - ((- x) / y).

(** Node clamps a timer delay outside [1 .. 2^31-1] to 1 ms. *)
Definition timerDelay (ms : Z) : Z :=
  if (1 <=? ms) && (ms <=? 2147483647) then ms else 1.

(** [String.prototype.includes]. *)
Fixpoint includes (s sub : string) : bool :=
  String.prefix sub s ||
  match s with
  | EmptyString => false
  | String _ s' => includes s' sub
  end.

(** An [Error] object: the optional [code] property and the message. *)
Record JsError := { code : option string; message : string }.

Definition codeIs (e : JsError) (c : string) : bool :=
  match code e with Some c' => String.eqb c' c | None => false end.

(** *** binary64 arithmetic *)

Definition ofZ (z : Z) : spec_float := binary_normalize 53 1024 z 0 false.
Definition fmul : spec_float -> spec_float -> spec_float := SFmul 53 1024.
Definition fadd : spec_float -> spec_float -> spec_float := SFadd 53 1024.
Definition fdiv : spec_float -> spec_float -> spec_float := SFdiv 53 1024.

(** [Number.isFinite]. *)
Definition isFinite (x : spec_float) : bool :=
  match x with
  | S754_zero _ | S754_finite _ _ _ => true
  | S754_infinity _ | S754_nan => false
  end.

(** ** The environment of a call *)

Definition Payload := string.

(** How one invocation of the wrapped operation settles, [dur] milliseconds
    after it was started. *)
Inductive Behaviour :=
| Resolves (dur : Z) (v : Payload)
| Rejects (dur : Z) (e : JsError)
| Hangs.

Definition AsyncFn := nat -> Behaviour.

Record World := { now : Z; calls : nat }.

Definition invoked (σ : World) : World :=
  {| now := now σ; calls := S (calls σ) |}.

Definition atTime (t : Z) (σ : World) : World :=
  {| now := t; calls := calls σ |}.

(** How an awaited promise ends. *)
Inductive Completion (A : Type) :=
| Returns (a : A)
| Throws (e : JsError).
Arguments Returns {A} a.
Arguments Throws {A} e.

(** ** CircuitBreaker *)

Inductive State := CLOSED | OPEN | HALF_OPEN.

Definition State_eqb (a b : State) : bool :=
  match a, b with
  | CLOSED, CLOSED | OPEN, OPEN | HALF_OPEN, HALF_OPEN => true
  | _, _ => false
  end.

Module Stats.
Record t := {
  totalRequests : Z;
  successfulRequests : Z;
  failedRequests : Z;
  timeouts : Z;
  circuitOpenCount : Z;
  averageResponseTime : spec_float;
  lastSuccessTime : option Z;
  lastFailureTime : option Z
}.
End Stats.

Record CircuitBreaker := {
  name : string;
  failureThreshold : Z;
  timeout : Z;
  resetTimeout : Z;
  failureCount : Z;
  lastFailureTime : option Z;
  state : State;
  stats : Stats.t;
  (** firing times of the [setTimeout] callbacks created by [execute] that
      have not run yet (the code never clears a timer) *)
  pendingTimers : list Z
}.

Record Options := {
  opt_failureThreshold : option Z;
  opt_timeout : option Z;
  opt_resetTimeout : option Z
}.

(** [constructor(name, options = {})] *)
Definition newCircuitBreaker (nm : string) (options : Options) : CircuitBreaker :=
  {| name := nm;
     failureThreshold := orDefault (opt_failureThreshold options) 5;
     timeout := orDefault (opt_timeout options) 30000;
     resetTimeout := orDefault (opt_resetTimeout options) 60000;
     failureCount := 0;
     lastFailureTime := None;
     state := CLOSED;
     stats := {| Stats.totalRequests := 0;
                 Stats.successfulRequests := 0;
                 Stats.failedRequests := 0;
                 Stats.timeouts := 0;
                 Stats.circuitOpenCount := 0;
                 Stats.averageResponseTime := ofZ 0;
                 Stats.lastSuccessTime := None;
                 Stats.lastFailureTime := None |};
     pendingTimers := [] |}.

Definition withStats (f : Stats.t -> Stats.t) (cb : CircuitBreaker) : CircuitBreaker :=
  {| name := name cb; failureThreshold := failureThreshold cb;
     timeout := timeout cb; resetTimeout := resetTimeout cb;
     failureCount := failureCount cb; lastFailureTime := lastFailureTime cb;
     state := state cb; stats := f (stats cb);
     pendingTimers := pendingTimers cb |}.

Definition withState (s : State) (cb : CircuitBreaker) : CircuitBreaker :=
  {| name := name cb; failureThreshold := failureThreshold cb;
     timeout := timeout cb; resetTimeout := resetTimeout cb;
     failureCount := failureCount cb; lastFailureTime := lastFailureTime cb;
     state := s; stats := stats cb;
     pendingTimers := pendingTimers cb |}.

Definition withTimers (l : list Z) (cb : CircuitBreaker) : CircuitBreaker :=
  {| name := name cb; failureThreshold := failureThreshold cb;
     timeout := timeout cb; resetTimeout := resetTimeout cb;
     failureCount := failureCount cb; lastFailureTime := lastFailureTime cb;
     state := state cb; stats := stats cb;
     pendingTimers := l |}.

(** [this.stats.totalRequests++] *)
Definition countRequest (s : Stats.t) : Stats.t :=
  {| Stats.totalRequests := Stats.totalRequests s + 1;
     Stats.successfulRequests := Stats.successfulRequests s;
     Stats.failedRequests := Stats.failedRequests s;
     Stats.timeouts := Stats.timeouts s;
     Stats.circuitOpenCount := Stats.circuitOpenCount s;
     Stats.averageResponseTime := Stats.averageResponseTime s;
     Stats.lastSuccessTime := Stats.lastSuccessTime s;
     Stats.lastFailureTime := Stats.lastFailureTime s |}.

(** [this.stats.timeouts++], once for each of [n] timer callbacks. *)
Definition countTimeouts (n : Z) (s : Stats.t) : Stats.t :=
  {| Stats.totalRequests := Stats.totalRequests s;
     Stats.successfulRequests := Stats.successfulRequests s;
     Stats.failedRequests := Stats.failedRequests s;
     Stats.timeouts := Stats.timeouts s + n;
     Stats.circuitOpenCount := Stats.circuitOpenCount s;
     Stats.averageResponseTime := Stats.averageResponseTime s;
     Stats.lastSuccessTime := Stats.lastSuccessTime s;
     Stats.lastFailureTime := Stats.lastFailureTime s |}.

(** [updateAverageResponseTime(newTime)] *)
Definition updateAverageResponseTime (newTime : Z) (s : Stats.t) : Stats.t :=
  let totalRequests := Stats.totalRequests s in
  {| Stats.totalRequests := Stats.totalRequests s;
     Stats.successfulRequests := Stats.successfulRequests s;
     Stats.failedRequests := Stats.failedRequests s;
     Stats.timeouts := Stats.timeouts s;
     Stats.circuitOpenCount := Stats.circuitOpenCount s;
     Stats.averageResponseTime :=
       fdiv (fadd (fmul (Stats.averageResponseTime s) (ofZ (totalRequests - 1)))
                  (ofZ newTime))
            (ofZ totalRequests);
     Stats.lastSuccessTime := Stats.lastSuccessTime s;
     Stats.lastFailureTime := Stats.lastFailureTime s |}.

(** [onSuccess(responseTime)], run when the clock reads [t]. *)
Definition onSuccess (t : Z) (responseTime : Z) (cb : CircuitBreaker) : CircuitBreaker :=
  let s := stats cb in
  let s1 :=
    {| Stats.totalRequests := Stats.totalRequests s;
       Stats.successfulRequests := Stats.successfulRequests s + 1;
       Stats.failedRequests := Stats.failedRequests s;
       Stats.timeouts := Stats.timeouts s;
       Stats.circuitOpenCount := Stats.circuitOpenCount s;
       Stats.averageResponseTime := Stats.averageResponseTime s;
       Stats.lastSuccessTime := Some t;
       Stats.lastFailureTime := Stats.lastFailureTime s |} in
  {| name := name cb; failureThreshold := failureThreshold cb;
     timeout := timeout cb; resetTimeout := resetTimeout cb;
     failureCount := 0;
     lastFailureTime := lastFailureTime cb;
     state := CLOSED;
     stats := updateAverageResponseTime responseTime s1;
     pendingTimers := pendingTimers cb |}.

(** The threshold test at the end of [onFailure]. *)
Definition tripIfThreshold (cb : CircuitBreaker) : CircuitBreaker :=
  if failureThreshold cb <=? failureCount cb then
    let s := stats cb in
    {| name := name cb; failureThreshold := failureThreshold cb;
       timeout := timeout cb; resetTimeout := resetTimeout cb;
       failureCount := failureCount cb;
       lastFailureTime := lastFailureTime cb;
       state := OPEN;
       stats :=
         {| Stats.totalRequests := Stats.totalRequests s;
            Stats.successfulRequests := Stats.successfulRequests s;
            Stats.failedRequests := Stats.failedRequests s;
            Stats.timeouts := Stats.timeouts s;
            Stats.circuitOpenCount := Stats.circuitOpenCount s + 1;
            Stats.averageResponseTime := Stats.averageResponseTime s;
            Stats.lastSuccessTime := Stats.lastSuccessTime s;
            Stats.lastFailureTime := Stats.lastFailureTime s |};
       pendingTimers := pendingTimers cb |}
  else cb.

(** [onFailure(error, responseTime)], run when the clock reads [t]. *)
Definition onFailure (t : Z) (error : JsError) (responseTime : Z)
    (cb : CircuitBreaker) : CircuitBreaker :=
  let s := stats cb in
  let s1 :=
    {| Stats.totalRequests := Stats.totalRequests s;
       Stats.successfulRequests := Stats.successfulRequests s;
       Stats.failedRequests := Stats.failedRequests s + 1;
       Stats.timeouts := Stats.timeouts s;
       Stats.circuitOpenCount := Stats.circuitOpenCount s;
       Stats.averageResponseTime := Stats.averageResponseTime s;
       Stats.lastSuccessTime := Stats.lastSuccessTime s;
       Stats.lastFailureTime := Some t |} in
  tripIfThreshold
    {| name := name cb; failureThreshold := failureThreshold cb;
       timeout := timeout cb; resetTimeout := resetTimeout cb;
       failureCount := failureCount cb + 1;
       lastFailureTime := Some t;
       state := state cb;
       stats := updateAverageResponseTime responseTime s1;
       pendingTimers := pendingTimers cb |}.

(** The event loop reaching time [t]: every pending timer callback that is
    due runs ([this.stats.timeouts++]; its [reject] is ignored when the race
    is already settled). *)
Definition runTimers (t : Z) (cb : CircuitBreaker) : CircuitBreaker :=
  let due := filter (fun f => f <= t) (pendingTimers cb) in
  let rest := filter (fun f => ~ f <= t) (pendingTimers cb) in
  withTimers rest (withStats (countTimeouts (Z.of_nat (length due))) cb).

Definition circuitOpenError (cb : CircuitBreaker) (t : Z) : JsError :=
  {| code := Some "CIRCUIT_OPEN"%string;
     message :=
       "Circuit breaker OPEN for " +:+ name cb +:+ ". Next retry in "
       +:+ pretty (ceilDiv (resetTimeout cb - (t - toNumber (lastFailureTime cb))) 1000)
       +:+ "s" |}.

Definition timeoutError (cb : CircuitBreaker) : JsError :=
  {| code := None;
     message := "Timeout after " +:+ pretty (timeout cb) +:+ "ms for " +:+ name cb |}.

(** The gate at the head of [execute] (the [if (this.state === 'OPEN')]
    block): the breaker that lets the call through, or the error thrown. *)
Definition gateCheck (cb : CircuitBreaker) (t : Z) : CircuitBreaker + JsError :=
  match state cb with
  | OPEN =>
      if t - toNumber (lastFailureTime cb) <? resetTimeout cb
      then inr (circuitOpenError cb t)
      else inl (withState HALF_OPEN cb)
  | _ => inl cb
  end.

(** [Promise.race([fn(), timeoutPromise])]: the operation wins when it
    settles strictly before the timer, which was created first. *)
Definition settlesFirst (limit : Z) (b : Behaviour) : option (Z * Completion Payload) :=
  match b with
  | Resolves d v => if d <? limit then Some (d, Returns v) else None
  | Rejects d e => if d <? limit then Some (d, Throws e) else None
  | Hangs => None
  end.

(** [async execute(fn)] *)
Definition execute (fn : AsyncFn) (cb : CircuitBreaker) (σ : World)
    : Completion Payload * CircuitBreaker * World :=
  let cb := withStats countRequest cb in
  match gateCheck cb (now σ) with
  | inr error => (Throws error, cb, σ)
  | inl cb =>
      let startTime := now σ in
      let limit := timerDelay (timeout cb) in
      let cb := withTimers (pendingTimers cb ++ [startTime + limit]) cb in
      let b := fn (calls σ) in
      let σ := invoked σ in
      match settlesFirst limit b with
      | Some (d, Returns result) =>
          let t := startTime + d in
          (Returns result, onSuccess t (t - startTime) (runTimers t cb), atTime t σ)
      | Some (d, Throws error) =>
          let t := startTime + d in
          (Throws error, onFailure t error (t - startTime) (runTimers t cb), atTime t σ)
      | None =>
          let t := startTime + limit in
          let cb := runTimers t cb in
          let error := timeoutError cb in
          (Throws error, onFailure t error (t - startTime) cb, atTime t σ)
      end
  end.

(** The caller does nothing for [gap] milliseconds. *)
Definition idle (gap : Z) (cb : CircuitBreaker) (σ : World) : CircuitBreaker * World :=
  let t := now σ + gap in (runTimers t cb, atTime t σ).

(** A caller that makes one [execute] call after each pause of [gaps]. *)
Fixpoint executeMany (gaps : list Z) (fn : AsyncFn) (cb : CircuitBreaker) (σ : World)
    : list (Completion Payload) * CircuitBreaker * World :=
  match gaps with
  | [] => ([], cb, σ)
  | gap :: gaps' =>
      let '(cb1, σ1) := idle gap cb σ in
      let '(r, cb2, σ2) := execute fn cb1 σ1 in
      let '(rs, cb3, σ3) := executeMany gaps' fn cb2 σ2 in
      (r :: rs, cb3, σ3)
  end.

(** ** RobustGtfsWrapper *)

(** [environment], with the variables that go through [parseInt] already
    parsed ([None] stands for [NaN]). *)
Record Environment := {
  GTFS_REALTIME_TIMEOUT : option Z;
  GTFS_REALTIME_RETRIES : option Z;
  GTFS_CB_FAILURE_THRESHOLD : option Z;
  GTFS_CB_RESET_TIMEOUT : option Z;
  GTFS_DETAILED_LOGGING : option string;
  NODE_ENV : option string;
  GTFS_DISABLE_ROBUST_WRAPPER : option string
}.

Definition strIs (v : option string) (c : string) : bool :=
  match v with Some s => String.eqb s c | None => false end.

Module Config.
Record t := {
  timeout : Z;
  retries : Z;
  circuitBreakerFailureThreshold : Z;
  circuitBreakerResetTimeout : Z;
  enableDetailedLogging : bool
}.
End Config.

(** The fields of the node-gtfs configuration that the wrapper looks at. *)
Module GtfsConfig.
Record t := {
  realtimeTimeout : option Z;
  timeout : option Z;
  downloadTimeout : option Z
}.
End GtfsConfig.

Record CircuitBreakers := { main : CircuitBreaker; network : CircuitBreaker }.

Record RobustGtfsWrapper := {
  config : Config.t;
  nativeTimeoutSupported : bool;
  wrapperEnabled : bool;
  circuitBreakers : CircuitBreakers;
  lastSuccessfulUpdate : option Z;
  consecutiveFailures : Z;
  retryTracker : gmap string Z
}.

(** [constructor()] *)
Definition newRobustGtfsWrapper (environment : Environment) : RobustGtfsWrapper :=
  let cfg :=
    {| Config.timeout := orDefault (GTFS_REALTIME_TIMEOUT environment) 30000;
       Config.retries := orDefault (GTFS_REALTIME_RETRIES environment) 2;
       Config.circuitBreakerFailureThreshold :=
         orDefault (GTFS_CB_FAILURE_THRESHOLD environment) 5;
       Config.circuitBreakerResetTimeout :=
         orDefault (GTFS_CB_RESET_TIMEOUT environment) 60000;
       Config.enableDetailedLogging :=
         strIs (GTFS_DETAILED_LOGGING environment) "true"
         || strIs (NODE_ENV environment) "development" |} in
  {| config := cfg;
     nativeTimeoutSupported := false;
     wrapperEnabled := true;
     circuitBreakers :=
       {| main := newCircuitBreaker "GTFS-Realtime-Main"
            {| opt_failureThreshold := Some (Config.circuitBreakerFailureThreshold cfg);
               opt_timeout := Some (Config.timeout cfg);
               opt_resetTimeout := Some (Config.circuitBreakerResetTimeout cfg) |};
          network := newCircuitBreaker "GTFS-Realtime-Network"
            {| opt_failureThreshold := Some 3;
               opt_timeout := Some (Config.timeout cfg);
               opt_resetTimeout := Some (Config.circuitBreakerResetTimeout cfg) |} |};
     lastSuccessfulUpdate := None;
     consecutiveFailures := 0;
     retryTracker := ∅ |}.

Definition withFlags (native enabled : bool) (w : RobustGtfsWrapper) : RobustGtfsWrapper :=
  {| config := config w;
     nativeTimeoutSupported := native;
     wrapperEnabled := enabled;
     circuitBreakers := circuitBreakers w;
     lastSuccessfulUpdate := lastSuccessfulUpdate w;
     consecutiveFailures := consecutiveFailures w;
     retryTracker := retryTracker w |}.

Definition withBreakers (cbs : CircuitBreakers) (w : RobustGtfsWrapper) : RobustGtfsWrapper :=
  {| config := config w;
     nativeTimeoutSupported := nativeTimeoutSupported w;
     wrapperEnabled := wrapperEnabled w;
     circuitBreakers := cbs;
     lastSuccessfulUpdate := lastSuccessfulUpdate w;
     consecutiveFailures := consecutiveFailures w;
     retryTracker := retryTracker w |}.

Definition withTracker (m : gmap string Z) (w : RobustGtfsWrapper) : RobustGtfsWrapper :=
  {| config := config w;
     nativeTimeoutSupported := nativeTimeoutSupported w;
     wrapperEnabled := wrapperEnabled w;
     circuitBreakers := circuitBreakers w;
     lastSuccessfulUpdate := lastSuccessfulUpdate w;
     consecutiveFailures := consecutiveFailures w;
     retryTracker := m |}.

(** [this.consecutiveFailures++] *)
Definition countFailure (w : RobustGtfsWrapper) : RobustGtfsWrapper :=
  {| config := config w;
     nativeTimeoutSupported := nativeTimeoutSupported w;
     wrapperEnabled := wrapperEnabled w;
     circuitBreakers := circuitBreakers w;
     lastSuccessfulUpdate := lastSuccessfulUpdate w;
     consecutiveFailures := consecutiveFailures w + 1;
     retryTracker := retryTracker w |}.

(** [detectNativeCapabilities(gtfsConfig)] *)
Definition detectNativeCapabilities (environment : Environment)
    (gtfsConfig : option GtfsConfig.t) (w : RobustGtfsWrapper) : RobustGtfsWrapper :=
  let native :=
    match gtfsConfig with
    | Some c =>
        if truthy (GtfsConfig.realtimeTimeout c) || truthy (GtfsConfig.timeout c)
           || truthy (GtfsConfig.downloadTimeout c)
        then true else nativeTimeoutSupported w
    | None => nativeTimeoutSupported w
    end in
  let enabled :=
    if strIs (GTFS_DISABLE_ROBUST_WRAPPER environment) "true"
    then false else wrapperEnabled w in
  withFlags native enabled w.

(** The breaker objects are shared: a method call on the selected one
    updates it in place. *)
Inductive BreakerKey := Main | Network.

Definition getBreaker (k : BreakerKey) (w : RobustGtfsWrapper) : CircuitBreaker :=
  match k with
  | Main => main (circuitBreakers w)
  | Network => network (circuitBreakers w)
  end.

Definition setBreaker (k : BreakerKey) (cb : CircuitBreaker) (w : RobustGtfsWrapper)
    : RobustGtfsWrapper :=
  match k with
  | Main => withBreakers {| main := cb; network := network (circuitBreakers w) |} w
  | Network => withBreakers {| main := main (circuitBreakers w); network := cb |} w
  end.

(** The event loop reaching time [t], for the timers of both breakers. *)
Definition runAllTimers (t : Z) (w : RobustGtfsWrapper) : RobustGtfsWrapper :=
  withBreakers {| main := runTimers t (main (circuitBreakers w));
                  network := runTimers t (network (circuitBreakers w)) |} w.

(** [selectCircuitBreaker()] *)
Definition selectCircuitBreaker (w : RobustGtfsWrapper) : BreakerKey :=
  if 2 <=? consecutiveFailures w then Network else Main.

(** [onUpdateSuccess(operationId)], run when the clock reads [t]. *)
Definition onUpdateSuccess (t : Z) (operationId : string) (w : RobustGtfsWrapper)
    : RobustGtfsWrapper :=
  {| config := config w;
     nativeTimeoutSupported := nativeTimeoutSupported w;
     wrapperEnabled := wrapperEnabled w;
     circuitBreakers := circuitBreakers w;
     lastSuccessfulUpdate := Some t;
     consecutiveFailures := 0;
     retryTracker := delete operationId (retryTracker w) |}.

(** [onUpdateFailure(error, operationId)] *)
Definition onUpdateFailure (error : JsError) (operationId : string)
    (w : RobustGtfsWrapper) : RobustGtfsWrapper :=
  countFailure w.

Inductive ErrorType :=
| CIRCUIT_BREAKER_ERROR
| NETWORK_ERROR
| TIMEOUT_ERROR
| DATA_FORMAT_ERROR
| UNKNOWN_ERROR.

(** [classifyError(error)] *)
Definition classifyError (error : JsError) : ErrorType :=
  if codeIs error "CIRCUIT_OPEN" then CIRCUIT_BREAKER_ERROR
  else
    let message := message error in
    if includes message "fetch failed" || includes message "ECONNREFUSED"
    then NETWORK_ERROR
    else if includes message "Timeout" then TIMEOUT_ERROR
    else if includes message "CIRCUIT_OPEN" then CIRCUIT_BREAKER_ERROR
    else if includes message "gtfsRealtimeVersion" || includes message "protobuf"
    then DATA_FORMAT_ERROR
    else UNKNOWN_ERROR.

(** [shouldRetry(error, errorType)] *)
Definition shouldRetry (error : JsError) (errorType : ErrorType) : bool :=
  match errorType with
  | CIRCUIT_BREAKER_ERROR => false
  | NETWORK_ERROR | TIMEOUT_ERROR => true
  | DATA_FORMAT_ERROR => false
  | UNKNOWN_ERROR => true
  end.

(** [getRetryDelay(attemptNumber)]; the attempt number is at least 1 at the
    only call site. *)
Definition getRetryDelay (attemptNumber : Z) : Z :=
  Z.min (2 ^ attemptNumber * 1000) 30000.

(** [getCurrentRetryCount(operationId)]: reads the counter and stores its
    successor. *)
Definition getCurrentRetryCount (operationId : string) (w : RobustGtfsWrapper)
    : Z * RobustGtfsWrapper :=
  let count := toNumber (retryTracker w !! operationId) in
  (count, withTracker (<[operationId := count + 1]> (retryTracker w)) w).

Record Fallback := {
  success : bool;
  fallbackApplied : bool;
  fallbackMessage : string;
  timeSinceLastSuccess : option Z
}.

(** [getGracefulFallback()], run when the clock reads [t]. *)
Definition getGracefulFallback (t : Z) (w : RobustGtfsWrapper) : Fallback :=
  {| success := false;
     fallbackApplied := true;
     fallbackMessage := "Using cached realtime data due to update failures";
     timeSinceLastSuccess :=
       if truthy (lastSuccessfulUpdate w)
       then Some (t - toNumber (lastSuccessfulUpdate w))
       else None |}.

(** What [updateGtfsRealtime] resolves with: the operation's own result or
    the fallback object. *)
Inductive UpdateResult :=
| Data (v : Payload)
| Degraded (fb : Fallback).

(** The state in which an [async] method of the wrapper leaves the wrapper
    and the world, with its completion; [None] when its promise has not
    settled: the awaited operation never settles, or the retries go on
    beyond the number of attempts explored. *)
Definition Run (A : Type) : Type := option (Completion A * RobustGtfsWrapper * World).

(** [sleep(ms)] *)
Definition sleep (ms : Z) (w : RobustGtfsWrapper) (σ : World) : RobustGtfsWrapper * World :=
  let t := now σ + timerDelay ms in (runAllTimers t w, atTime t σ).

(** [await gtfs.updateGtfsRealtime(gtfsConfig)] outside a breaker. *)
Definition awaitDirect (gtfs : AsyncFn) (w : RobustGtfsWrapper) (σ : World) : Run Payload :=
  let startTime := now σ in
  match gtfs (calls σ) with
  | Resolves d v =>
      let t := startTime + d in
      Some (Returns v, runAllTimers t w, atTime t (invoked σ))
  | Rejects d e =>
      let t := startTime + d in
      Some (Throws e, runAllTimers t w, atTime t (invoked σ))
  | Hangs => None
  end.

(** [lightweightMode(gtfs, gtfsConfig)] *)
Definition lightweightMode (gtfs : AsyncFn) (w : RobustGtfsWrapper) (σ : World)
    : Run UpdateResult :=
  let startTime := now σ in
  match awaitDirect gtfs w σ with
  | Some (Returns result, w, σ) =>
      let w := onUpdateSuccess (now σ) ("native-" +:+ pretty (now σ)) w in
      let w := setBreaker Main (onSuccess (now σ) (now σ - startTime) (getBreaker Main w)) w in
      Some (Returns (Data result), w, σ)
  | Some (Throws error, w, σ) =>
      let w := onUpdateFailure error ("native-" +:+ pretty (now σ)) w in
      let w := setBreaker Main
                 (onFailure (now σ) error (now σ - startTime) (getBreaker Main w)) w in
      Some (Throws error, w, σ)
  | None => None
  end.

(** [handleUpdateError(error, operationId, gtfs, gtfsConfig)]; [retry] is
    the re-entry into [fullProtectionMode]. *)
Definition handleUpdateError
    (retry : RobustGtfsWrapper -> World -> Run UpdateResult)
    (error : JsError) (operationId : string)
    (w : RobustGtfsWrapper) (σ : World) : Run UpdateResult :=
  let errorType := classifyError error in
  let shouldRetry := shouldRetry error errorType in
  if codeIs error "CIRCUIT_OPEN" then
    let w := countFailure w in
    Some (Returns (Degraded (getGracefulFallback (now σ) w)), w, σ)
  else
    let '(currentRetryCount, w) := getCurrentRetryCount operationId w in
    if shouldRetry && (currentRetryCount <? Config.retries (config w)) then
      let delay := getRetryDelay (currentRetryCount + 1) in
      let '(w, σ) := sleep delay w σ in
      retry w σ
    else
      let w := countFailure w in
      let w := withTracker (delete operationId (retryTracker w)) w in
      Some (Returns (Degraded (getGracefulFallback (now σ) w)), w, σ).

(** [fullProtectionMode(gtfs, gtfsConfig)]; [fuel] bounds the number of
    entries into the method. *)
Fixpoint fullProtectionMode (fuel : nat) (gtfs : AsyncFn)
    (w : RobustGtfsWrapper) (σ : World) : Run UpdateResult :=
  match fuel with
  | O => None
  | S fuel' =>
      let operationId := "gtfs-rt-" +:+ pretty (now σ) in
      let key := selectCircuitBreaker w in
      let '(r, cb, σ) := execute gtfs (getBreaker key w) σ in
      let w := runAllTimers (now σ) (setBreaker key cb w) in
      match r with
      | Returns result =>
          Some (Returns (Data result), onUpdateSuccess (now σ) operationId w, σ)
      | Throws error =>
          handleUpdateError (fullProtectionMode fuel' gtfs) error operationId w σ
      end
  end.

(** [updateGtfsRealtime(gtfs, gtfsConfig)] *)
Definition updateGtfsRealtime (fuel : nat) (environment : Environment)
    (gtfs : AsyncFn) (gtfsConfig : option GtfsConfig.t)
    (w : RobustGtfsWrapper) (σ : World) : Run UpdateResult :=
  let w :=
    match lastSuccessfulUpdate w with
    | None => detectNativeCapabilities environment gtfsConfig w
    | Some _ => w
    end in
  if negb (wrapperEnabled w) then
    match awaitDirect gtfs w σ with
    | Some (Returns result, w, σ) => Some (Returns (Data result), w, σ)
    | Some (Throws error, w, σ) => Some (Throws error, w, σ)
    | None => None
    end
  else if nativeTimeoutSupported w then lightweightMode gtfs w σ
  else fullProtectionMode fuel gtfs w σ.

Inductive Health := HEALTHY | WARNING | DEGRADED | CRITICAL.

Record HealthStatus := {
  status : Health;
  timestamp : Z;
  hs_lastSuccessfulUpdate : option Z;
  hs_consecutiveFailures : Z
}.

(** [Object.values(this.circuitBreakers)] *)
Definition breakerValues (w : RobustGtfsWrapper) : list CircuitBreaker :=
  [main (circuitBreakers w); network (circuitBreakers w)].

(** [getHealthStatus()], run when the clock reads [t]; of the spread
    [...stats] the two scalar fields are kept. *)
Definition getHealthStatus (t : Z) (w : RobustGtfsWrapper) : HealthStatus :=
  let overallHealth := HEALTHY in
  let hasOpenCircuit :=
    existsb (fun cb => State_eqb (state cb) OPEN) (breakerValues w) in
  let overallHealth :=
    if hasOpenCircuit then CRITICAL
    else if 5 <=? consecutiveFailures w then CRITICAL
    else if 1 <=? consecutiveFailures w then WARNING
    else overallHealth in
  let overallHealth :=
    if truthy (lastSuccessfulUpdate w)
       && (300000 <? t - toNumber (lastSuccessfulUpdate w))
    then DEGRADED else overallHealth in
  {| status := overallHealth;
     timestamp := t;
     hs_lastSuccessfulUpdate := lastSuccessfulUpdate w;
     hs_consecutiveFailures := consecutiveFailures w |}.

(** A caller that awaits one [updateGtfsRealtime] call after another, one
    for each configuration object of [gtfsConfigs]. *)
Fixpoint updateMany (fuel : nat) (environment : Environment) (gtfs : AsyncFn)
    (gtfsConfigs : list (option GtfsConfig.t)) (w : RobustGtfsWrapper) (σ : World)
    : option (list (Completion UpdateResult) * RobustGtfsWrapper * World) :=
  match gtfsConfigs with
  | [] => Some ([], w, σ)
  | gtfsConfig :: rest =>
      match updateGtfsRealtime fuel environment gtfs gtfsConfig w σ with
      | Some (r, w1, σ1) =>
          match updateMany fuel environment gtfs rest w1 σ1 with
          | Some (rs, w2, σ2) => Some (r :: rs, w2, σ2)
          | None => None
          end
      | None => None
      end
  end.

(** ** Vocabulary of the statements *)

(** The configuration of a breaker, which no method writes. *)
Definition sameConfig (cb cb' : CircuitBreaker) : Prop :=
  name cb' = name cb /\ failureThreshold cb' = failureThreshold cb /\
  timeout cb' = timeout cb /\ resetTimeout cb' = resetTimeout cb.

(** The call is let through by the gate of [execute]. *)
Definition letsThrough (cb : CircuitBreaker) (t : Z) : bool :=
  match gateCheck cb t with inl _ => true | inr _ => false end.

(** The invocation does not end in success: the operation rejects in time,
    or the timer wins the race. *)
Definition failsWithin (limit : Z) (b : Behaviour) : Prop :=
  match settlesFirst limit b with
  | Some (_, Returns _) => False
  | _ => True
  end.

Definition isThrow {A : Type} (c : Completion A) : Prop :=
  match c with Throws _ => True | Returns _ => False end.

(** No invocation of the operation takes a negative time. *)
Definition timely (fn : AsyncFn) : Prop :=
  forall k,
    match fn k with
    | Resolves d _ | Rejects d _ => 0 <= d
    | Hangs => True
    end.

(** The timestamp of the last success, when there is one, is not the
    instant 0 of the clock. *)
Definition stamped (w : RobustGtfsWrapper) : Prop :=
  lastSuccessfulUpdate w <> Some 0.

(** Every operation id in the tracker was drawn before time [t]. *)
Definition drawnBefore (t : Z) (m : gmap string Z) : Prop :=
  forall k v, m !! k = Some v -> exists u, k = "gtfs-rt-" +:+ pretty u /\ u < t.

(** Every invocation is rejected in time with an error that is retried. *)
Definition keepsFailing (limit : Z) (fn : AsyncFn) : Prop :=
  forall k, exists d e,
    fn k = Rejects d e /\ 0 <= d < limit /\
    codeIs e "CIRCUIT_OPEN" = false /\ shouldRetry e (classifyError e) = true.

(** The three ways an [execute] call can end. *)
Inductive ExecuteCase (fn : AsyncFn) (cb : CircuitBreaker) (σ : World)
  : Completion Payload -> CircuitBreaker -> World -> Prop :=
| exec_rejected :
    state cb = OPEN ->
    now σ - toNumber (lastFailureTime cb) < resetTimeout cb ->
    ExecuteCase fn cb σ
      (Throws (circuitOpenError (withStats countRequest cb) (now σ)))
      (withStats countRequest cb) σ
| exec_success cba d v cb' σ' :
    gateCheck (withStats countRequest cb) (now σ) = inl cba ->
    settlesFirst (timerDelay (timeout cb)) (fn (calls σ)) = Some (d, Returns v) ->
    calls σ' = S (calls σ) -> now σ' = now σ + d ->
    sameConfig cb cb' -> state cb' = CLOSED -> failureCount cb' = 0 ->
    ExecuteCase fn cb σ (Returns v) cb' σ'
| exec_failure cba e cb' σ' :
    gateCheck (withStats countRequest cb) (now σ) = inl cba ->
    failsWithin (timerDelay (timeout cb)) (fn (calls σ)) ->
    calls σ' = S (calls σ) ->
    sameConfig cb cb' ->
    failureCount cb' = failureCount cb + 1 ->
    lastFailureTime cb' = Some (now σ') ->
    state cb' = (if failureThreshold cb <=? failureCount cb + 1 then OPEN else state cba) ->
    Stats.circuitOpenCount (stats cb') =
      Stats.circuitOpenCount (stats cb) +
      (if failureThreshold cb <=? failureCount cb + 1 then 1 else 0) ->
    (settlesFirst (timerDelay (timeout cb)) (fn (calls σ)) = None /\
     e = timeoutError cb' /\ now σ' = now σ + timerDelay (timeout cb)
     \/ exists d, settlesFirst (timerDelay (timeout cb)) (fn (calls σ)) = Some (d, Throws e)
                  /\ now σ' = now σ + d) ->
    ExecuteCase fn cb σ (Throws e) cb' σ'.


(** ** Concrete runs *)

(** No variable of the environment is set: the defaults of the constructor
    apply (timeout 30000, two retries, threshold 5, reset after 60000). *)
Definition defaultEnvironment : Environment :=
  {| GTFS_REALTIME_TIMEOUT := None;
     GTFS_REALTIME_RETRIES := None;
     GTFS_CB_FAILURE_THRESHOLD := None;
     GTFS_CB_RESET_TIMEOUT := None;
     GTFS_DETAILED_LOGGING := None;
     NODE_ENV := None;
     GTFS_DISABLE_ROBUST_WRAPPER := None |}.

Definition startOfRun : World := {| now := 1700000000000; calls := 0 |}.

Definition newError (msg : string) : JsError := {| code := None; message := msg |}.

(** The feed is unreachable: every invocation rejects after 10 ms. *)
Definition unreachableFeed : AsyncFn := fun _ => Rejects 10 (newError "fetch failed").

(** One connection failure, then the feed answers. *)
Definition recoveringFeed : AsyncFn :=
  fun k =>
    match k with
    | O => Rejects 10 (newError "fetch failed")
    | _ => Resolves 7 "feed"
    end.

(** The payload cannot be decoded. *)
Definition malformedFeed : AsyncFn :=
  fun _ => Rejects 10 (newError "gtfsRealtimeVersion not supported").

(** The feed answers in 10 ms. *)
Definition healthyFeed : AsyncFn := fun _ => Resolves 10 "feed".

(** A node-gtfs configuration without any timeout field, and the
    configuration of the repository, which sets [downloadTimeout]. *)
Definition plainGtfsConfig : GtfsConfig.t :=
  {| GtfsConfig.realtimeTimeout := None;
     GtfsConfig.timeout := None;
     GtfsConfig.downloadTimeout := None |}.

Definition repositoryGtfsConfig : GtfsConfig.t :=
  {| GtfsConfig.realtimeTimeout := None;
     GtfsConfig.timeout := None;
     GtfsConfig.downloadTimeout := Some 30000 |}.

Definition defaultOptions : Options :=
  {| opt_failureThreshold := None; opt_timeout := None; opt_resetTimeout := None |}.

(** A breaker that opened at the start of the run. *)
Definition openedBreaker : CircuitBreaker :=
  onFailure (now startOfRun) (newError "fetch failed") 10
    (newCircuitBreaker "GTFS-Realtime-Main"
       {| opt_failureThreshold := Some 1; opt_timeout := None; opt_resetTimeout := None |}).

(** A wrapper whose last success is 300001 ms old at [startOfRun] and whose
    main breaker is OPEN. *)
Definition staleWrapper : RobustGtfsWrapper :=
  setBreaker Main openedBreaker
    (onUpdateSuccess (now startOfRun - 300001) "gtfs-rt-1699999699999"
       (newRobustGtfsWrapper defaultEnvironment)).

(** The environment set up by the unit tests of the wrapper. *)
Definition testEnvironment : Environment :=
  {| GTFS_REALTIME_TIMEOUT := Some 1000;
     GTFS_REALTIME_RETRIES := Some 2;
     GTFS_CB_FAILURE_THRESHOLD := Some 3;
     GTFS_CB_RESET_TIMEOUT := Some 2000;
     GTFS_DETAILED_LOGGING := Some "true"%string;
     NODE_ENV := Some "test"%string;
     GTFS_DISABLE_ROBUST_WRAPPER := Some "false"%string |}.

(** [mockGtfs.configure({results: [error 'fetch failed', error
    'ECONNREFUSED', success]})], the results being served in turn. *)
Definition twoNetworkErrorsThenSuccess : AsyncFn :=
  fun k =>
    match (k mod 3)%nat with
    | 0%nat => Rejects 0 (newError "fetch failed")
    | 1%nat => Rejects 0 (newError "ECONNREFUSED")
    | _ => Resolves 0 "recovered"
    end.

(** [mockGtfs.configure({behavior: 'error', errorMessage: 'Complete
    failure'})] *)
Definition completeFailure : AsyncFn :=
  fun _ => Rejects 0 (newError "Complete failure").

(** ** Vocabulary of the further properties *)

(** The circuit is closed, or the failure count has reached the threshold. *)
Definition tripConsistent (cb : CircuitBreaker) : Prop :=
  state cb = CLOSED \/ failureThreshold cb <= failureCount cb.

(** The calls that were answered with a result. *)
Fixpoint countReturns {A : Type} (rs : list (Completion A)) : Z :=
  match rs with
  | [] => 0
  | Returns _ :: rs' => 1 + countReturns rs'
  | Throws _ :: rs' => countReturns rs'
  end.

(** What no method of the wrapper writes after construction, and the two
    mode flags. *)
Definition sameSetup (w w' : RobustGtfsWrapper) : Prop :=
  config w' = config w /\
  nativeTimeoutSupported w' = nativeTimeoutSupported w /\
  wrapperEnabled w' = wrapperEnabled w /\
  sameConfig (main (circuitBreakers w)) (main (circuitBreakers w')) /\
  sameConfig (network (circuitBreakers w)) (network (circuitBreakers w')).

(** The wrapper on which a call of [updateGtfsRealtime] selects its mode:
    the detection has run when no success is recorded. *)
Definition afterDetection (environment : Environment) (gtfsConfig : option GtfsConfig.t)
    (w : RobustGtfsWrapper) : RobustGtfsWrapper :=
  match lastSuccessfulUpdate w with
  | None => detectNativeCapabilities environment gtfsConfig w
  | Some _ => w
  end.

(** The completion of the operation, handed on as it is. *)
Definition passesThrough (b : Behaviour) (r : Completion UpdateResult) : Prop :=
  match b with
  | Resolves _ v => r = Returns (Data v)
  | Rejects _ e => r = Throws e
  | Hangs => False
  end.

(** The part of the wrapper that the health report reads. *)
Definition healthInputs (w : RobustGtfsWrapper) : Z * option Z * State * State :=
  (consecutiveFailures w, lastSuccessfulUpdate w,
   state (main (circuitBreakers w)), state (network (circuitBreakers w))).

(** ** Reporting *)

(** [Math.round]: the nearest integer, a tie going up; the sign of a zero
    result is the sign of the argument. *)
Definition mathRound (x : spec_float) : spec_float :=
  match x with
  | S754_finite s m e =>
      let num := cond_Zopp s (Zpos m) in
      let n := if 0 <=? e then num * 2 ^ e
               else (2 * num + 2 ^ (- e)) / 2 ^ (- e + 1) in
      if n =? 0 then S754_zero s else ofZ n
  | _ => x
  end.

(** [Math.floor((now - t) / 1000)] for a timestamp that is set. *)
Definition secondsAgo (t : Z) (stamp : option Z) : option Z :=
  if truthy stamp then Some ((t - toNumber stamp) / 1000) else None.

Module Breaker.

(** [CircuitBreaker.getHealthStatus()] *)
Definition getHealthStatus (cb : CircuitBreaker) : Health :=
  let totalRequests := Stats.totalRequests (stats cb) in
  let successRate :=
    if 0 <? totalRequests
    then fmul (fdiv (ofZ (Stats.successfulRequests (stats cb))) (ofZ totalRequests))
              (ofZ 100)
    else ofZ 100 in
  if State_eqb (state cb) OPEN then CRITICAL
  else if (0 <? totalRequests) && SFltb successRate (ofZ 50) then DEGRADED
  else if (0 <? totalRequests) && SFleb successRate (ofZ 90) then WARNING
  else HEALTHY.

(** The object returned by [getStats()]: the spread [...this.stats] and the
    three fields added to it. *)
Record StatsReport := {
  counters : Stats.t;
  reportedState : State;
  reportedFailureCount : Z;
  healthStatus : Health
}.

(** [CircuitBreaker.getStats()] *)
Definition getStats (cb : CircuitBreaker) : StatsReport :=
  {| counters := stats cb;
     reportedState := state cb;
     reportedFailureCount := failureCount cb;
     healthStatus := getHealthStatus cb |}.

End Breaker.

(** The object returned by [getHealthStats()], with the entries [main] and
    [network] of [circuitBreakers]. *)
Record HealthStats := {
  stats_lastSuccessfulUpdate : option Z;
  stats_consecutiveFailures : Z;
  stats_main : Breaker.StatsReport;
  stats_network : Breaker.StatsReport
}.

(** [RobustGtfsWrapper.getHealthStats()] *)
Definition getHealthStats (w : RobustGtfsWrapper) : HealthStats :=
  {| stats_lastSuccessfulUpdate := lastSuccessfulUpdate w;
     stats_consecutiveFailures := consecutiveFailures w;
     stats_main := Breaker.getStats (main (circuitBreakers w));
     stats_network := Breaker.getStats (network (circuitBreakers w)) |}.

(** ** The health routes over the wrapper ([routes/health.js]) *)

(** What the process says about itself. *)
Record Process := { uptime : spec_float; npm_package_version : option string }.

(** The [status] of the basic health check. *)
Inductive ServiceStatus := OK | SERVICE_DEGRADED.

Module HealthRoutes.

(** [router.get('/gtfs', ...)]: the status code and the body, which is the
    object returned by [getHealthStatus()]. *)
Definition gtfs (t : Z) (w : RobustGtfsWrapper) : Z * HealthStatus :=
  let healthStatus := getHealthStatus t w in
  let httpStatusCode :=
    match status healthStatus with
    | CRITICAL => 503
    | DEGRADED => 503
    | WARNING => 200
    | HEALTHY => 200
    end in
  (httpStatusCode, healthStatus).

(** An entry of [metrics.circuitBreakers]. *)
Record BreakerMetrics := {
  report : Breaker.StatsReport;
  successRate : spec_float;
  lastSuccessAgo : option Z;
  lastFailureAgo : option Z
}.

Definition breakerMetrics (t : Z) (stats : Breaker.StatsReport) : BreakerMetrics :=
  let counters := Breaker.counters stats in
  let successRate :=
    if 0 <? Stats.totalRequests counters
    then fmul (fdiv (ofZ (Stats.successfulRequests counters))
                    (ofZ (Stats.totalRequests counters)))
              (ofZ 100)
    else ofZ 0 in
  {| report := stats;
     successRate := fdiv (mathRound (fmul successRate (ofZ 100))) (ofZ 100);
     lastSuccessAgo := secondsAgo t (Stats.lastSuccessTime counters);
     lastFailureAgo := secondsAgo t (Stats.lastFailureTime counters) |}.

Record Metrics := {
  metrics_timestamp : Z;
  metrics_lastSuccessAgo : option Z;
  metrics_consecutiveFailures : Z;
  metrics_main : BreakerMetrics;
  metrics_network : BreakerMetrics
}.

(** [router.get('/gtfs/metrics', ...)] *)
Definition gtfsMetrics (t : Z) (w : RobustGtfsWrapper) : Z * Metrics :=
  let healthStats := getHealthStats w in
  (200,
   {| metrics_timestamp := t;
      metrics_lastSuccessAgo := secondsAgo t (stats_lastSuccessfulUpdate healthStats);
      metrics_consecutiveFailures := stats_consecutiveFailures healthStats;
      metrics_main := breakerMetrics t (stats_main healthStats);
      metrics_network := breakerMetrics t (stats_network healthStats) |}).

Record RootBody := {
  root_status : ServiceStatus;
  root_timestamp : Z;
  root_uptime : spec_float;
  root_version : string;
  gtfs_status : Health;
  gtfs_lastUpdate : option Z
}.

(** [router.get('/', ...)] *)
Definition root (proc : Process) (t : Z) (w : RobustGtfsWrapper) : Z * RootBody :=
  let gtfsHealth := getHealthStatus t w in
  let '(overallStatus, httpStatusCode) :=
    match status gtfsHealth with
    | CRITICAL => (SERVICE_DEGRADED, 503)
    | _ => (OK, 200)
    end in
  (httpStatusCode,
   {| root_status := overallStatus;
      root_timestamp := t;
      root_uptime := uptime proc;
      root_version :=
        match npm_package_version proc with
        | Some v => if String.eqb v "" then "2.0.0"%string else v
        | None => "2.0.0"%string
        end;
      gtfs_status := status gtfsHealth;
      gtfs_lastUpdate := hs_lastSuccessfulUpdate gtfsHealth |}).

End HealthRoutes.

(** The last success is set and more than five minutes old at time [t]. *)
Definition stale (t : Z) (w : RobustGtfsWrapper) : Prop :=
  exists u, lastSuccessfulUpdate w = Some u /\ 300000 < t - u.

(** One of the breakers is OPEN. *)
Definition anyOpen (w : RobustGtfsWrapper) : Prop :=
  exists cb, In cb (breakerValues w) /\ state cb = OPEN.

(** ** The health routes without the wrapper (the other [routes/health.js]) *)

Module SimpleHealth.

(** [lastGtfsError] *)
Record LastError := { timestamp : Z; error : string }.

(** The three variables of the module. *)
Record Tracking := {
  lastGtfsUpdate : option Z;
  lastGtfsError : option LastError;
  gtfsUpdateCount : Z
}.

Definition initial : Tracking :=
  {| lastGtfsUpdate := None; lastGtfsError := None; gtfsUpdateCount := 0 |}.

(** [updateGtfsHealth(success, error = null)], run when the clock reads [t];
    [error] is [None] for [null] or [undefined]. *)
Definition updateGtfsHealth (t : Z) (success : bool) (error : option JsError)
    (s : Tracking) : Tracking :=
  if success then
    {| lastGtfsUpdate := Some t;
       lastGtfsError := None;
       gtfsUpdateCount := gtfsUpdateCount s + 1 |}
  else
    {| lastGtfsUpdate := lastGtfsUpdate s;
       lastGtfsError :=
         Some {| timestamp := t;
                 error :=
                   match error with
                   | Some e => if String.eqb (message e) "" then "Unknown error"%string
                               else message e
                   | None => "Unknown error"%string
                   end |};
       gtfsUpdateCount := gtfsUpdateCount s + 1 |}.

(** [lastGtfsUpdate ? now - lastGtfsUpdate : null] *)
Definition timeSince (t : Z) (stamp : option Z) : option Z :=
  if truthy stamp then Some (t - toNumber stamp) else None.

(** [lastGtfsError && (now - lastGtfsError.timestamp) < 300000]: [null]
    when there is no error. *)
Definition recentError (t : Z) (s : Tracking) : option bool :=
  match lastGtfsError s with
  | Some e => Some (t - timestamp e <? 300000)
  | None => None
  end.

Definition isTrue (b : option bool) : bool :=
  match b with Some true => true | _ => false end.

Record GtfsBody := {
  status : Health;
  body_timestamp : Z;
  lastSuccessfulUpdate : option Z;
  lastError : option LastError;
  totalUpdates : Z;
  timeSinceLastUpdate : option Z
}.

(** [router.get('/gtfs', ...)] *)
Definition gtfs (t : Z) (s : Tracking) : Z * GtfsBody :=
  let timeSinceLastUpdate := timeSince t (lastGtfsUpdate s) in
  let '(status, httpStatusCode) :=
    if isTrue (recentError t s) then (CRITICAL, 503)
    else if truthy timeSinceLastUpdate && (300000 <? toNumber timeSinceLastUpdate)
    then (DEGRADED, 503)
    else if truthy timeSinceLastUpdate && (120000 <? toNumber timeSinceLastUpdate)
    then (WARNING, 200)
    else (HEALTHY, 200) in
  (httpStatusCode,
   {| status := status;
      body_timestamp := t;
      lastSuccessfulUpdate := lastGtfsUpdate s;
      lastError := lastGtfsError s;
      totalUpdates := gtfsUpdateCount s;
      timeSinceLastUpdate :=
        if truthy timeSinceLastUpdate
        then Some (toNumber timeSinceLastUpdate / 1000) else None |}).

Record Metrics := {
  metrics_timestamp : Z;
  lastSuccessAgo : option Z;
  lastErrorAgo : option Z;
  metrics_totalUpdates : Z;
  hasRecentError : option bool;
  nativeTimeout : bool;
  gtfsVersion : string
}.

(** [router.get('/gtfs/metrics', ...)] *)
Definition gtfsMetrics (t : Z) (s : Tracking) : Z * Metrics :=
  (200,
   {| metrics_timestamp := t;
      lastSuccessAgo := secondsAgo t (lastGtfsUpdate s);
      lastErrorAgo :=
        match lastGtfsError s with
        | Some e => Some ((t - timestamp e) / 1000)
        | None => None
        end;
      metrics_totalUpdates := gtfsUpdateCount s;
      hasRecentError := recentError t s;
      nativeTimeout := true;
      gtfsVersion := "4.18.0" |}).

Record RootBody := {
  root_status : ServiceStatus;
  root_timestamp : Z;
  root_uptime : spec_float;
  root_version : string;
  gtfs_status : Health;
  gtfs_lastUpdate : option Z;
  gtfs_nativeTimeout : bool
}.

(** [router.get('/', ...)] *)
Definition root (proc : Process) (t : Z) (s : Tracking) : Z * RootBody :=
  let timeSinceLastUpdate := timeSince t (lastGtfsUpdate s) in
  let '(overallStatus, httpStatusCode, gtfsStatus) :=
    if isTrue (recentError t s) then (SERVICE_DEGRADED, 503, CRITICAL)
    else if truthy timeSinceLastUpdate && (300000 <? toNumber timeSinceLastUpdate)
    then (SERVICE_DEGRADED, 503, DEGRADED)
    else (OK, 200, HEALTHY) in
  (httpStatusCode,
   {| root_status := overallStatus;
      root_timestamp := t;
      root_uptime := uptime proc;
      root_version :=
        match npm_package_version proc with
        | Some v => if String.eqb v "" then "2.0.0"%string else v
        | None => "2.0.0"%string
        end;
      gtfs_status := gtfsStatus;
      gtfs_lastUpdate := lastGtfsUpdate s;
      gtfs_nativeTimeout := true |}).



End SimpleHealth.

(** ** The check of the upstream services ([lib/v2/index.js]) *)

Module StatusCheck.

(** How one [fetch] call would end if it were never aborted: a response,
    with its [ok] flag, or a network error, [dur] milliseconds after the
    call; or nothing at all. *)
Inductive FetchBehaviour :=
| Responds (dur : Z) (ok : bool)
| Fails (dur : Z) (e : JsError)
| NoAnswer.

Definition Fetch := nat -> FetchBehaviour.

Inductive Attempt := Succeeded | BadStatus | Threw.

(** The body of the [try] of one attempt: the request is aborted when the
    timer of [limit] milliseconds, created first, fires before it settles.
    Gives the way the attempt ends and the time it takes. *)
Definition attemptOnce (limit : Z) (b : FetchBehaviour) : Attempt * Z :=
  match b with
  | Responds d ok =>
      if d <? limit then (if ok then Succeeded else BadStatus, d) else (Threw, limit)
  | Fails d _ => if d <? limit then (Threw, d) else (Threw, limit)
  | NoAnswer => (Threw, limit)
  end.

(** The [for] loop of [checkUrl] from the iteration [attempt] on, with
    [remaining] iterations left. *)
Fixpoint checkUrlFrom (remaining : nat) (attempt : Z) (timeout maxRetries : Z)
    (fetch : Fetch) (σ : World) : bool * World :=
  match remaining with
  | O => (false, σ)
  | S remaining' =>
      let '(outcome, elapsed) := attemptOnce (timerDelay timeout) (fetch (calls σ)) in
      let σ := atTime (now σ + elapsed) (invoked σ) in
      match outcome with
      | Succeeded => (true, σ)
      | BadStatus => checkUrlFrom remaining' (attempt + 1) timeout maxRetries fetch σ
      | Threw =>
          let σ :=
            if attempt <? maxRetries
            then atTime (now σ + timerDelay (2 ^ attempt * 500)) σ
            else σ in
          checkUrlFrom remaining' (attempt + 1) timeout maxRetries fetch σ
      end
  end.

(** [checkUrl(url, timeout = 5000, maxRetries = 2)]; [fetch] stands for the
    requests to [url]. *)
Definition checkUrl (fetch : Fetch) (timeout maxRetries : option Z) (σ : World)
    : bool * World :=
  let timeout := default 5000 timeout in
  let maxRetries := default 2 maxRetries in
  checkUrlFrom (Z.to_nat (maxRetries + 1)) 0 timeout maxRetries fetch σ.

(** The request gets a response with [ok] set before the abort timer. *)
Definition answersOk (limit : Z) (b : FetchBehaviour) : Prop :=
  match b with
  | Responds d true => d < limit
  | _ => False
  end.

End StatusCheck.

(** ** The import of the static feed ([moveFiles], [copyFiles]) *)

Module ImportGtfs.

(** A directory of plain files: the content under each name. *)
Abbreviation Directory := (gmap string string).

(** [fs.readdirSync]: the names in the directory. *)
Definition readdirSync (dir : Directory) : list string := (map_to_list dir).*1.

(** One round of the [forEach] of [moveFiles]: [fs.renameSync] takes the
    file out of [from] and puts it under the same name in [to], replacing
    what was there; it throws when [from] has no such file. *)
Definition moveFile (dirs : option (Directory * Directory)) (file : string)
    : option (Directory * Directory) :=
  '(from, to) ← dirs;
  if includes file "agency.txt" then Some (from, to)
  else content ← from !! file; Some (delete file from, <[file := content]> to).

Definition moveFiles (from to : Directory) : option (Directory * Directory) :=
  foldl moveFile (Some (from, to)) (readdirSync from).

(** One round of the [forEach] of [copyFiles]; [fs.copyFileSync] leaves
    [from] as it is. *)
Definition copyFile (from : Directory) (to : option Directory) (file : string)
    : option Directory :=
  to ← to;
  if includes file "agency.txt" then Some to
  else content ← from !! file; Some (<[file := content]> to).

Definition copyFiles (from to : Directory) : option Directory :=
  foldl (copyFile from) (Some to) (readdirSync from).

End ImportGtfs.

(** ** More concrete runs *)

(** The feed answers once and is unreachable from then on. *)
Definition failingAfterFirst : AsyncFn :=
  fun k =>
    match k with
    | O => Resolves 10 "feed"
    | _ => Rejects 10 (newError "fetch failed")
    end.

(** The kill switch of the wrapper is set. *)
Definition disabledEnvironment : Environment :=
  {| GTFS_REALTIME_TIMEOUT := None;
     GTFS_REALTIME_RETRIES := None;
     GTFS_CB_FAILURE_THRESHOLD := None;
     GTFS_CB_RESET_TIMEOUT := None;
     GTFS_DETAILED_LOGGING := None;
     NODE_ENV := None;
     GTFS_DISABLE_ROBUST_WRAPPER := Some "true"%string |}.

Definition thresholdOf (n : Z) : Options :=
  {| opt_failureThreshold := Some n; opt_timeout := None; opt_resetTimeout := None |}.

(** The server refuses the first connection, answers 503 to the second
    request and 200 to the third. *)
Definition okAtThirdRequest : StatusCheck.Fetch :=
  fun k =>
    match k with
    | 0%nat => StatusCheck.Fails 20 (newError "fetch failed")
    | 1%nat => StatusCheck.Responds 150 false
    | _ => StatusCheck.Responds 150 true
    end.
(** ** Properties of the circuit breaker *)

Lemma sameConfig_refl cb : sameConfig cb cb.
Proof. repeat split. Qed.

Lemma sameConfig_trans a b c : sameConfig a b -> sameConfig b c -> sameConfig a c.
Proof.
  unfold sameConfig. intros (?&?&?&?) (?&?&?&?). repeat split; congruence.
Qed.

Lemma runTimers_sameConfig t cb : sameConfig cb (runTimers t cb).
Proof. repeat split. Qed.

Lemma onFailure_state t e rt cb :
  state (onFailure t e rt cb) =
  if failureThreshold cb <=? failureCount cb + 1 then OPEN else state cb.
Proof.
  unfold onFailure, tripIfThreshold. simpl.
  destruct (failureThreshold cb <=? failureCount cb + 1); reflexivity.
Qed.

Lemma onFailure_failureCount t e rt cb :
  failureCount (onFailure t e rt cb) = failureCount cb + 1.
Proof.
  unfold onFailure, tripIfThreshold. simpl.
  destruct (failureThreshold cb <=? failureCount cb + 1); reflexivity.
Qed.

Lemma onFailure_lastFailureTime t e rt cb :
  lastFailureTime (onFailure t e rt cb) = Some t.
Proof.
  unfold onFailure, tripIfThreshold. simpl.
  destruct (failureThreshold cb <=? failureCount cb + 1); reflexivity.
Qed.

Lemma onFailure_sameConfig t e rt cb : sameConfig cb (onFailure t e rt cb).
Proof.
  unfold onFailure, tripIfThreshold. simpl.
  destruct (failureThreshold cb <=? failureCount cb + 1); repeat split.
Qed.

Lemma onFailure_circuitOpenCount t e rt cb :
  Stats.circuitOpenCount (stats (onFailure t e rt cb)) =
  Stats.circuitOpenCount (stats cb) +
  (if failureThreshold cb <=? failureCount cb + 1 then 1 else 0).
Proof.
  unfold onFailure, tripIfThreshold. simpl.
  destruct (failureThreshold cb <=? failureCount cb + 1); simpl; lia.
Qed.

Lemma onFailure_pendingTimers t e rt cb :
  pendingTimers (onFailure t e rt cb) = pendingTimers cb.
Proof.
  unfold onFailure, tripIfThreshold. simpl.
  destruct (failureThreshold cb <=? failureCount cb + 1); reflexivity.
Qed.

Lemma onFailure_timeouts t e rt cb :
  Stats.timeouts (stats (onFailure t e rt cb)) = Stats.timeouts (stats cb).
Proof.
  unfold onFailure, tripIfThreshold. simpl.
  destruct (failureThreshold cb <=? failureCount cb + 1); reflexivity.
Qed.

Lemma onFailure_totalRequests t e rt cb :
  Stats.totalRequests (stats (onFailure t e rt cb)) = Stats.totalRequests (stats cb).
Proof.
  unfold onFailure, tripIfThreshold. simpl.
  destruct (failureThreshold cb <=? failureCount cb + 1); reflexivity.
Qed.

Lemma timeoutError_sameConfig cb cb' :
  sameConfig cb cb' -> timeoutError cb = timeoutError cb'.
Proof.
  intros (Hn & _ & Ht & _). unfold timeoutError. rewrite Hn, Ht. reflexivity.
Qed.

(** What [gateCheck] answers, by the state of the breaker. *)
Lemma gateCheck_open_cooling cb t :
  state cb = OPEN -> t - toNumber (lastFailureTime cb) < resetTimeout cb ->
  gateCheck cb t = inr (circuitOpenError cb t).
Proof.
  intros Hs Hlt. unfold gateCheck. rewrite Hs.
  destruct (Z.ltb_spec (t - toNumber (lastFailureTime cb)) (resetTimeout cb)); [reflexivity | lia].
Qed.

Lemma gateCheck_open_elapsed cb t :
  state cb = OPEN -> resetTimeout cb <= t - toNumber (lastFailureTime cb) ->
  gateCheck cb t = inl (withState HALF_OPEN cb).
Proof.
  intros Hs Hle. unfold gateCheck. rewrite Hs.
  destruct (Z.ltb_spec (t - toNumber (lastFailureTime cb)) (resetTimeout cb)); [lia | reflexivity].
Qed.

Lemma gateCheck_inl cb t cba :
  gateCheck cb t = inl cba ->
  sameConfig cb cba /\ failureCount cba = failureCount cb /\
  stats cba = stats cb /\ pendingTimers cba = pendingTimers cb /\
  (state cb = OPEN /\ resetTimeout cb <= t - toNumber (lastFailureTime cb) /\
   cba = withState HALF_OPEN cb
   \/ state cb <> OPEN /\ cba = cb).
Proof.
  unfold gateCheck. destruct (state cb) eqn:Hs.
  - intros [= <-]. repeat split. right. split; [congruence | reflexivity].
  - destruct (Z.ltb_spec (t - toNumber (lastFailureTime cb)) (resetTimeout cb)); [discriminate |].
    intros [= <-]. repeat split. left. repeat split; [assumption].
  - intros [= <-]. repeat split. right. split; [congruence | reflexivity].
Qed.

Lemma gateCheck_inr cb t e :
  gateCheck cb t = inr e ->
  state cb = OPEN /\ t - toNumber (lastFailureTime cb) < resetTimeout cb /\
  e = circuitOpenError cb t.
Proof.
  unfold gateCheck. destruct (state cb) eqn:Hs; try discriminate.
  destruct (Z.ltb_spec (t - toNumber (lastFailureTime cb)) (resetTimeout cb)); [| discriminate].
  intros [= <-]. auto.
Qed.

Lemma execute_cases fn cb σ r cb' σ' :
  execute fn cb σ = (r, cb', σ') -> ExecuteCase fn cb σ r cb' σ'.
Proof.
  unfold execute.
  destruct (gateCheck (withStats countRequest cb) (now σ)) as [cba | err] eqn:Hadm.
  - destruct (gateCheck_inl _ _ _ Hadm) as (Hcfg & Hfc & Hst & Hpt & Hcase).
    assert (Htm : timeout cba = timeout cb) by (destruct Hcfg as (_&_&H&_); exact H).
    rewrite Htm.
    destruct (settlesFirst (timerDelay (timeout cb)) (fn (calls σ)))
      as [[d [v | e]] |] eqn:Hrace.
    + intros [= <- <- <-].
      eapply exec_success; eauto; reflexivity.
    + intros [= <- <- <-].
      eapply exec_failure; eauto.
      * unfold failsWithin. rewrite Hrace. exact I.
      * eapply sameConfig_trans; [| apply onFailure_sameConfig].
        destruct Hcfg as (?&?&?&?). repeat split; simpl; assumption.
      * rewrite onFailure_failureCount. simpl. rewrite Hfc. reflexivity.
      * rewrite onFailure_lastFailureTime. reflexivity.
      * rewrite onFailure_state. simpl.
        destruct Hcfg as (_&Hth&_&_). simpl in Hth. rewrite Hth, Hfc. reflexivity.
      * rewrite onFailure_circuitOpenCount. simpl.
        destruct Hcfg as (_&Hth&_&_). simpl in Hth. rewrite Hth, Hfc, Hst. reflexivity.
    + intros [= <- <- <-].
      eapply exec_failure; eauto.
      * unfold failsWithin. rewrite Hrace. exact I.
      * eapply sameConfig_trans; [| apply onFailure_sameConfig].
        destruct Hcfg as (?&?&?&?). repeat split; simpl; assumption.
      * rewrite onFailure_failureCount. simpl. rewrite Hfc. reflexivity.
      * rewrite onFailure_lastFailureTime. reflexivity.
      * rewrite onFailure_state. simpl.
        destruct Hcfg as (_&Hth&_&_). simpl in Hth. rewrite Hth, Hfc. reflexivity.
      * rewrite onFailure_circuitOpenCount. simpl.
        destruct Hcfg as (_&Hth&_&_). simpl in Hth. rewrite Hth, Hfc, Hst. reflexivity.
      * left. split; [exact Hrace |]. split; [| reflexivity].
        apply timeoutError_sameConfig, onFailure_sameConfig.
  - destruct (gateCheck_inr _ _ _ Hadm) as (Hs & Hlt & ->).
    intros [= <- <- <-]. apply exec_rejected; assumption.
Qed.

Lemma idle_spec gap cb σ cb1 σ1 :
  idle gap cb σ = (cb1, σ1) ->
  cb1 = runTimers (now σ + gap) cb /\ now σ1 = now σ + gap /\ calls σ1 = calls σ.
Proof. unfold idle. intros [= <- <-]. auto. Qed.

(** Failing calls below the threshold leave the circuit closed; the call
    that reaches the threshold opens it. *)
Lemma failures_reach_threshold gaps : forall fn cb σ rs cb' σ',
  gaps <> [] ->
  state cb = CLOSED ->
  failureCount cb + Z.of_nat (length gaps) = failureThreshold cb ->
  (forall k, (k < length gaps)%nat ->
     failsWithin (timerDelay (timeout cb)) (fn (calls σ + k)%nat)) ->
  executeMany gaps fn cb σ = (rs, cb', σ') ->
  state cb' = OPEN /\
  Stats.circuitOpenCount (stats cb') = Stats.circuitOpenCount (stats cb) + 1 /\
  failureCount cb' = failureThreshold cb /\
  lastFailureTime cb' = Some (now σ') /\
  sameConfig cb cb' /\
  Forall isThrow rs /\
  calls σ' = (calls σ + length gaps)%nat.
Proof.
  induction gaps as [| gap gaps IH]; intros fn cb σ rs cb' σ' Hne Hst Hfc Hfail Hrun;
    [congruence |].
  cbn [executeMany] in Hrun.
  destruct (idle gap cb σ) as [cb1 σ1] eqn:Hidle.
  destruct (execute fn cb1 σ1) as [[r cb2] σ2] eqn:Hex.
  destruct (executeMany gaps fn cb2 σ2) as [[rs3 cb3] σ3] eqn:Hrest.
  injection Hrun as <- <- <-.
  apply idle_spec in Hidle as (-> & Hnow1 & Hcalls1).
  apply execute_cases in Hex.
  assert (Hf0 : failsWithin (timerDelay (timeout cb)) (fn (calls σ1))).
  { rewrite Hcalls1. specialize (Hfail 0%nat). rewrite Nat.add_0_r in Hfail.
    apply Hfail. simpl. lia. }
  inversion Hex as [Hopen _ | cba d v cb'' σ'' Hadm Hrace | cba e cb'' σ'' Hadm _ Hcalls Hcfg Hfc2 Hlast Hst2 Hcnt _];
    subst.
  - simpl in Hopen. congruence.
  - exfalso. simpl in Hrace. unfold failsWithin in Hf0. rewrite Hrace in Hf0. exact Hf0.
  - apply gateCheck_inl in Hadm as (_ & _ & _ & _ & Hadm). simpl in *.
    destruct Hadm as [(Hopen & _) | (_ & ->)]; [congruence |]. simpl in Hst2.
    destruct gaps as [| gap' gaps'].
    + simpl in Hrest. injection Hrest as <- <- <-. simpl in Hfc.
      destruct (Z.leb_spec (failureThreshold cb) (failureCount cb + 1)); [| lia].
      repeat split; try (destruct Hcfg as (?&?&?&?); assumption); try assumption; try lia.
      * repeat constructor.
      * rewrite Hcalls, Hcalls1. simpl. lia.
    + destruct (Z.leb_spec (failureThreshold cb) (failureCount cb + 1));
        [simpl in Hfc; lia |].
      assert (Hcfg' := Hcfg). destruct Hcfg' as (Hn & Hth & Hto & Hrt).
      simpl in Hn, Hth, Hto, Hrt.
      specialize (IH fn cb2 σ2 rs3 cb3 σ3).
      destruct IH as (H1 & H2 & H3 & H4 & H5 & H6 & H7); try assumption.
      * discriminate.
      * rewrite Hst2. exact Hst.
      * rewrite Hfc2, Hth. simpl length in *. lia.
      * intros k Hk. rewrite Hto, Hcalls, Hcalls1.
        replace (S (calls σ) + k)%nat with (calls σ + S k)%nat by lia.
        apply Hfail. simpl. simpl in Hk. lia.
      * repeat split; try assumption.
        -- rewrite H2, Hcnt. lia.
        -- rewrite H3. exact Hth.
        -- destruct H5 as (?&?&?&?). congruence.
        -- destruct H5 as (?&?&?&?). congruence.
        -- destruct H5 as (?&?&?&?). congruence.
        -- destruct H5 as (?&?&?&?). congruence.
        -- constructor; [exact I | assumption].
        -- rewrite H7, Hcalls, Hcalls1. simpl. lia.
Qed.

(** C2. While the circuit is OPEN and less than [resetTimeout] has elapsed
    since the last failure, [execute] throws the CIRCUIT_OPEN error at once:
    the wrapped operation is not invoked ([calls] and the clock are left as
    they were, whatever the operation is), and [stats.totalRequests] has
    nevertheless been incremented. *)
Theorem C2_open_circuit_rejects_without_invoking (fn : AsyncFn) (cb : CircuitBreaker) (σ : World) :
  state cb = OPEN ->
  now σ - toNumber (lastFailureTime cb) < resetTimeout cb ->
  exists error cb',
    execute fn cb σ = (Throws error, cb', σ) /\
    code error = Some "CIRCUIT_OPEN"%string /\
    classifyError error = CIRCUIT_BREAKER_ERROR /\
    Stats.totalRequests (stats cb') = Stats.totalRequests (stats cb) + 1 /\
    Stats.successfulRequests (stats cb') = Stats.successfulRequests (stats cb) /\
    Stats.failedRequests (stats cb') = Stats.failedRequests (stats cb) /\
    state cb' = OPEN /\ failureCount cb' = failureCount cb /\
    pendingTimers cb' = pendingTimers cb.
Proof.
  intros Hs Hlt.
  exists (circuitOpenError (withStats countRequest cb) (now σ)), (withStats countRequest cb).
  split.
  - unfold execute. rewrite gateCheck_open_cooling by assumption. reflexivity.
  - repeat split; try reflexivity. exact Hs.
Qed.

(** C1. For every threshold T (at least 1), T consecutive failing calls to
    [execute] on a new breaker open the circuit with [circuitOpenCount] 1;
    when the next call comes [resetTimeout] or more after the last failure
    it is let through in state HALF_OPEN and the operation is invoked; if that
    probe succeeds the state is CLOSED with [failureCount] 0, if it fails
    the state is OPEN again. *)
Theorem C1_threshold_failures_open_then_probe
    (T : Z) (nm : string) (tmo rst : option Z) (gaps : list Z) (fn : AsyncFn) (σ : World) :
  let cb0 := newCircuitBreaker nm
               {| opt_failureThreshold := Some T; opt_timeout := tmo;
                  opt_resetTimeout := rst |} in
  0 < T ->
  Z.of_nat (length gaps) = T ->
  (forall k, (k < length gaps)%nat ->
     failsWithin (timerDelay (timeout cb0)) (fn (calls σ + k)%nat)) ->
  exists rs cb σ',
    executeMany gaps fn cb0 σ = (rs, cb, σ') /\
    Forall isThrow rs /\
    calls σ' = (calls σ + length gaps)%nat /\
    state cb = OPEN /\
    Stats.circuitOpenCount (stats cb) = 1 /\
    lastFailureTime cb = Some (now σ') /\
    forall gap, resetTimeout cb <= gap ->
      exists cb1 σ1 probe,
        idle gap cb σ' = (cb1, σ1) /\
        gateCheck (withStats countRequest cb1) (now σ1) = inl probe /\
        state probe = HALF_OPEN /\
        forall r cb2 σ2, execute fn cb1 σ1 = (r, cb2, σ2) ->
          calls σ2 = S (calls σ1) /\
          match r with
          | Returns _ => state cb2 = CLOSED /\ failureCount cb2 = 0
          | Throws _ => state cb2 = OPEN
          end.
Proof.
  intros cb0 HT Hlen Hfail.
  destruct (executeMany gaps fn cb0 σ) as [[rs cb] σ'] eqn:Hrun.
  assert (Hth0 : failureThreshold cb0 = T).
  { unfold cb0, newCircuitBreaker, orDefault. simpl.
    destruct (Z.eqb_spec T 0); [lia | reflexivity]. }
  destruct (failures_reach_threshold gaps fn cb0 σ rs cb σ')
    as (Hst & Hcnt & Hfc & Hlast & Hcfg & Hthrows & Hcalls); try assumption.
  { destruct gaps; [simpl in Hlen; lia | discriminate]. }
  { reflexivity. }
  { rewrite Hth0. simpl. lia. }
  exists rs, cb, σ'. repeat split; try assumption.
  intros gap Hgap.
  destruct (idle gap cb σ') as [cb1 σ1] eqn:Hidle.
  apply idle_spec in Hidle as (-> & Hnow1 & Hcalls1).
  assert (Hel : resetTimeout cb <= now σ1 - toNumber (lastFailureTime cb)).
  { rewrite Hlast, Hnow1. simpl. lia. }
  exists (runTimers (now σ' + gap) cb), σ1,
    (withState HALF_OPEN (withStats countRequest (runTimers (now σ' + gap) cb))).
  split; [reflexivity |].
  split; [apply gateCheck_open_elapsed; simpl; assumption |].
  split; [reflexivity |].
  intros r cb2 σ2 Hex. apply execute_cases in Hex.
  inversion Hex as [Hopen Hlt | cba d v cb'' σ'' Hadm Hrace Hc ? ? Hs2 Hf2
                   | cba e cb'' σ'' Hadm _ Hc Hcfg2 Hfc2 Hlast2 Hst2 _ _]; subst.
  - simpl in Hlt. lia.
  - auto.
  - split; [assumption |]. simpl in Hst2. rewrite Hst2.
    destruct Hcfg as (_ & Hth & _). 
    destruct (Z.leb_spec (failureThreshold cb) (failureCount cb + 1)); [reflexivity | lia].
Qed.

(** ** Properties of the wrapper *)

Lemma truthy_Some (o : option Z) :
  o <> Some 0 -> truthy o = match o with Some _ => true | None => false end.
Proof.
  destruct o as [u |]; [| reflexivity]. intros Hne. simpl.
  destruct (Z.eqb_spec u 0); [subst; congruence | reflexivity].
Qed.

Lemma hasOpenCircuit_iff (w : RobustGtfsWrapper) :
  existsb (fun cb => State_eqb (state cb) OPEN) (breakerValues w) = true <->
  exists cb, In cb (breakerValues w) /\ state cb = OPEN.
Proof.
  rewrite existsb_exists. split; intros (cb & Hin & Hs); exists cb; split; try assumption.
  - destruct (state cb); simpl in Hs; congruence.
  - rewrite Hs. reflexivity.
Qed.

(** C5. The aggregated status is DEGRADED whenever [lastSuccessfulUpdate] is
    set and more than five minutes old, whatever the first determination
    was, an open breaker included; otherwise it is CRITICAL if a breaker is
    OPEN or [consecutiveFailures >= 5], else WARNING if
    [consecutiveFailures >= 1], else HEALTHY. (A timestamp is "set" when it
    is not [null]; the clock does not read 0.) *)
Theorem C5_staleness_overrides_first_determination (t : Z) (w : RobustGtfsWrapper) :
  lastSuccessfulUpdate w <> Some 0 ->
  let stale := exists u, lastSuccessfulUpdate w = Some u /\ 300000 < t - u in
  let anyOpen := exists cb, In cb (breakerValues w) /\ state cb = OPEN in
  let critical := anyOpen \/ 5 <= consecutiveFailures w in
  let result := status (getHealthStatus t w) in
  (stale -> result = DEGRADED) /\
  (~ stale -> critical -> result = CRITICAL) /\
  (~ stale -> ~ critical -> 1 <= consecutiveFailures w -> result = WARNING) /\
  (~ stale -> ~ critical -> consecutiveFailures w < 1 -> result = HEALTHY).
Proof.
  intros Hclock stale anyOpen critical result.
  subst result. unfold getHealthStatus. cbn [status].
  rewrite (truthy_Some _ Hclock).
  assert (Hstale : stale <->
            match lastSuccessfulUpdate w with Some _ => true | None => false end
            && (300000 <? t - toNumber (lastSuccessfulUpdate w)) = true).
  { subst stale. destruct (lastSuccessfulUpdate w) as [u |]; simpl.
    - rewrite Z.ltb_lt. split; [intros (u' & [= <-] & H); exact H | eauto].
    - split; [intros (u' & [=] & _) | discriminate]. }
  assert (Hopen := hasOpenCircuit_iff w). fold anyOpen in Hopen.
  destruct (match lastSuccessfulUpdate w with Some _ => true | None => false end
            && (300000 <? t - toNumber (lastSuccessfulUpdate w))) eqn:Hs.
  - repeat split; try reflexivity; intros Hn; exfalso; apply Hn, Hstale; reflexivity.
  - assert (Hns : ~ stale) by (rewrite Hstale; discriminate).
    destruct (existsb _ (breakerValues w)) eqn:Hex.
    + assert (anyOpen) by (apply Hopen; reflexivity).
      repeat split; try reflexivity; try tauto.
      * intros _ Hc. exfalso. apply Hc. left. assumption.
      * intros _ Hc. exfalso. apply Hc. left. assumption.
    + assert (Hno : ~ anyOpen) by (rewrite <- Hopen; discriminate).
      destruct (Z.leb_spec 5 (consecutiveFailures w)).
      * repeat split; try reflexivity; try tauto.
        -- intros _ Hc. exfalso. apply Hc. right. assumption.
        -- intros _ Hc. exfalso. apply Hc. right. assumption.
      * destruct (Z.leb_spec 1 (consecutiveFailures w)).
        -- repeat split; try reflexivity; try tauto.
           ++ intros _ [Hc | Hc]; [tauto | lia].
           ++ intros; lia.
        -- repeat split; try reflexivity; try tauto.
           ++ intros _ [Hc | Hc]; [tauto | lia].
           ++ intros; lia.
Qed.

Lemma shouldRetry_iff (error : JsError) (errorType : ErrorType) :
  shouldRetry error errorType = true <->
  errorType = NETWORK_ERROR \/ errorType = TIMEOUT_ERROR \/ errorType = UNKNOWN_ERROR.
Proof.
  destruct errorType; simpl; split; intros H; try discriminate; auto;
    destruct H as [H | [H | H]]; discriminate.
Qed.

(** An error of a class that is not retried ends the operation in
    [handleUpdateError], whatever the re-entry would do. *)
Lemma handleUpdateError_terminal error operationId w σ :
  shouldRetry error (classifyError error) = false ->
  exists w',
    (forall retry,
       handleUpdateError retry error operationId w σ =
       Some (Returns (Degraded (getGracefulFallback (now σ) w')), w', σ)) /\
    consecutiveFailures w' = consecutiveFailures w + 1 /\
    lastSuccessfulUpdate w' = lastSuccessfulUpdate w.
Proof.
  intros Hno. unfold handleUpdateError. rewrite Hno.
  destruct (codeIs error "CIRCUIT_OPEN").
  - eexists. split; [intros retry; reflexivity |]. split; reflexivity.
  - cbn [getCurrentRetryCount andb]. eexists. split; [intros retry; reflexivity |].
    split; reflexivity.
Qed.

Lemma execute_rejects_in_time fn cb σ d error :
  letsThrough cb (now σ) = true ->
  fn (calls σ) = Rejects d error ->
  d < timerDelay (timeout cb) ->
  exists cb',
    execute fn cb σ = (Throws error, cb', atTime (now σ + d) (invoked σ)).
Proof.
  intros Hadm Hfn Hd. unfold execute.
  assert (Ha : exists cba, gateCheck (withStats countRequest cb) (now σ) = inl cba
                            /\ timeout cba = timeout cb).
  { unfold letsThrough, gateCheck in Hadm. unfold gateCheck. cbn [state withStats lastFailureTime resetTimeout].
    destruct (state cb).
    - eexists; split; reflexivity.
    - destruct (now σ - toNumber (lastFailureTime cb) <? resetTimeout cb); [discriminate |].
      eexists; split; reflexivity.
    - eexists; split; reflexivity. }
  destruct Ha as (cba & -> & Htm). rewrite Htm, Hfn. cbn [settlesFirst].
  destruct (Z.ltb_spec d (timerDelay (timeout cb))); [| lia].
  eexists. reflexivity.
Qed.

(** C6. Only errors classified NETWORK_ERROR, TIMEOUT_ERROR or UNKNOWN_ERROR
    are candidates for a retry; an error classified DATA_FORMAT_ERROR or
    CIRCUIT_BREAKER_ERROR ends the operation in the fallback without any
    re-entry; and when the first attempt is rejected by the operation with
    an error classified DATA_FORMAT_ERROR, the update ends with exactly one
    invocation of the wrapped operation. *)
Theorem C6_retry_only_transient_errors :
  (forall error errorType,
     shouldRetry error errorType = true <->
     errorType = NETWORK_ERROR \/ errorType = TIMEOUT_ERROR \/ errorType = UNKNOWN_ERROR) /\
  (forall error operationId w σ,
     classifyError error = DATA_FORMAT_ERROR \/
     classifyError error = CIRCUIT_BREAKER_ERROR ->
     exists w',
       forall retry,
         handleUpdateError retry error operationId w σ =
         Some (Returns (Degraded (getGracefulFallback (now σ) w')), w', σ)) /\
  (forall fuel gtfs w σ d error,
     letsThrough (getBreaker (selectCircuitBreaker w) w) (now σ) = true ->
     gtfs (calls σ) = Rejects d error ->
     d < timerDelay (timeout (getBreaker (selectCircuitBreaker w) w)) ->
     classifyError error = DATA_FORMAT_ERROR ->
     exists fb w' σ',
       fullProtectionMode (S fuel) gtfs w σ = Some (Returns (Degraded fb), w', σ') /\
       calls σ' = S (calls σ)).
Proof.
  split; [exact shouldRetry_iff |]. split.
  - intros error operationId w σ Hclass.
    destruct (handleUpdateError_terminal error operationId w σ) as (w' & H & _).
    + destruct Hclass as [-> | ->]; reflexivity.
    + exists w'. exact H.
  - intros fuel gtfs w σ d error Hadm Hfn Hd Hclass.
    destruct (execute_rejects_in_time gtfs _ σ d error Hadm Hfn Hd) as (cb' & Hex).
    cbn [fullProtectionMode]. rewrite Hex.
    match goal with
    | |- context [handleUpdateError ?k error ?id ?w0 ?s0] =>
        destruct (handleUpdateError_terminal error id w0 s0) as (w' & H & _);
          [rewrite Hclass; reflexivity | rewrite (H k)]
    end.
    eexists _, _, _. split; reflexivity.
Qed.

Lemma timerDelay_le (ms bound : Z) : 1 <= bound -> ms <= bound -> timerDelay ms <= bound.
Proof.
  intros Hb Hms. unfold timerDelay.
  destruct ((1 <=? ms) && (ms <=? 2147483647)); lia.
Qed.

Lemma getRetryDelay_le (n : Z) : getRetryDelay n <= 30000.
Proof. unfold getRetryDelay. lia. Qed.

Lemma getBreaker_setBreaker k cb w : getBreaker k (setBreaker k cb w) = cb.
Proof. destruct k; reflexivity. Qed.

Lemma getBreaker_runAllTimers k t w :
  getBreaker k (runAllTimers t w) = runTimers t (getBreaker k w).
Proof. destruct k; reflexivity. Qed.

(** The fallback object, when the clock did not read 0 at the last success. *)
Lemma getGracefulFallback_fields t w :
  lastSuccessfulUpdate w <> Some 0 ->
  getGracefulFallback t w =
  {| success := false;
     fallbackApplied := true;
     fallbackMessage := "Using cached realtime data due to update failures";
     timeSinceLastSuccess :=
       match lastSuccessfulUpdate w with
       | Some u => Some (t - u)
       | None => None
       end |}.
Proof.
  intros Hne. unfold getGracefulFallback. rewrite (truthy_Some _ Hne).
  destruct (lastSuccessfulUpdate w); reflexivity.
Qed.

Lemma setBreaker_fields k cb w :
  lastSuccessfulUpdate (setBreaker k cb w) = lastSuccessfulUpdate w /\
  consecutiveFailures (setBreaker k cb w) = consecutiveFailures w /\
  retryTracker (setBreaker k cb w) = retryTracker w /\
  config (setBreaker k cb w) = config w /\
  nativeTimeoutSupported (setBreaker k cb w) = nativeTimeoutSupported w /\
  wrapperEnabled (setBreaker k cb w) = wrapperEnabled w.
Proof. destruct k; repeat split. Qed.

Lemma lastSuccessfulUpdate_setBreaker k cb w :
  lastSuccessfulUpdate (setBreaker k cb w) = lastSuccessfulUpdate w.
Proof. apply setBreaker_fields. Qed.

Lemma consecutiveFailures_setBreaker k cb w :
  consecutiveFailures (setBreaker k cb w) = consecutiveFailures w.
Proof. apply setBreaker_fields. Qed.

Lemma getBreaker_withTracker k m w : getBreaker k (withTracker m w) = getBreaker k w.
Proof. destruct k; reflexivity. Qed.

(** The wrapper at a re-entry: the same breaker is selected. *)
Lemma reentry_fields w cb' t1 t2 m :
  let key := selectCircuitBreaker w in
  let w2 := runAllTimers t2 (withTracker m (runAllTimers t1 (setBreaker key cb' w))) in
  selectCircuitBreaker w2 = key /\
  getBreaker key w2 = runTimers t2 (runTimers t1 cb') /\
  config w2 = config w /\
  retryTracker w2 = m /\
  lastSuccessfulUpdate w2 = lastSuccessfulUpdate w.
Proof.
  intros key w2. subst w2. repeat split.
  - unfold selectCircuitBreaker at 1.
    cbn [consecutiveFailures runAllTimers withBreakers withTracker].
    rewrite consecutiveFailures_setBreaker. reflexivity.
  - rewrite getBreaker_runAllTimers, getBreaker_withTracker,
      getBreaker_runAllTimers, getBreaker_setBreaker. reflexivity.
  - cbn [config runAllTimers withBreakers withTracker]. apply setBreaker_fields.
  - cbn [lastSuccessfulUpdate runAllTimers withBreakers withTracker].
    apply setBreaker_fields.
Qed.

(** One entry into [fullProtectionMode]: it settles, or it re-enters after
    a failure recorded by the selected breaker and a pause of at most 30 s. *)
Lemma fullProtectionMode_step fuel gtfs w σ :
  let key := selectCircuitBreaker w in
  let cb := getBreaker key w in
  (exists r w' σ',
     fullProtectionMode (S fuel) gtfs w σ = Some (r, w', σ') /\
     (r = Returns (Degraded (getGracefulFallback (now σ') w')) /\
      lastSuccessfulUpdate w' = lastSuccessfulUpdate w
      \/ exists v, r = Returns (Data v)))
  \/
  (exists w2 σ2,
     fullProtectionMode (S fuel) gtfs w σ = fullProtectionMode fuel gtfs w2 σ2 /\
     selectCircuitBreaker w2 = key /\
     lastSuccessfulUpdate w2 = lastSuccessfulUpdate w /\
     sameConfig cb (getBreaker key w2) /\
     failureCount (getBreaker key w2) = failureCount cb + 1 /\
     (failureThreshold cb <= failureCount cb + 1 -> state (getBreaker key w2) = OPEN) /\
     exists tf, lastFailureTime (getBreaker key w2) = Some tf /\ now σ2 - tf <= 30000).
Proof.
  intros key cb. cbn [fullProtectionMode]. fold key. fold cb.
  destruct (execute gtfs cb σ) as [[r cb'] σ1] eqn:Hex.
  apply execute_cases in Hex.
  destruct r as [v | e].
  - left. eexists _, _, _. split; [reflexivity |]. right. eauto.
  - unfold handleUpdateError.
    destruct (codeIs e "CIRCUIT_OPEN") eqn:Hcode.
    + left. eexists _, _, _. split; [reflexivity |]. left.
      split; [reflexivity |]. apply lastSuccessfulUpdate_setBreaker.
    + cbn [getCurrentRetryCount].
      match goal with
      | |- context [if ?c then _ else _] => destruct c eqn:Hretry
      end.
      * right. cbn [sleep].
        eexists _, _. split; [reflexivity |].
        inversion Hex as [Hopen Hlt | | cba e' cb'' σ'' Hadm _ Hc Hcfg Hfc Hlast Hst _ _]; subst.
        { exfalso. cbn in Hcode. discriminate. }
        split.
        { unfold selectCircuitBreaker at 1.
          cbn [consecutiveFailures runAllTimers withBreakers withTracker].
          rewrite consecutiveFailures_setBreaker. reflexivity. }
        split.
        { cbn [lastSuccessfulUpdate runAllTimers withBreakers withTracker].
          apply lastSuccessfulUpdate_setBreaker. }
        rewrite getBreaker_runAllTimers, getBreaker_withTracker,
          getBreaker_runAllTimers, getBreaker_setBreaker.
        split; [eapply sameConfig_trans; [exact Hcfg |];
                eapply sameConfig_trans; apply runTimers_sameConfig |].
        split; [exact Hfc |].
        split.
        { intros Hth. cbn [runTimers withTimers withStats state]. rewrite Hst.
          destruct (Z.leb_spec (failureThreshold cb) (failureCount cb + 1)); [reflexivity | lia]. }
        exists (now σ1). split; [exact Hlast |].
        cbn [atTime now].
        match goal with
        | |- now σ1 + timerDelay ?d - now σ1 <= _ =>
            assert (timerDelay d <= 30000)
              by (apply timerDelay_le; [lia | apply getRetryDelay_le]); lia
        end.
      * left. eexists _, _, _. split; [reflexivity |]. left.
        split; [reflexivity |]. apply lastSuccessfulUpdate_setBreaker.
Qed.

(** When the selected breaker is OPEN and still cooling down, the entry
    ends at once in the fallback. *)
Lemma fullProtectionMode_open fuel gtfs w σ :
  let cb := getBreaker (selectCircuitBreaker w) w in
  state cb = OPEN ->
  now σ - toNumber (lastFailureTime cb) < resetTimeout cb ->
  exists w',
    fullProtectionMode (S fuel) gtfs w σ =
    Some (Returns (Degraded (getGracefulFallback (now σ) w')), w', σ) /\
    lastSuccessfulUpdate w' = lastSuccessfulUpdate w.
Proof.
  intros cb Hs Hlt. cbn [fullProtectionMode]. fold cb.
  unfold execute. rewrite gateCheck_open_cooling by assumption.
  unfold handleUpdateError. cbn [codeIs code circuitOpenError].
  replace (String.eqb "CIRCUIT_OPEN" "CIRCUIT_OPEN") with true by reflexivity.
  eexists. split; [reflexivity |].
  cbn [lastSuccessfulUpdate countFailure runAllTimers withBreakers].
  apply lastSuccessfulUpdate_setBreaker.
Qed.

(** With a cool-down longer than the longest pause between attempts, the
    retries stop, at the latest at the rejection that follows the opening of
    the circuit. *)
Lemma fullProtectionMode_settles gtfs (n : nat) : forall w σ,
  let cb := getBreaker (selectCircuitBreaker w) w in
  30000 < resetTimeout cb ->
  failureThreshold cb - failureCount cb <= Z.of_nat n ->
  exists r w' σ', fullProtectionMode (S (S n)) gtfs w σ = Some (r, w', σ').
Proof.
  induction n as [| n IH]; intros w σ cb Hreset Hmeasure.
  - destruct (fullProtectionMode_step 1 gtfs w σ)
      as [(r & w' & σ' & Hrun & _) | (w2 & σ2 & Hrun & Hkey & _ & Hcfg & Hfc & Hopen & tf & Hlast & Hel)].
    + eauto.
    + fold cb in Hcfg, Hfc, Hopen. rewrite Hrun.
      destruct (fullProtectionMode_open 0 gtfs w2 σ2) as (w' & Hrun2 & _).
      * rewrite Hkey. apply Hopen. simpl in Hmeasure. lia.
      * rewrite Hkey, Hlast. destruct Hcfg as (_ & _ & _ & Hrt). rewrite Hrt.
        simpl. lia.
      * eauto.
  - destruct (fullProtectionMode_step (S (S n)) gtfs w σ)
      as [(r & w' & σ' & Hrun & _) | (w2 & σ2 & Hrun & Hkey & _ & Hcfg & Hfc & Hopen & tf & Hlast & Hel)].
    + eauto.
    + fold cb in Hcfg, Hfc, Hopen. rewrite Hrun. apply IH.
      * rewrite Hkey. destruct Hcfg as (_ & _ & _ & Hrt). rewrite Hrt. exact Hreset.
      * rewrite Hkey. destruct Hcfg as (_ & Hth & _). rewrite Hth, Hfc. lia.
Qed.

(** Every settled run of [fullProtectionMode] resolves, with the data of
    the operation or with the fallback object. *)
Lemma fullProtectionMode_result gtfs (fuel : nat) : forall w σ r w' σ',
  fullProtectionMode fuel gtfs w σ = Some (r, w', σ') ->
  (exists v, r = Returns (Data v)) \/
  r = Returns (Degraded (getGracefulFallback (now σ') w')) /\
  lastSuccessfulUpdate w' = lastSuccessfulUpdate w.
Proof.
  induction fuel as [| fuel IH]; intros w σ r w' σ' Hrun; [discriminate |].
  destruct (fullProtectionMode_step fuel gtfs w σ)
    as [(r0 & w0 & σ0 & Hrun0 & Hres) | (w2 & σ2 & Hrun2 & _ & Hlsu & _)].
  - rewrite Hrun0 in Hrun. injection Hrun as <- <- <-. tauto.
  - rewrite Hrun2 in Hrun. apply IH in Hrun. rewrite Hlsu in Hrun. exact Hrun.
Qed.

Lemma handleUpdateError_gives_up retry error operationId w σ :
  codeIs error "CIRCUIT_OPEN" = true \/
  shouldRetry error (classifyError error) = false \/
  Config.retries (config w) <= toNumber (retryTracker w !! operationId) ->
  exists w',
    handleUpdateError retry error operationId w σ =
      Some (Returns (Degraded (getGracefulFallback (now σ) w')), w', σ) /\
    consecutiveFailures w' = consecutiveFailures w + 1 /\
    lastSuccessfulUpdate w' = lastSuccessfulUpdate w.
Proof.
  intros Hterminal. unfold handleUpdateError.
  destruct (codeIs error "CIRCUIT_OPEN") eqn:Hcode.
  - eexists. split; [reflexivity |]. split; reflexivity.
  - cbn [getCurrentRetryCount].
    match goal with
    | |- context [if ?c then _ else _] => destruct c eqn:Hretry
    end.
    + exfalso. apply andb_true_iff in Hretry as [Hshould Hcount].
      cbn [config withTracker] in Hcount. apply Z.ltb_lt in Hcount.
      destruct Hterminal as [H | [H | H]]; [discriminate | congruence | lia].
    + eexists. split; [reflexivity |]. split; reflexivity.
Qed.

Lemma fullProtectionMode_attempt fuel gtfs w σ :
  let key := selectCircuitBreaker w in
  let limit := timerDelay (timeout (getBreaker key w)) in
  (exists v d w' σ',
     fullProtectionMode (S fuel) gtfs w σ = Some (Returns (Data v), w', σ') /\
     calls σ' = S (calls σ) /\
     settlesFirst limit (gtfs (calls σ)) = Some (d, Returns v))
  \/
  (exists w' σ',
     fullProtectionMode (S fuel) gtfs w σ =
       Some (Returns (Degraded (getGracefulFallback (now σ') w')), w', σ') /\
     lastSuccessfulUpdate w' = lastSuccessfulUpdate w /\
     (calls σ' = calls σ \/
      calls σ' = S (calls σ) /\ failsWithin limit (gtfs (calls σ))))
  \/
  (exists w2 σ2,
     fullProtectionMode (S fuel) gtfs w σ = fullProtectionMode fuel gtfs w2 σ2 /\
     selectCircuitBreaker w2 = key /\
     timeout (getBreaker key w2) = timeout (getBreaker key w) /\
     lastSuccessfulUpdate w2 = lastSuccessfulUpdate w /\
     calls σ2 = S (calls σ) /\
     failsWithin limit (gtfs (calls σ))).
Proof.
  intros key limit. subst limit. cbn [fullProtectionMode]. fold key.
  set (cb := getBreaker key w).
  destruct (execute gtfs cb σ) as [[r cb'] σ1] eqn:Hex.
  apply execute_cases in Hex.
  destruct r as [v | e].
  - left. inversion Hex as [| cba d v' cb'' σ'' _ Hrace Hc _ _ _ _ |]; subst.
    eexists v, d, _, _. split; [reflexivity |]. split; [exact Hc | exact Hrace].
  - assert (Hcalls : calls σ1 = calls σ \/
                     calls σ1 = S (calls σ) /\
                     failsWithin (timerDelay (timeout cb)) (gtfs (calls σ))).
    { inversion Hex as [| | cba e' cb'' σ'' _ Hfail Hc _ _ _ _ _ _]; subst;
        [left; reflexivity | right; split; assumption]. }
    unfold handleUpdateError.
    destruct (codeIs e "CIRCUIT_OPEN") eqn:Hcode.
    + right. left. eexists _, _. split; [reflexivity |].
      split; [apply lastSuccessfulUpdate_setBreaker | exact Hcalls].
    + cbn [getCurrentRetryCount].
      match goal with
      | |- context [if ?c then _ else _] => destruct c eqn:Hretry
      end.
      * right. right. cbn [sleep].
        eexists _, _. split; [reflexivity |].
        inversion Hex as [Hopen Hlt | | cba e' cb'' σ'' _ Hfail Hc Hcfg _ _ _ _ _]; subst.
        { exfalso. cbn in Hcode. discriminate. }
        split.
        { unfold selectCircuitBreaker at 1.
          cbn [consecutiveFailures runAllTimers withBreakers withTracker].
          rewrite consecutiveFailures_setBreaker. reflexivity. }
        split.
        { rewrite getBreaker_runAllTimers, getBreaker_withTracker,
            getBreaker_runAllTimers, getBreaker_setBreaker.
          match goal with
          | |- timeout ?x = _ =>
              assert (Hsame : sameConfig cb x)
                by (eapply sameConfig_trans; [exact Hcfg |];
                    eapply sameConfig_trans; apply runTimers_sameConfig)
          end.
          destruct Hsame as (_ & _ & Hto & _). congruence. }
        split.
        { cbn [lastSuccessfulUpdate runAllTimers withBreakers withTracker].
          apply lastSuccessfulUpdate_setBreaker. }
        split; [exact Hc | exact Hfail].
      * right. left. eexists _, _. split; [reflexivity |].
        split; [apply lastSuccessfulUpdate_setBreaker | exact Hcalls].
Qed.

Lemma fullProtectionMode_origin gtfs (fuel : nat) : forall w σ r w' σ',
  fullProtectionMode fuel gtfs w σ = Some (r, w', σ') ->
  let limit := timerDelay (timeout (getBreaker (selectCircuitBreaker w) w)) in
  (exists v d,
     r = Returns (Data v) /\ (calls σ < calls σ')%nat /\
     settlesFirst limit (gtfs (calls σ' - 1)%nat) = Some (d, Returns v))
  \/
  (r = Returns (Degraded (getGracefulFallback (now σ') w')) /\
   lastSuccessfulUpdate w' = lastSuccessfulUpdate w /\
   forall k, (calls σ <= k < calls σ')%nat -> failsWithin limit (gtfs k)).
Proof.
  induction fuel as [| fuel IH]; intros w σ r w' σ' Hrun limit; [discriminate |].
  subst limit.
  destruct (fullProtectionMode_attempt fuel gtfs w σ)
    as [(v & d & w0 & σ0 & Hrun0 & Hc & Hrace)
       | [(w0 & σ0 & Hrun0 & Hlsu & Hc)
         | (w2 & σ2 & Hrun2 & Hkey & Hto & Hlsu & Hc & Hfail)]].
  - rewrite Hrun0 in Hrun. injection Hrun as <- <- <-. left. exists v, d.
    split; [reflexivity |]. split; [lia |].
    replace (calls σ0 - 1)%nat with (calls σ) by lia. exact Hrace.
  - rewrite Hrun0 in Hrun. injection Hrun as <- <- <-. right.
    split; [reflexivity |]. split; [exact Hlsu |].
    intros k Hk. destruct Hc as [Hc | [Hc Hfail]]; [lia |].
    replace k with (calls σ) by lia. exact Hfail.
  - rewrite Hrun2 in Hrun. apply IH in Hrun. rewrite Hkey, Hto, Hc in Hrun.
    destruct Hrun as [(v & d & -> & Hlt & Hrace) | (-> & Hlsu' & Hall)].
    + left. exists v, d. split; [reflexivity |]. split; [lia | exact Hrace].
    + right. split; [reflexivity |]. split; [congruence |].
      intros k Hk. destruct (Nat.eq_dec k (calls σ)) as [-> | Hne];
        [exact Hfail | apply Hall; lia].
Qed.

(** C4. In full-protection mode a terminal failure never throws, it
    returns the object [{success: false, fallbackApplied: true, message:
    <fixed text>, timeSinceLastSuccess}], where [timeSinceLastSuccess] is
    [now - lastSuccessfulUpdate] if a success was recorded and [null]
    otherwise (the clock did not read 0 at that success):
    - whenever [handleUpdateError] does not retry (the error is that of an
      open circuit, or is not one to retry, or the retries recorded for the
      operation have reached [config.retries]) it returns this object and
      counts one consecutive failure;
    - a run resolves with data only when its last invocation of the
      operation resolved with these data before the timeout, and resolves
      with this object otherwise, every invocation of the run having failed;
    - so when the operation fails at every invocation, every run that ends
      returns this object;
    - and the run does end whenever the cool-down of the selected breaker
      is longer than the longest pause between two attempts (30 s). *)
Theorem C4_terminal_failure_returns_fallback (gtfs : AsyncFn) (w : RobustGtfsWrapper) (σ : World) :
  lastSuccessfulUpdate w <> Some 0 ->
  let limit := timerDelay (timeout (getBreaker (selectCircuitBreaker w) w)) in
  let fallback := fun t : Z =>
    Degraded
      {| success := false;
         fallbackApplied := true;
         fallbackMessage := "Using cached realtime data due to update failures";
         timeSinceLastSuccess :=
           match lastSuccessfulUpdate w with
           | Some u => Some (t - u)
           | None => None
           end |} in
  (forall retry error operationId,
     codeIs error "CIRCUIT_OPEN" = true \/
     shouldRetry error (classifyError error) = false \/
     Config.retries (config w) <= toNumber (retryTracker w !! operationId) ->
     exists w',
       handleUpdateError retry error operationId w σ
         = Some (Returns (fallback (now σ)), w', σ) /\
       consecutiveFailures w' = consecutiveFailures w + 1) /\
  (forall fuel r w' σ',
     fullProtectionMode fuel gtfs w σ = Some (r, w', σ') ->
     (exists v d,
        r = Returns (Data v) /\ (calls σ < calls σ')%nat /\
        settlesFirst limit (gtfs (calls σ' - 1)%nat) = Some (d, Returns v))
     \/
     (r = Returns (fallback (now σ')) /\
      forall k, (calls σ <= k < calls σ')%nat -> failsWithin limit (gtfs k))) /\
  ((forall k, failsWithin limit (gtfs k)) ->
   forall fuel r w' σ',
     fullProtectionMode fuel gtfs w σ = Some (r, w', σ') ->
     r = Returns (fallback (now σ'))) /\
  (30000 < resetTimeout (getBreaker (selectCircuitBreaker w) w) ->
   exists fuel r w' σ', fullProtectionMode fuel gtfs w σ = Some (r, w', σ')).
Proof.
  intros Hclock limit fallback.
  assert (Hruns : forall fuel r w' σ',
     fullProtectionMode fuel gtfs w σ = Some (r, w', σ') ->
     (exists v d,
        r = Returns (Data v) /\ (calls σ < calls σ')%nat /\
        settlesFirst limit (gtfs (calls σ' - 1)%nat) = Some (d, Returns v))
     \/
     (r = Returns (fallback (now σ')) /\
      forall k, (calls σ <= k < calls σ')%nat -> failsWithin limit (gtfs k))).
  { intros fuel r w' σ' Hrun.
    destruct (fullProtectionMode_origin gtfs fuel w σ r w' σ' Hrun)
      as [Hdata | (-> & Hlsu & Hall)]; [left; exact Hdata | right].
    split; [| exact Hall]. subst fallback. cbn beta.
    rewrite getGracefulFallback_fields by (rewrite Hlsu; exact Hclock).
    rewrite Hlsu. reflexivity. }
  split; [| split; [exact Hruns | split]].
  - intros retry error operationId Hterminal.
    destruct (handleUpdateError_gives_up retry error operationId w σ Hterminal)
      as (w' & Hrun & Hcount & Hlsu).
    exists w'. split; [| exact Hcount]. rewrite Hrun. subst fallback. cbn beta.
    rewrite getGracefulFallback_fields by (rewrite Hlsu; exact Hclock).
    rewrite Hlsu. reflexivity.
  - intros Hfails fuel r w' σ' Hrun.
    destruct (Hruns fuel r w' σ' Hrun) as [(v & d & _ & Hlt & Hrace) | [Hr _]];
      [| exact Hr].
    exfalso. specialize (Hfails (calls σ' - 1)%nat). unfold failsWithin in Hfails.
    rewrite Hrace in Hfails. exact Hfails.
  - intros Hreset.
    set (cb := getBreaker (selectCircuitBreaker w) w) in *.
    destruct (fullProtectionMode_settles gtfs
                (Z.to_nat (failureThreshold cb - failureCount cb)) w σ)
      as (r & w' & σ' & Hrun).
    + exact Hreset.
    + fold cb. lia.
    + eauto.
Qed.

(** *** Retries that never end *)

Lemma timerDelay_pos (ms : Z) : 1 <= timerDelay ms.
Proof.
  unfold timerDelay. destruct (Z.leb_spec 1 ms); cbn [andb]; [| lia].
  destruct (ms <=? 2147483647); lia.
Qed.

Lemma operationId_inj (t u : Z) :
  "gtfs-rt-" +:+ pretty t = "gtfs-rt-" +:+ pretty u -> t = u.
Proof. cbn. intros [= H]. exact (inj pretty _ _ H). Qed.

Lemma drawnBefore_fresh t m :
  drawnBefore t m -> m !! ("gtfs-rt-" +:+ pretty t) = None.
Proof.
  intros Hm. destruct (m !! ("gtfs-rt-" +:+ pretty t)) as [v |] eqn:Hk; [| reflexivity].
  destruct (Hm _ _ Hk) as (u & Heq & Hlt). apply operationId_inj in Heq. lia.
Qed.

Lemma drawnBefore_insert t t' v m :
  t < t' -> drawnBefore t m ->
  drawnBefore t' (<["gtfs-rt-" +:+ pretty t := v]> m).
Proof.
  intros Hlt Hm k v' Hk. destruct (decide (k = "gtfs-rt-" +:+ pretty t)) as [-> | Hne].
  - exists t. split; [reflexivity | exact Hlt].
  - rewrite lookup_insert_ne in Hk by congruence.
    destruct (Hm _ _ Hk) as (u & -> & Hu). exists u. split; [reflexivity | lia].
Qed.

(** When the cool-down of the selected breaker is not longer than the first
    pause (2000 ms) and the feed keeps failing with a retryable error, every
    re-entry finds a new operation id and a breaker that lets the probe
    through: the update is never settled, whatever the number of attempts
    explored. *)
Lemma fullProtectionMode_retries_forever gtfs (fuel : nat) : forall w σ,
  let cb := getBreaker (selectCircuitBreaker w) w in
  1 <= Config.retries (config w) ->
  resetTimeout cb <= 2000 ->
  keepsFailing (timerDelay (timeout cb)) gtfs ->
  (state cb = OPEN -> resetTimeout cb <= now σ - toNumber (lastFailureTime cb)) ->
  drawnBefore (now σ) (retryTracker w) ->
  fullProtectionMode fuel gtfs w σ = None.
Proof.
  induction fuel as [| fuel IH]; intros w σ cb Hretries Hreset Hfail Hgate Hfresh;
    [reflexivity |].
  cbn [fullProtectionMode]. fold cb.
  destruct (Hfail (calls σ)) as (d & e & Hfn & Hd & Hcode & Hretry).
  destruct (execute gtfs cb σ) as [[r cb'] σ1] eqn:Hex.
  apply execute_cases in Hex.
  inversion Hex as [Hopen Hlt | cba d0 v ? ? _ Hrace
                   | cba e0 ? ? _ _ Hcalls Hcfg Hfc Hlast Hst _ Hhow]; subst.
  - specialize (Hgate Hopen). lia.
  - rewrite Hfn in Hrace. cbn in Hrace.
    destruct (d <? timerDelay (timeout cb)); discriminate.
  - assert (He : e0 = e /\ now σ1 = now σ + d).
    { rewrite Hfn in Hhow. cbn [settlesFirst] in Hhow.
      destruct (Z.ltb_spec d (timerDelay (timeout cb))); [| lia].
      destruct Hhow as [(Hnone & _) | (d' & [= <- <-] & Hnow)]; [discriminate | auto]. }
    destruct He as (-> & Hnow1).
    unfold handleUpdateError. rewrite Hcode, Hretry. cbn [getCurrentRetryCount].
    cbn [retryTracker runAllTimers withBreakers].
    assert (Htr : retryTracker (setBreaker (selectCircuitBreaker w) cb' w) = retryTracker w)
      by apply setBreaker_fields.
    assert (Hcf : config (setBreaker (selectCircuitBreaker w) cb' w) = config w)
      by apply setBreaker_fields.
    rewrite Htr, (drawnBefore_fresh _ _ Hfresh). cbn [toNumber config withTracker].
    cbn [runAllTimers withBreakers config]. rewrite Hcf.
    destruct (Z.ltb_spec 0 (Config.retries (config w))); [| lia].
    cbn [andb sleep].
    match goal with
    | |- fullProtectionMode _ _ (runAllTimers ?t2 (withTracker ?m (runAllTimers ?t1 _))) _ = _ =>
        destruct (reentry_fields w cb' t1 t2 m) as (Hsel & Hget & Hcf2 & Htr2 & _)
    end.
    destruct Hcfg as (_ & _ & Hto & Hrt).
    apply IH; rewrite ?Hsel, ?Hget, ?Hcf2, ?Htr2;
      cbn [resetTimeout timeout state lastFailureTime runTimers withTimers withStats];
      fold cb; rewrite ?Hrt, ?Hto, ?Hlast.
    + exact Hretries.
    + exact Hreset.
    + exact Hfail.
    + intros _. cbn [toNumber now atTime].
      pose proof (timerDelay_pos (getRetryDelay (0 + 1))).
      assert (timerDelay (getRetryDelay (0 + 1)) = 2000) by reflexivity. lia.
    + apply drawnBefore_insert; [| exact Hfresh].
      cbn [now atTime]. pose proof (timerDelay_pos (getRetryDelay (0 + 1))). lia.
Qed.

(** *** The clock and the timestamp of the last success *)

Lemma settlesFirst_duration fn limit k d c :
  timely fn -> settlesFirst limit (fn k) = Some (d, c) -> 0 <= d.
Proof.
  intros Ht. specialize (Ht k). unfold settlesFirst.
  destruct (fn k) as [d0 v | d0 e |]; [| | discriminate];
    destruct (d0 <? limit); try discriminate; intros [= <- _]; exact Ht.
Qed.

Lemma execute_clock fn cb σ r cb' σ' :
  timely fn -> execute fn cb σ = (r, cb', σ') -> now σ <= now σ'.
Proof.
  intros Ht Hex. apply execute_cases in Hex.
  inversion Hex as [| cba d v ? ? _ Hrace _ Hnow | cba e ? ? _ _ _ _ _ _ _ _ Hhow]; subst.
  - lia.
  - apply (settlesFirst_duration _ _ _ _ _ Ht) in Hrace. lia.
  - destruct Hhow as [(_ & _ & Hnow) | (d & Hrace & Hnow)].
    + pose proof (timerDelay_pos (timeout cb)). lia.
    + apply (settlesFirst_duration _ _ _ _ _ Ht) in Hrace. lia.
Qed.

Lemma fullProtectionMode_stamped gtfs (fuel : nat) : forall w σ r w' σ',
  timely gtfs -> 0 < now σ -> stamped w ->
  fullProtectionMode fuel gtfs w σ = Some (r, w', σ') ->
  0 < now σ' /\ stamped w'.
Proof.
  induction fuel as [| fuel IH]; intros w σ r w' σ' Ht Hpos Hst Hrun; [discriminate |].
  cbn [fullProtectionMode] in Hrun.
  destruct (execute gtfs (getBreaker (selectCircuitBreaker w) w) σ)
    as [[r0 cb'] σ1] eqn:Hex.
  pose proof (execute_clock _ _ _ _ _ _ Ht Hex) as Hclock.
  destruct r0 as [v | e].
  - injection Hrun as <- <- <-. split; [lia |].
    unfold stamped. cbn [lastSuccessfulUpdate onUpdateSuccess]. intros [= H0]. lia.
  - unfold handleUpdateError in Hrun.
    destruct (codeIs e "CIRCUIT_OPEN").
    + injection Hrun as <- <- <-. split; [lia |].
      unfold stamped. cbn [lastSuccessfulUpdate countFailure runAllTimers withBreakers].
      rewrite lastSuccessfulUpdate_setBreaker. exact Hst.
    + cbn [getCurrentRetryCount] in Hrun.
      match type of Hrun with
      | (if ?c then _ else _) = _ => destruct c
      end.
      * cbn [sleep] in Hrun. apply IH in Hrun; [exact Hrun | exact Ht | |].
        -- cbn [atTime now].
           match goal with
           | |- 0 < now σ1 + timerDelay ?d => pose proof (timerDelay_pos d); lia
           end.
        -- unfold stamped.
           cbn [lastSuccessfulUpdate runAllTimers withBreakers withTracker].
           rewrite lastSuccessfulUpdate_setBreaker. exact Hst.
      * injection Hrun as <- <- <-. split; [lia |].
        unfold stamped.
        cbn [lastSuccessfulUpdate countFailure runAllTimers withBreakers withTracker].
        rewrite lastSuccessfulUpdate_setBreaker. exact Hst.
Qed.

(** Under a clock that reads a positive time, no call of
    [updateGtfsRealtime] records the timestamp 0. *)
Lemma updateGtfsRealtime_stamped fuel environment gtfs gtfsConfig w σ r w' σ' :
  timely gtfs -> 0 < now σ -> stamped w ->
  updateGtfsRealtime fuel environment gtfs gtfsConfig w σ = Some (r, w', σ') ->
  0 < now σ' /\ stamped w'.
Proof.
  intros Ht Hpos Hst. unfold updateGtfsRealtime.
  set (w0 := match lastSuccessfulUpdate w with
             | None => detectNativeCapabilities environment gtfsConfig w
             | Some _ => w
             end).
  assert (Hst0 : stamped w0).
  { subst w0. destruct (lastSuccessfulUpdate w) eqn:Hlsu; [exact Hst |].
    unfold stamped. cbn. rewrite Hlsu. discriminate. }
  clearbody w0.
  destruct (wrapperEnabled w0); cbn [negb].
  - destruct (nativeTimeoutSupported w0).
    + unfold lightweightMode, awaitDirect. pose proof (Ht (calls σ)) as Hd.
      destruct (gtfs (calls σ)) as [d v | d e |]; [| | discriminate].
      * intros [= <- <- <-]. cbn. split; [lia |]. unfold stamped. cbn.
        intros [= H0]. lia.
      * intros [= <- <- <-]. cbn [atTime now]. split; [lia |]. exact Hst0.
    + apply fullProtectionMode_stamped; assumption.
  - unfold awaitDirect. pose proof (Ht (calls σ)) as Hd.
    destruct (gtfs (calls σ)) as [d v | d e |]; [| | discriminate];
      intros [= <- <- <-]; cbn [atTime now]; (split; [lia | exact Hst0]).
Qed.

(** A division by [+0] never gives a finite number. *)
Lemma fdiv_by_zero_not_finite (x : spec_float) : isFinite (fdiv x (ofZ 0)) = false.
Proof. destruct x; reflexivity. Qed.

Lemma updateAverageResponseTime_no_requests newTime s :
  Stats.totalRequests s = 0 ->
  isFinite (Stats.averageResponseTime (updateAverageResponseTime newTime s)) = false.
Proof.
  intros H0. unfold updateAverageResponseTime. cbn [Stats.averageResponseTime].
  rewrite H0. apply fdiv_by_zero_not_finite.
Qed.

(** The counters of the main breaker that a lightweight call touches. *)
Lemma lightweightMode_counts gtfs w σ :
  gtfs (calls σ) <> Hangs ->
  Stats.totalRequests (stats (main (circuitBreakers w))) = 0 ->
  exists r w1 σ1,
    lightweightMode gtfs w σ = Some (r, w1, σ1) /\
    nativeTimeoutSupported w1 = nativeTimeoutSupported w /\
    wrapperEnabled w1 = wrapperEnabled w /\
    calls σ1 = S (calls σ) /\
    Stats.totalRequests (stats (main (circuitBreakers w1))) = 0 /\
    Stats.totalRequests (stats (network (circuitBreakers w1))) =
      Stats.totalRequests (stats (network (circuitBreakers w))) /\
    Stats.successfulRequests (stats (main (circuitBreakers w1))) +
    Stats.failedRequests (stats (main (circuitBreakers w1))) =
      Stats.successfulRequests (stats (main (circuitBreakers w))) +
      Stats.failedRequests (stats (main (circuitBreakers w))) + 1 /\
    isFinite (Stats.averageResponseTime (stats (main (circuitBreakers w1)))) = false.
Proof.
  intros Hsettles H0. unfold lightweightMode, awaitDirect.
  destruct (gtfs (calls σ)) as [d v | d e |]; [| | congruence].
  - eexists _, _, _. split; [reflexivity |]. cbn.
    repeat split; try reflexivity; try lia.
    rewrite H0. apply fdiv_by_zero_not_finite.
  - eexists _, _, _. split; [reflexivity |].
    cbn [setBreaker getBreaker onUpdateFailure countFailure runAllTimers withBreakers
         circuitBreakers main network nativeTimeoutSupported wrapperEnabled
         atTime invoked calls now].
    repeat split; try reflexivity.
    + rewrite onFailure_totalRequests. exact H0.
    + unfold onFailure, tripIfThreshold.
      match goal with |- context [if ?c then _ else _] => destruct c end; cbn; lia.
    + unfold onFailure, tripIfThreshold.
      match goal with |- context [if ?c then _ else _] => destruct c end;
        cbn; rewrite H0; apply fdiv_by_zero_not_finite.
Qed.

Lemma lightweight_updates (fuel : nat) environment gtfs (gtfsConfig : GtfsConfig.t) :
  strIs (GTFS_DISABLE_ROBUST_WRAPPER environment) "true" = false ->
  truthy (GtfsConfig.realtimeTimeout gtfsConfig) || truthy (GtfsConfig.timeout gtfsConfig)
    || truthy (GtfsConfig.downloadTimeout gtfsConfig) = true ->
  (forall k, gtfs k <> Hangs) ->
  forall (n : nat) w σ,
    wrapperEnabled w = true ->
    nativeTimeoutSupported w = true \/ lastSuccessfulUpdate w = None ->
    Stats.totalRequests (stats (main (circuitBreakers w))) = 0 ->
    exists rs w' σ',
      updateMany fuel environment gtfs (replicate n (Some gtfsConfig)) w σ
        = Some (rs, w', σ') /\
      calls σ' = (calls σ + n)%nat /\
      Stats.totalRequests (stats (main (circuitBreakers w'))) = 0 /\
      Stats.totalRequests (stats (network (circuitBreakers w'))) =
        Stats.totalRequests (stats (network (circuitBreakers w))) /\
      Stats.successfulRequests (stats (main (circuitBreakers w'))) +
      Stats.failedRequests (stats (main (circuitBreakers w'))) =
        Stats.successfulRequests (stats (main (circuitBreakers w))) +
        Stats.failedRequests (stats (main (circuitBreakers w))) + Z.of_nat n /\
      ((0 < n)%nat ->
       isFinite (Stats.averageResponseTime (stats (main (circuitBreakers w')))) = false).
Proof.
  intros Henv Hcfg Hsettles. induction n as [| n IH]; intros w σ Hen Hnat H0.
  - exists [], w, σ. cbn. repeat split; try lia.
  - cbn [replicate updateMany].
    set (w0 := match lastSuccessfulUpdate w with
               | None => detectNativeCapabilities environment (Some gtfsConfig) w
               | Some _ => w
               end).
    assert (Hw0 : wrapperEnabled w0 = true /\ nativeTimeoutSupported w0 = true /\
                  circuitBreakers w0 = circuitBreakers w).
    { subst w0. destruct (lastSuccessfulUpdate w) eqn:Hlsu.
      - destruct Hnat as [Hnat | Hnat]; [auto | congruence].
      - unfold detectNativeCapabilities. rewrite Henv, Hcfg. cbn. auto. }
    destruct Hw0 as (Hen0 & Hnat0 & Hcbs0).
    assert (Hupd : updateGtfsRealtime fuel environment gtfs (Some gtfsConfig) w σ
                   = lightweightMode gtfs w0 σ).
    { unfold updateGtfsRealtime. fold w0. rewrite Hen0, Hnat0. reflexivity. }
    rewrite Hupd.
    destruct (lightweightMode_counts gtfs w0 σ (Hsettles _))
      as (r & w1 & σ1 & -> & Hnat1 & Hen1 & Hcalls1 & Htot1 & Hnet1 & Hsum1 & Havg1).
    { rewrite Hcbs0. exact H0. }
    destruct (IH w1 σ1) as (rs & w' & σ' & Hrest & Hcalls & Htot & Hnet & Hsum & Havg).
    { congruence. }
    { left. congruence. }
    { exact Htot1. }
    rewrite Hrest.
    exists (r :: rs), w', σ'. split; [reflexivity |].
    rewrite Hcbs0 in Hsum1, Hnet1.
    repeat split; try assumption; try lia.
    intros _. destruct n as [| n'].
    + cbn in Hrest. injection Hrest as <- <- <-. exact Havg1.
    + apply Havg. lia.
Qed.

(** C10. On a new wrapper whose node-gtfs configuration exposes a timeout,
    every call takes the lightweight mode and reports to the main breaker
    through [onSuccess] / [onFailure] only: after N calls the operation was
    invoked N times, [successfulRequests + failedRequests = N] and
    [totalRequests] is still 0 on both breakers, and as soon as N >= 1 the
    average response time, divided by that 0, is not a finite number. *)
Theorem C10_lightweight_mode_never_counts_requests
    (fuel : nat) (environment : Environment) (gtfs : AsyncFn)
    (gtfsConfig : GtfsConfig.t) (n : nat) (σ : World) :
  strIs (GTFS_DISABLE_ROBUST_WRAPPER environment) "true" = false ->
  truthy (GtfsConfig.realtimeTimeout gtfsConfig) || truthy (GtfsConfig.timeout gtfsConfig)
    || truthy (GtfsConfig.downloadTimeout gtfsConfig) = true ->
  (forall k, gtfs k <> Hangs) ->
  exists rs w σ',
    updateMany fuel environment gtfs (replicate n (Some gtfsConfig))
      (newRobustGtfsWrapper environment) σ = Some (rs, w, σ') /\
    calls σ' = (calls σ + n)%nat /\
    Stats.successfulRequests (stats (main (circuitBreakers w))) +
    Stats.failedRequests (stats (main (circuitBreakers w))) = Z.of_nat n /\
    Stats.totalRequests (stats (main (circuitBreakers w))) = 0 /\
    Stats.totalRequests (stats (network (circuitBreakers w))) = 0 /\
    ((0 < n)%nat ->
     isFinite (Stats.averageResponseTime (stats (main (circuitBreakers w)))) = false).
Proof.
  intros Henv Hcfg Hsettles.
  destruct (lightweight_updates fuel environment gtfs gtfsConfig Henv Hcfg Hsettles
              n (newRobustGtfsWrapper environment) σ)
    as (rs & w & σ' & Hrun & Hcalls & Htot & Hnet & Hsum & Havg);
    try reflexivity.
  { right. reflexivity. }
  exists rs, w, σ'. cbn in Hsum, Hnet. repeat split; assumption.
Qed.

(** ** Runs of the code on concrete inputs *)

(** C3. With the default configuration (two retries) and a feed that keeps
    failing with a retryable error, the wrapped operation is invoked five
    times, not at most 1 + 2: each re-entry into [fullProtectionMode] draws a
    new operation id from the clock, so that the counter read for it is 0
    every time (five ids are left in the tracker, each with count 1) and
    only the opening of the circuit ends the retries. Every pause before a
    retry is [min(2^1 * 1000, 30000) = 2000] ms. *)
Theorem C3_retries_exceed_maxRetries :
  exists fb w σ,
    fullProtectionMode 6 unreachableFeed (newRobustGtfsWrapper defaultEnvironment) startOfRun
      = Some (Returns (Degraded fb), w, σ) /\
    Config.retries (config w) = 2 /\
    calls σ = 5%nat /\
    now σ = now startOfRun + 5 * 10 + 5 * 2000 /\
    size (retryTracker w) = 5%nat /\
    retryTracker w !! "gtfs-rt-1700000000000"%string = Some 1 /\
    retryTracker w !! "gtfs-rt-1700000002010"%string = Some 1 /\
    retryTracker w !! "gtfs-rt-1700000008040"%string = Some 1 /\
    state (main (circuitBreakers w)) = OPEN.
Proof.
  eexists _, _, _. split; [vm_compute; reflexivity |].
  repeat split; vm_compute; reflexivity.
Qed.

(** C7. A call that succeeds after 10 ms leaves its 30000 ms timer pending;
    when the event loop reaches the firing time the callback runs and
    [stats.timeouts] becomes 1 although no call has timed out. *)
Theorem C7_timer_of_successful_call_counts_timeout :
  exists cb1 σ1 cb2 σ2,
    execute healthyFeed (newCircuitBreaker "GTFS-Realtime-Main" defaultOptions) startOfRun
      = (Returns "feed"%string, cb1, σ1) /\
    Stats.timeouts (stats cb1) = 0 /\
    pendingTimers cb1 = [now startOfRun + 30000] /\
    idle 29990 cb1 σ1 = (cb2, σ2) /\
    now σ2 = now startOfRun + 30000 /\
    Stats.timeouts (stats cb2) = 1 /\
    Stats.failedRequests (stats cb2) = 0 /\
    Stats.successfulRequests (stats cb2) = 1.
Proof.
  eexists _, _, _, _. split; [vm_compute; reflexivity |].
  split; [reflexivity |]. split; [reflexivity |].
  split; [vm_compute; reflexivity |].
  repeat split; vm_compute; reflexivity.
Qed.

(** C8. Detection runs again on a later call as long as no update has
    succeeded: a first call that ends in the fallback leaves
    [nativeTimeoutSupported] false, and the second call, given a
    configuration with [downloadTimeout], sets it and takes the lightweight
    mode. *)
Theorem C8_detection_runs_again_on_second_call :
  exists fb w1 σ1 w2 σ2,
    updateGtfsRealtime 6 defaultEnvironment malformedFeed (Some plainGtfsConfig)
      (newRobustGtfsWrapper defaultEnvironment) startOfRun
      = Some (Returns (Degraded fb), w1, σ1) /\
    nativeTimeoutSupported w1 = false /\
    lastSuccessfulUpdate w1 = None /\
    updateGtfsRealtime 6 defaultEnvironment healthyFeed (Some repositoryGtfsConfig) w1 σ1
      = Some (Returns (Data "feed"%string), w2, σ2) /\
    nativeTimeoutSupported w2 = true /\
    Stats.totalRequests (stats (main (circuitBreakers w1))) = 1 /\
    Stats.totalRequests (stats (main (circuitBreakers w2))) = 1.
Proof.
  eexists _, _, _, _, _. split; [vm_compute; reflexivity |].
  split; [reflexivity |]. split; [reflexivity |].
  split; [vm_compute; reflexivity |].
  repeat split; vm_compute; reflexivity.
Qed.

(** C9. After one failed attempt and a successful retry the update has
    completed, and the tracker still holds the entry of the first attempt:
    the success deletes the id drawn at the re-entry, which has no entry. *)
Theorem C9_tracker_entry_survives_completed_update :
  exists w σ,
    updateGtfsRealtime 6 defaultEnvironment recoveringFeed (Some plainGtfsConfig)
      (newRobustGtfsWrapper defaultEnvironment) startOfRun
      = Some (Returns (Data "feed"%string), w, σ) /\
    calls σ = 2%nat /\
    retryTracker w !! "gtfs-rt-1700000000000"%string = Some 1 /\
    size (retryTracker w) = 1%nat.
Proof.
  eexists _, _. split; [vm_compute; reflexivity |].
  repeat split; vm_compute; reflexivity.
Qed.

(** ** The unit tests of the repository, run on the model *)

Example test_classifyError :
  classifyError (newError "fetch failed") = NETWORK_ERROR /\
  classifyError (newError "ECONNREFUSED") = NETWORK_ERROR /\
  classifyError (newError "Timeout after 1000ms") = TIMEOUT_ERROR /\
  classifyError (newError "gtfsRealtimeVersion not supported") = DATA_FORMAT_ERROR /\
  classifyError {| code := Some "CIRCUIT_OPEN"%string; message := "Circuit open" |}
    = CIRCUIT_BREAKER_ERROR /\
  classifyError (newError "Unknown error") = UNKNOWN_ERROR.
Proof. repeat split. Qed.

Example test_initial_configuration :
  let wrapper := newRobustGtfsWrapper testEnvironment in
  Config.timeout (config wrapper) = 1000 /\
  Config.retries (config wrapper) = 2 /\
  Config.circuitBreakerFailureThreshold (config wrapper) = 3 /\
  Config.circuitBreakerResetTimeout (config wrapper) = 2000 /\
  Config.enableDetailedLogging (config wrapper) = true /\
  failureThreshold (main (circuitBreakers wrapper)) = 3 /\
  failureThreshold (network (circuitBreakers wrapper)) = 3.
Proof. repeat split. Qed.

(** "should retry on network errors": 1 initial call + 2 retries. *)
Example test_retry_on_network_errors :
  exists w σ,
    updateGtfsRealtime 3 testEnvironment twoNetworkErrorsThenSuccess (Some plainGtfsConfig)
      (newRobustGtfsWrapper testEnvironment) startOfRun
      = Some (Returns (Data "recovered"%string), w, σ) /\
    calls σ = 3%nat /\ consecutiveFailures w = 0.
Proof. eexists _, _. split; [vm_compute; reflexivity |]. split; reflexivity. Qed.

(** "should not retry on data format errors". *)
Example test_no_retry_on_data_format_errors :
  exists fb w σ,
    updateGtfsRealtime 3 testEnvironment malformedFeed (Some plainGtfsConfig)
      (newRobustGtfsWrapper testEnvironment) startOfRun
      = Some (Returns (Degraded fb), w, σ) /\
    calls σ = 1%nat /\ success fb = false /\ fallbackApplied fb = true /\
    timeSinceLastSuccess fb = None.
Proof. eexists _, _, _. split; [vm_compute; reflexivity |]. repeat split. Qed.

(** "should return graceful fallback when all retries fail": with the
    cool-down of 2000 ms of the test environment the update is not settled
    after any number of attempts. *)
Example test_fallback_when_all_retries_fail (fuel : nat) :
  fullProtectionMode fuel completeFailure (newRobustGtfsWrapper testEnvironment) startOfRun
    = None.
Proof.
  apply fullProtectionMode_retries_forever.
  - cbn. lia.
  - cbn. lia.
  - intros k. exists 0, (newError "Complete failure"). repeat split; cbn; lia.
  - cbn. discriminate.
  - intros k v Hk. cbn [retryTracker newRobustGtfsWrapper] in Hk.
    rewrite lookup_empty in Hk. discriminate.
Qed.

(** "should return healthy status initially" and "should return degraded
    status when last success is too old". *)
Example test_health_status :
  status (getHealthStatus (now startOfRun) (newRobustGtfsWrapper testEnvironment)) = HEALTHY /\
  status (getHealthStatus (now startOfRun)
            (onUpdateSuccess (now startOfRun - 6 * 60 * 1000) "gtfs-rt-0"
               (newRobustGtfsWrapper testEnvironment))) = DEGRADED.
Proof. split; reflexivity. Qed.

(** ** The general statements at concrete inputs *)

(** Three failures open a breaker of threshold 3. *)
Lemma C1_instance :
  0 < 3 /\ Z.of_nat (length [0; 0; 0]) = 3 /\
  exists rs cb σ',
    executeMany [0; 0; 0] unreachableFeed
      (newCircuitBreaker "GTFS-Realtime-Network"
         {| opt_failureThreshold := Some 3; opt_timeout := None;
            opt_resetTimeout := None |}) startOfRun = (rs, cb, σ') /\
    state cb = OPEN /\ Stats.circuitOpenCount (stats cb) = 1.
Proof.
  split; [reflexivity |]. split; [reflexivity |].
  destruct (C1_threshold_failures_open_then_probe 3 "GTFS-Realtime-Network" None None
              [0; 0; 0] unreachableFeed startOfRun)
    as (rs & cb & σ' & Hrun & _ & _ & Hstate & Hcount & _).
  - reflexivity.
  - reflexivity.
  - intros k _. exact I.
  - exists rs, cb, σ'. auto.
Defined.

(** A call made 59999 ms after the failure that opened the breaker. *)
Lemma C2_instance :
  state openedBreaker = OPEN /\
  now (atTime (now startOfRun + 59999) startOfRun)
    - toNumber (lastFailureTime openedBreaker) < resetTimeout openedBreaker /\
  exists error cb',
    execute unreachableFeed openedBreaker (atTime (now startOfRun + 59999) startOfRun)
      = (Throws error, cb', atTime (now startOfRun + 59999) startOfRun) /\
    code error = Some "CIRCUIT_OPEN"%string /\
    Stats.totalRequests (stats cb') = Stats.totalRequests (stats openedBreaker) + 1.
Proof.
  split; [reflexivity |]. split; [reflexivity |].
  destruct (C2_open_circuit_rejects_without_invoking unreachableFeed openedBreaker
              (atTime (now startOfRun + 59999) startOfRun))
    as (error & cb' & Hrun & Hcode & _ & Htotal & _).
  - reflexivity.
  - reflexivity.
  - exists error, cb'. auto.
Defined.

(** The unreachable feed on a new wrapper: the run ends, in the fallback
    with [timeSinceLastSuccess] null. *)
Lemma C4_instance :
  lastSuccessfulUpdate (newRobustGtfsWrapper defaultEnvironment) <> Some 0 /\
  (forall k, failsWithin 30000 (unreachableFeed k)) /\
  exists fuel r w' σ',
    fullProtectionMode fuel unreachableFeed (newRobustGtfsWrapper defaultEnvironment)
      startOfRun = Some (r, w', σ') /\
    r = Returns (Degraded
          {| success := false;
             fallbackApplied := true;
             fallbackMessage := "Using cached realtime data due to update failures";
             timeSinceLastSuccess := None |}).
Proof.
  assert (Hclock : lastSuccessfulUpdate (newRobustGtfsWrapper defaultEnvironment) <> Some 0)
    by discriminate.
  assert (Hfails : forall k, failsWithin 30000 (unreachableFeed k)) by (intros k; exact I).
  split; [exact Hclock |]. split; [exact Hfails |].
  destruct (C4_terminal_failure_returns_fallback unreachableFeed
              (newRobustGtfsWrapper defaultEnvironment) startOfRun Hclock)
    as (_ & _ & Hfallback & Hends).
  destruct Hends as (fuel & r & w' & σ' & Hrun); [reflexivity |].
  exists fuel, r, w', σ'. split; [exact Hrun |].
  exact (Hfallback Hfails fuel r w' σ' Hrun).
Defined.

(** An open main breaker and a last success 300001 ms old: DEGRADED. *)
Lemma C5_instance :
  lastSuccessfulUpdate staleWrapper <> Some 0 /\
  (exists cb, In cb (breakerValues staleWrapper) /\ state cb = OPEN) /\
  status (getHealthStatus (now startOfRun) staleWrapper) = DEGRADED.
Proof.
  assert (Hclock : lastSuccessfulUpdate staleWrapper <> Some 0) by discriminate.
  split; [exact Hclock |].
  split; [exists openedBreaker; split; [left; reflexivity | reflexivity] |].
  apply (proj1 (C5_staleness_overrides_first_determination (now startOfRun) staleWrapper Hclock)).
  exists (now startOfRun - 300001). split; reflexivity.
Defined.

(** The malformed feed is invoked once. *)
Lemma C6_instance :
  classifyError (newError "gtfsRealtimeVersion not supported") = DATA_FORMAT_ERROR /\
  exists fb w' σ',
    fullProtectionMode 1 malformedFeed (newRobustGtfsWrapper defaultEnvironment) startOfRun
      = Some (Returns (Degraded fb), w', σ') /\
    calls σ' = 1%nat.
Proof.
  assert (Hclass : classifyError (newError "gtfsRealtimeVersion not supported")
                   = DATA_FORMAT_ERROR) by reflexivity.
  split; [exact Hclass |].
  destruct C6_retry_only_transient_errors as (_ & _ & Honce).
  apply (Honce 0%nat malformedFeed (newRobustGtfsWrapper defaultEnvironment) startOfRun
           10 (newError "gtfsRealtimeVersion not supported")).
  - reflexivity.
  - reflexivity.
  - reflexivity.
  - exact Hclass.
Defined.

(** Three calls with the configuration of the repository. *)
Lemma C10_instance :
  strIs (GTFS_DISABLE_ROBUST_WRAPPER defaultEnvironment) "true" = false /\
  (forall k, recoveringFeed k <> Hangs) /\
  exists rs w σ',
    updateMany 1 defaultEnvironment recoveringFeed (replicate 3 (Some repositoryGtfsConfig))
      (newRobustGtfsWrapper defaultEnvironment) startOfRun = Some (rs, w, σ') /\
    Stats.successfulRequests (stats (main (circuitBreakers w))) +
    Stats.failedRequests (stats (main (circuitBreakers w))) = 3 /\
    Stats.totalRequests (stats (main (circuitBreakers w))) = 0 /\
    isFinite (Stats.averageResponseTime (stats (main (circuitBreakers w)))) = false.
Proof.
  assert (Hsettles : forall k, recoveringFeed k <> Hangs)
    by (intros [| k]; discriminate).
  split; [reflexivity |]. split; [exact Hsettles |].
  destruct (C10_lightweight_mode_never_counts_requests 1 defaultEnvironment recoveringFeed
              repositoryGtfsConfig 3 startOfRun)
    as (rs & w & σ' & Hrun & _ & Hsum & Htotal & _ & Havg).
  - reflexivity.
  - reflexivity.
  - exact Hsettles.
  - exists rs, w, σ'. repeat split; try assumption. apply Havg. repeat constructor.
Defined.

(** * Further properties *)

(** ** The circuit breaker over any sequence of calls *)

Lemma runTimers_timers t cb :
  Stats.timeouts (stats (runTimers t cb)) + Z.of_nat (length (pendingTimers (runTimers t cb)))
  = Stats.timeouts (stats cb) + Z.of_nat (length (pendingTimers cb)).
Proof.
  unfold runTimers. cbn.
  pose proof (Permutation_length (filter_app_complement (fun f => f <= t) (pendingTimers cb))) as H.
  rewrite length_app in H. lia.
Qed.

Lemma onFailure_counts t e rt cb :
  Stats.totalRequests (stats (onFailure t e rt cb)) = Stats.totalRequests (stats cb) /\
  Stats.successfulRequests (stats (onFailure t e rt cb)) = Stats.successfulRequests (stats cb) /\
  Stats.failedRequests (stats (onFailure t e rt cb)) = Stats.failedRequests (stats cb) + 1 /\
  Stats.timeouts (stats (onFailure t e rt cb)) = Stats.timeouts (stats cb) /\
  pendingTimers (onFailure t e rt cb) = pendingTimers cb.
Proof.
  unfold onFailure, tripIfThreshold. cbn.
  destruct (failureThreshold cb <=? failureCount cb + 1); cbn; repeat split.
Qed.

(** What one [execute] call adds to the counters: one request; when the
    call is let through, one invocation, one success or failure and one
    timer, pending or already counted. *)
Lemma execute_counts fn cb σ r cb' σ' :
  execute fn cb σ = (r, cb', σ') ->
  Stats.totalRequests (stats cb') = Stats.totalRequests (stats cb) + 1 /\
  Stats.timeouts (stats cb') + Z.of_nat (length (pendingTimers cb'))
    = Stats.timeouts (stats cb) + Z.of_nat (length (pendingTimers cb))
      + Z.of_nat (calls σ' - calls σ) /\
  (calls σ' = calls σ /\ isThrow r /\
   Stats.successfulRequests (stats cb') = Stats.successfulRequests (stats cb) /\
   Stats.failedRequests (stats cb') = Stats.failedRequests (stats cb)
   \/
   calls σ' = S (calls σ) /\ ~ isThrow r /\
   Stats.successfulRequests (stats cb') = Stats.successfulRequests (stats cb) + 1 /\
   Stats.failedRequests (stats cb') = Stats.failedRequests (stats cb)
   \/
   calls σ' = S (calls σ) /\ isThrow r /\
   Stats.successfulRequests (stats cb') = Stats.successfulRequests (stats cb) /\
   Stats.failedRequests (stats cb') = Stats.failedRequests (stats cb) + 1).
Proof.
  unfold execute.
  destruct (gateCheck (withStats countRequest cb) (now σ)) as [cba | err] eqn:Hgate.
  - destruct (gateCheck_inl _ _ _ Hgate) as (_ & _ & Hst & Hpt & _).
    cbn [stats withStats pendingTimers] in Hst, Hpt.
    set (limit := timerDelay (timeout cba)).
    set (cbt := withTimers (pendingTimers cba ++ [now σ + limit]) cba).
    assert (Hcbt : forall t,
      Stats.timeouts (stats (runTimers t cbt)) + Z.of_nat (length (pendingTimers (runTimers t cbt)))
      = Stats.timeouts (stats cb) + Z.of_nat (length (pendingTimers cb)) + 1).
    { intros t. rewrite runTimers_timers. subst cbt. cbn [stats withTimers pendingTimers].
      rewrite Hst, Hpt, length_app. cbn. lia. }
    assert (Hstat : forall t,
      Stats.totalRequests (stats (runTimers t cbt)) = Stats.totalRequests (stats cb) + 1 /\
      Stats.successfulRequests (stats (runTimers t cbt)) = Stats.successfulRequests (stats cb) /\
      Stats.failedRequests (stats (runTimers t cbt)) = Stats.failedRequests (stats cb)).
    { intros t. subst cbt. cbn. rewrite Hst. cbn. repeat split. }
    destruct (settlesFirst limit (fn (calls σ))) as [[d [v | e]] |].
    + intros [= <- <- <-]. destruct (Hstat (now σ + d)) as (Ht & Hs & Hf).
      specialize (Hcbt (now σ + d)). cbn in *.
      replace (S (calls σ) - calls σ)%nat with 1%nat by lia.
      split; [lia |]. split; [lia |]. right. left. repeat split; try lia; tauto.
    + intros [= <- <- <-]. destruct (Hstat (now σ + d)) as (Ht & Hs & Hf).
      specialize (Hcbt (now σ + d)).
      destruct (onFailure_counts (now σ + d) e (now σ + d - now σ) (runTimers (now σ + d) cbt))
        as (Ht' & Hs' & Hf' & Hto' & Hpt').
      rewrite Ht', Hs', Hf', Hto', Hpt'. cbn [calls atTime invoked isThrow].
      replace (S (calls σ) - calls σ)%nat with 1%nat by lia.
      split; [lia |]. split; [lia |]. right. right. repeat split; lia.
    + intros [= <- <- <-]. destruct (Hstat (now σ + limit)) as (Ht & Hs & Hf).
      specialize (Hcbt (now σ + limit)).
      match goal with
      | |- context [onFailure ?t ?e ?rt ?c] =>
          destruct (onFailure_counts t e rt c) as (Ht' & Hs' & Hf' & Hto' & Hpt')
      end.
      rewrite Ht', Hs', Hf', Hto', Hpt'. cbn [calls atTime invoked isThrow].
      replace (S (calls σ) - calls σ)%nat with 1%nat by lia.
      split; [lia |]. split; [lia |]. right. right. repeat split; lia.
  - intros [= <- <- <-]. cbn. replace (calls σ - calls σ)%nat with 0%nat by lia.
    split; [lia |]. split; [lia |]. left. repeat split.
Qed.

Lemma filter_all_due (t : Z) (l : list Z) :
  Forall (fun f => f <= t) l ->
  filter (fun f => ~ f <= t) l = [] /\ filter (fun f => f <= t) l = l.
Proof.
  induction 1 as [| f l Hf _ [IH1 IH2]]; [split; reflexivity |].
  rewrite !filter_cons. destruct (decide (~ f <= t)); [tauto |].
  destruct (decide (f <= t)); [| tauto]. rewrite IH1, IH2. split; reflexivity.
Qed.

Lemma Forall_filter_keep (P Q : Z -> Prop) `{forall x, Decision (Q x)} (l : list Z) :
  Forall P l -> Forall P (filter Q l).
Proof.
  induction 1 as [| f l Hf _ IH]; [constructor |].
  rewrite filter_cons. destruct (decide (Q f)); [constructor |]; assumption.
Qed.

(** The timers left pending by an [execute] call are timers that were
    pending before, or the one of this call. *)
Lemma execute_pending (P : Z -> Prop) fn cb σ r cb' σ' :
  execute fn cb σ = (r, cb', σ') ->
  Forall P (pendingTimers cb) ->
  P (now σ + timerDelay (timeout cb)) ->
  Forall P (pendingTimers cb').
Proof.
  unfold execute. intros Hex Hall Hnew.
  destruct (gateCheck (withStats countRequest cb) (now σ)) as [cba | err] eqn:Hgate.
  - destruct (gateCheck_inl _ _ _ Hgate) as ((_ & _ & Hto & _) & _ & _ & Hpt & _).
    cbn [timeout withStats pendingTimers] in Hto, Hpt. rewrite Hto in Hex.
    assert (Hcbt : forall t,
      Forall P (pendingTimers (runTimers t
        (withTimers (pendingTimers cba ++ [now σ + timerDelay (timeout cb)]) cba)))).
    { intros t. cbn. apply Forall_filter_keep. rewrite Hpt.
      apply Forall_app. split; [assumption | constructor; [assumption | constructor]]. }
    destruct (settlesFirst (timerDelay (timeout cb)) (fn (calls σ))) as [[d [v | e]] |];
      injection Hex as <- <- <-.
    + apply Hcbt.
    + rewrite onFailure_pendingTimers. apply Hcbt.
    + rewrite onFailure_pendingTimers. apply Hcbt.
  - injection Hex as <- <- <-. exact Hall.
Qed.

Lemma execute_tripConsistent fn cb σ r cb' σ' :
  execute fn cb σ = (r, cb', σ') -> tripConsistent cb -> tripConsistent cb'.
Proof.
  intros Hex Hinv. apply execute_cases in Hex. unfold tripConsistent in *.
  inversion Hex as [Hopen _ | cba d v ? ? _ _ _ _ _ Hst _
                   | cba e ? ? Hgate _ _ Hcfg Hfc _ Hst _ _]; subst.
  - exact Hinv.
  - left. exact Hst.
  - destruct Hcfg as (_ & Hth & _). rewrite Hth, Hfc.
    destruct (Z.leb_spec (failureThreshold cb) (failureCount cb + 1)); [right; lia |].
    apply gateCheck_inl in Hgate as (_ & _ & _ & _ & Hcase). cbn in Hcase.
    destruct Hcase as [(Hopen & _) | (_ & ->)].
    + destruct Hinv as [Hc | Hge]; [congruence | lia].
    + cbn [state withStats] in Hst. destruct Hinv as [Hc | Hge]; [left; congruence | lia].
Qed.

Lemma executeMany_tripConsistent gaps : forall fn cb σ rs cb' σ',
  executeMany gaps fn cb σ = (rs, cb', σ') -> tripConsistent cb -> tripConsistent cb'.
Proof.
  induction gaps as [| gap gaps IH]; intros fn cb σ rs cb' σ' Hrun Hinv.
  - injection Hrun as <- <- <-. exact Hinv.
  - cbn [executeMany] in Hrun.
    destruct (idle gap cb σ) as [cb1 σ1] eqn:Hidle.
    destruct (execute fn cb1 σ1) as [[r cb2] σ2] eqn:Hex.
    destruct (executeMany gaps fn cb2 σ2) as [[rs3 cb3] σ3] eqn:Hrest.
    injection Hrun as <- <- <-.
    apply idle_spec in Hidle as (-> & _ & _).
    eapply IH; [exact Hrest |]. eapply execute_tripConsistent; [exact Hex |].
    exact Hinv.
Qed.

(** X1. Whatever calls a new breaker has served, with whatever pauses and
    outcomes, its circuit is CLOSED or its failure count has reached the
    threshold: the states OPEN and HALF_OPEN only occur with
    [failureCount >= failureThreshold]. *)
Theorem X1_open_only_at_threshold
    (nm : string) (options : Options) (gaps : list Z) (fn : AsyncFn) (σ : World)
    (rs : list (Completion Payload)) (cb : CircuitBreaker) (σ' : World) :
  executeMany gaps fn (newCircuitBreaker nm options) σ = (rs, cb, σ') ->
  state cb = CLOSED \/ failureThreshold cb <= failureCount cb.
Proof.
  intros Hrun. apply (executeMany_tripConsistent _ _ _ _ _ _ _ Hrun).
  left. reflexivity.
Qed.

Lemma executeMany_counts gaps : forall fn cb σ rs cb' σ',
  executeMany gaps fn cb σ = (rs, cb', σ') ->
  length rs = length gaps /\
  (calls σ <= calls σ')%nat /\
  Stats.totalRequests (stats cb') = Stats.totalRequests (stats cb) + Z.of_nat (length gaps) /\
  Stats.successfulRequests (stats cb') = Stats.successfulRequests (stats cb) + countReturns rs /\
  Stats.successfulRequests (stats cb') + Stats.failedRequests (stats cb')
    = Stats.successfulRequests (stats cb) + Stats.failedRequests (stats cb)
      + Z.of_nat (calls σ' - calls σ) /\
  Stats.timeouts (stats cb') + Z.of_nat (length (pendingTimers cb'))
    = Stats.timeouts (stats cb) + Z.of_nat (length (pendingTimers cb))
      + Z.of_nat (calls σ' - calls σ).
Proof.
  induction gaps as [| gap gaps IH]; intros fn cb σ rs cb' σ' Hrun.
  - injection Hrun as <- <- <-. cbn. replace (calls σ - calls σ)%nat with 0%nat by lia.
    repeat split; lia.
  - cbn [executeMany] in Hrun.
    destruct (idle gap cb σ) as [cb1 σ1] eqn:Hidle.
    destruct (execute fn cb1 σ1) as [[r cb2] σ2] eqn:Hex.
    destruct (executeMany gaps fn cb2 σ2) as [[rs3 cb3] σ3] eqn:Hrest.
    injection Hrun as <- <- <-.
    apply idle_spec in Hidle as (-> & _ & Hcalls1).
    apply execute_counts in Hex as (Htot & Htim & Hcase).
    apply IH in Hrest as (Hlen & Hle & Htot3 & Hsucc3 & Hsum3 & Htim3).
    rewrite runTimers_timers in Htim. cbn [stats runTimers withTimers withStats] in Htot, Hcase.
    cbn [Stats.totalRequests Stats.successfulRequests Stats.failedRequests countTimeouts]
      in Htot, Hcase.
    cbn [length]. rewrite Hcalls1 in *.
    destruct Hcase as [(Hc & Hr & Hs & Hf) | [(Hc & Hr & Hs & Hf) | (Hc & Hr & Hs & Hf)]];
      destruct r as [v | e]; cbn in Hr; try tauto; cbn [countReturns];
      repeat split; lia.
Qed.

(** X2. On a new breaker every [execute] call counts as a request; the
    calls that were let through, and no others, invoke the operation and are
    counted once as a success or a failure; the successes are the calls that
    returned a result. *)
Theorem X2_request_accounting
    (nm : string) (options : Options) (gaps : list Z) (fn : AsyncFn) (σ : World)
    (rs : list (Completion Payload)) (cb : CircuitBreaker) (σ' : World) :
  executeMany gaps fn (newCircuitBreaker nm options) σ = (rs, cb, σ') ->
  length rs = length gaps /\
  Stats.totalRequests (stats cb) = Z.of_nat (length gaps) /\
  Stats.successfulRequests (stats cb) = countReturns rs /\
  Stats.successfulRequests (stats cb) + Stats.failedRequests (stats cb)
    = Z.of_nat (calls σ' - calls σ) /\
  Stats.successfulRequests (stats cb) + Stats.failedRequests (stats cb)
    <= Stats.totalRequests (stats cb).
Proof.
  intros Hrun.
  pose proof (executeMany_counts _ _ _ _ _ _ _ Hrun) as (Hlen & Hle & Htot & Hsucc & Hsum & _).
  cbn in Htot, Hsucc, Hsum.
  assert (Hbound : Z.of_nat (calls σ' - calls σ) <= Z.of_nat (length gaps)).
  { clear - Hrun. revert fn σ rs cb σ' Hrun. generalize (newCircuitBreaker nm options).
    induction gaps as [| gap gaps IH]; intros cb0 fn σ rs cb σ' Hrun.
    - injection Hrun as <- <- <-. cbn. lia.
    - cbn [executeMany] in Hrun.
      destruct (idle gap cb0 σ) as [cb1 σ1] eqn:Hidle.
      destruct (execute fn cb1 σ1) as [[r cb2] σ2] eqn:Hex.
      destruct (executeMany gaps fn cb2 σ2) as [[rs3 cb3] σ3] eqn:Hrest.
      injection Hrun as <- <- <-.
      apply idle_spec in Hidle as (_ & _ & Hcalls1).
      apply execute_counts in Hex as (_ & _ & Hcase).
      pose proof (executeMany_counts _ _ _ _ _ _ _ Hrest) as (_ & Hle & _).
      apply IH in Hrest. cbn [length].
      destruct Hcase as [(Hc & _) | [(Hc & _) | (Hc & _)]]; lia. }
  repeat split; lia.
Qed.

Lemma executeMany_pending gaps : forall fn cb σ rs cb' σ',
  Forall (fun gap => 0 <= gap) gaps -> timely fn ->
  executeMany gaps fn cb σ = (rs, cb', σ') ->
  Forall (fun f => f <= now σ + timerDelay (timeout cb)) (pendingTimers cb) ->
  timeout cb' = timeout cb /\ now σ <= now σ' /\
  Forall (fun f => f <= now σ' + timerDelay (timeout cb)) (pendingTimers cb').
Proof.
  induction gaps as [| gap gaps IH]; intros fn cb σ rs cb' σ' Hgaps Ht Hrun Hall.
  - injection Hrun as <- <- <-. split; [reflexivity |]. split; [lia | exact Hall].
  - cbn [executeMany] in Hrun.
    destruct (idle gap cb σ) as [cb1 σ1] eqn:Hidle.
    destruct (execute fn cb1 σ1) as [[r cb2] σ2] eqn:Hex.
    destruct (executeMany gaps fn cb2 σ2) as [[rs3 cb3] σ3] eqn:Hrest.
    injection Hrun as <- <- <-.
    apply idle_spec in Hidle as (-> & Hnow1 & _).
    apply Forall_cons in Hgaps as (Hgap & Hgaps).
    pose proof (execute_clock _ _ _ _ _ _ Ht Hex) as Hclock.
    assert (Hto2 : timeout cb2 = timeout cb).
    { apply execute_cases in Hex.
      inversion Hex as [| ? ? ? ? ? _ _ _ _ Hcfg | ? ? ? ? _ _ _ Hcfg]; subst;
        [reflexivity | |]; destruct Hcfg as (_ & _ & Hto0 & _); exact Hto0. }
    assert (Hall2 : Forall (fun f => f <= now σ2 + timerDelay (timeout cb)) (pendingTimers cb2)).
    { eapply execute_pending; [exact Hex | |].
      - cbn [pendingTimers runTimers withTimers withStats]. apply Forall_filter_keep.
        eapply Forall_impl; [exact Hall |]. cbn. intros f Hf. lia.
      - cbn [timeout runTimers withTimers withStats]. lia. }
    rewrite <- Hto2 in Hall2.
    destruct (IH fn cb2 σ2 rs3 cb3 σ3 Hgaps Ht Hrest Hall2) as (Hto3 & Hnow3 & Hall3).
    rewrite Hto2 in Hto3, Hall3. split; [exact Hto3 |]. split; [lia | exact Hall3].
Qed.

(** X3. No timer is ever cleared: for any sequence of calls on a new
    breaker (pauses and durations not negative), once the caller has waited
    for the length of the timeout after the last call, no timer is pending
    and [stats.timeouts] equals the number of invocations of the wrapped
    operation, successful ones included. *)
Theorem X3_every_invocation_ends_as_a_timeout
    (nm : string) (options : Options) (gaps : list Z) (fn : AsyncFn) (σ : World)
    (rs : list (Completion Payload)) (cb : CircuitBreaker) (σ' : World) (gap : Z) :
  Forall (fun g => 0 <= g) gaps -> timely fn ->
  executeMany gaps fn (newCircuitBreaker nm options) σ = (rs, cb, σ') ->
  timerDelay (timeout cb) <= gap ->
  pendingTimers (fst (idle gap cb σ')) = [] /\
  Stats.timeouts (stats (fst (idle gap cb σ'))) = Z.of_nat (calls σ' - calls σ) /\
  Stats.successfulRequests (stats (fst (idle gap cb σ'))) = countReturns rs.
Proof.
  intros Hgaps Ht Hrun Hgap.
  destruct (executeMany_pending _ _ _ _ _ _ _ Hgaps Ht Hrun) as (Hto & _ & Hall);
    [constructor |].
  pose proof (executeMany_counts _ _ _ _ _ _ _ Hrun) as (_ & _ & _ & Hsucc & _ & Htim).
  cbn [stats newCircuitBreaker pendingTimers Stats.timeouts Stats.successfulRequests length]
    in Htim, Hsucc.
  rewrite <- Hto in Hall.
  assert (Hdue : Forall (fun f => f <= now σ' + gap) (pendingTimers cb)).
  { eapply Forall_impl; [exact Hall |]. cbn. intros f Hf. lia. }
  destruct (filter_all_due _ _ Hdue) as (Hrest & Hfired).
  cbn [idle fst runTimers withTimers withStats pendingTimers stats countTimeouts
       Stats.timeouts Stats.successfulRequests].
  rewrite Hrest, Hfired. split; [reflexivity |]. split; lia.
Qed.

(** Failing calls that stay below the threshold leave the circuit closed. *)
Lemma failures_below_threshold gaps : forall fn cb σ rs cb' σ',
  state cb = CLOSED ->
  failureCount cb + Z.of_nat (length gaps) < failureThreshold cb ->
  (forall k, (k < length gaps)%nat ->
     failsWithin (timerDelay (timeout cb)) (fn (calls σ + k)%nat)) ->
  executeMany gaps fn cb σ = (rs, cb', σ') ->
  state cb' = CLOSED /\
  failureCount cb' = failureCount cb + Z.of_nat (length gaps) /\
  Stats.circuitOpenCount (stats cb') = Stats.circuitOpenCount (stats cb) /\
  calls σ' = (calls σ + length gaps)%nat.
Proof.
  induction gaps as [| gap gaps IH]; intros fn cb σ rs cb' σ' Hst Hfc Hfail Hrun.
  - injection Hrun as <- <- <-. cbn. repeat split; try assumption; lia.
  - cbn [executeMany] in Hrun.
    destruct (idle gap cb σ) as [cb1 σ1] eqn:Hidle.
    destruct (execute fn cb1 σ1) as [[r cb2] σ2] eqn:Hex.
    destruct (executeMany gaps fn cb2 σ2) as [[rs3 cb3] σ3] eqn:Hrest.
    injection Hrun as <- <- <-.
    apply idle_spec in Hidle as (-> & _ & Hcalls1).
    apply execute_cases in Hex.
    assert (Hf0 : failsWithin (timerDelay (timeout cb)) (fn (calls σ1))).
    { rewrite Hcalls1. specialize (Hfail 0%nat). rewrite Nat.add_0_r in Hfail.
      apply Hfail. cbn. lia. }
    cbn [length] in Hfc.
    inversion Hex as [Hopen _ | cba d v ? ? _ Hrace
                     | cba e ? ? Hgate _ Hcalls Hcfg Hfc2 _ Hst2 Hcnt _]; subst.
    + cbn in Hopen. congruence.
    + exfalso. cbn in Hrace. unfold failsWithin in Hf0. rewrite Hrace in Hf0. exact Hf0.
    + apply gateCheck_inl in Hgate as (_ & _ & _ & _ & Hcase). cbn in Hcase.
      destruct Hcase as [(Hopen & _) | (_ & ->)]; [congruence |].
      cbn in Hst2, Hfc2, Hcnt, Hcfg.
      destruct (Z.leb_spec (failureThreshold cb) (failureCount cb + 1)); [lia |].
      destruct Hcfg as (_ & Hth & Hto & _). cbn in Hth, Hto.
      destruct (IH fn cb2 σ2 rs3 cb3 σ3) as (H1 & H2 & H3 & H4); try assumption.
      * congruence.
      * lia.
      * intros k Hk. rewrite Hto, Hcalls, Hcalls1.
        replace (S (calls σ) + k)%nat with (calls σ + S k)%nat by lia.
        apply Hfail. cbn. lia.
      * cbn [length]. repeat split; try assumption; lia.
Qed.

(** X4. After a success, whatever the history of the breaker, the circuit
    is CLOSED with the failure count at 0: fewer consecutive failures than
    the threshold leave it CLOSED, and exactly [failureThreshold] of them
    open it, adding one to [circuitOpenCount]. *)
Theorem X4_success_restarts_the_failure_count
    (fn : AsyncFn) (cb : CircuitBreaker) (σ : World)
    (v : Payload) (cb1 : CircuitBreaker) (σ1 : World) (gaps : list Z)
    (rs : list (Completion Payload)) (cb2 : CircuitBreaker) (σ2 : World) :
  execute fn cb σ = (Returns v, cb1, σ1) ->
  (forall k, (k < length gaps)%nat ->
     failsWithin (timerDelay (timeout cb)) (fn (calls σ1 + k)%nat)) ->
  executeMany gaps fn cb1 σ1 = (rs, cb2, σ2) ->
  state cb1 = CLOSED /\ failureCount cb1 = 0 /\
  (Z.of_nat (length gaps) < failureThreshold cb ->
   state cb2 = CLOSED /\
   Stats.circuitOpenCount (stats cb2) = Stats.circuitOpenCount (stats cb)) /\
  (gaps <> [] -> Z.of_nat (length gaps) = failureThreshold cb ->
   state cb2 = OPEN /\
   Stats.circuitOpenCount (stats cb2) = Stats.circuitOpenCount (stats cb) + 1).
Proof.
  intros Hex Hfail Hrun.
  assert (Hcnt1 : Stats.circuitOpenCount (stats cb1) = Stats.circuitOpenCount (stats cb)).
  { revert Hex. unfold execute.
    destruct (gateCheck (withStats countRequest cb) (now σ)) as [cba | err] eqn:Hgate;
      [| discriminate].
    apply gateCheck_inl in Hgate as (_ & _ & Hst & _). cbn in Hst.
    destruct (settlesFirst _ _) as [[d [v0 | e]] |]; try discriminate.
    intros [= _ <- _]. cbn. rewrite Hst. reflexivity. }
  apply execute_cases in Hex.
  inversion Hex as [| cba d v0 ? ? _ _ _ _ Hcfg Hst Hfc |]; subst.
  destruct Hcfg as (_ & Hth & Hto & _).
  split; [exact Hst |]. split; [exact Hfc |]. split.
  - intros Hlt.
    destruct (failures_below_threshold gaps fn cb1 σ1 rs cb2 σ2) as (H1 & _ & H3 & _);
      try assumption.
    + lia.
    + rewrite Hto. exact Hfail.
    + split; [exact H1 | congruence].
  - intros Hne Heq.
    destruct (failures_reach_threshold gaps fn cb1 σ1 rs cb2 σ2) as (H1 & H2 & _);
      try assumption.
    + lia.
    + rewrite Hto. exact Hfail.
    + split; [exact H1 | lia].
Qed.

(** A rejected call changes the request counter only. *)
Lemma execute_rejected fn cb σ :
  state cb = OPEN ->
  now σ - toNumber (lastFailureTime cb) < resetTimeout cb ->
  execute fn cb σ
    = (Throws (circuitOpenError (withStats countRequest cb) (now σ)),
       withStats countRequest cb, σ) /\
  state (withStats countRequest cb) = OPEN /\
  lastFailureTime (withStats countRequest cb) = lastFailureTime cb /\
  failureCount (withStats countRequest cb) = failureCount cb /\
  resetTimeout (withStats countRequest cb) = resetTimeout cb /\
  Stats.totalRequests (stats (withStats countRequest cb)) = Stats.totalRequests (stats cb) + 1.
Proof.
  intros Hs Hlt. split.
  - unfold execute. rewrite gateCheck_open_cooling by assumption. reflexivity.
  - repeat split. exact Hs.
Qed.

(** X5. Calls made during the cool-down are all rejected without invoking
    the operation, and they do not restart the cool-down: the time of the
    last failure is left as it was, so that the first call made
    [resetTimeout] after that failure is let through, however many calls
    were rejected in between. *)
Theorem X5_rejections_do_not_restart_the_cool_down
    (fn : AsyncFn) (gaps : list Z) : forall (cb : CircuitBreaker) (σ : World) (tf : Z)
    (rs : list (Completion Payload)) (cb' : CircuitBreaker) (σ' : World),
  state cb = OPEN -> lastFailureTime cb = Some tf ->
  Forall (fun gap => 0 <= gap) gaps ->
  now σ + foldr Z.add 0 gaps - tf < resetTimeout cb ->
  executeMany gaps fn cb σ = (rs, cb', σ') ->
  Forall isThrow rs /\ calls σ' = calls σ /\
  now σ' = now σ + foldr Z.add 0 gaps /\
  state cb' = OPEN /\ lastFailureTime cb' = Some tf /\
  failureCount cb' = failureCount cb /\
  Stats.totalRequests (stats cb') = Stats.totalRequests (stats cb) + Z.of_nat (length gaps) /\
  forall gap, resetTimeout cb <= now σ' + gap - tf ->
    letsThrough (fst (idle gap cb' σ')) (now (snd (idle gap cb' σ'))) = true.
Proof.
  induction gaps as [| gap gaps IH]; intros cb σ tf rs cb' σ' Hst Hlast Hgaps Hcool Hrun.
  - injection Hrun as <- <- <-. cbn in *. repeat split; try assumption; try lia.
    + constructor.
    + intros gap Hgap. unfold letsThrough, gateCheck. cbn. rewrite Hst, Hlast. cbn.
      destruct (Z.ltb_spec (now σ + gap - tf) (resetTimeout cb)); [lia | reflexivity].
  - cbn [executeMany] in Hrun. cbn [foldr] in Hcool.
    apply Forall_cons in Hgaps as (Hgap & Hgaps).
    assert (Hsum : 0 <= foldr Z.add 0 gaps).
    { clear - Hgaps. induction Hgaps; cbn; lia. }
    destruct (idle gap cb σ) as [cb1 σ1] eqn:Hidle.
    apply idle_spec in Hidle as (-> & Hnow1 & Hcalls1).
    destruct (execute_rejected fn (runTimers (now σ + gap) cb) σ1)
      as (Hex & Hst2 & Hlast2 & Hfc2 & Hrt2 & Htot2).
    { exact Hst. }
    { cbn. rewrite Hlast, Hnow1. cbn. lia. }
    rewrite Hex in Hrun.
    destruct (executeMany gaps fn _ σ1) as [[rs3 cb3] σ3] eqn:Hrest.
    injection Hrun as <- <- <-.
    eapply IH in Hrest; [| exact Hst2 | rewrite Hlast2; exact Hlast | exact Hgaps
                         | rewrite Hrt2, Hnow1; cbn; lia].
    destruct Hrest as (H1 & H2 & H3 & H4 & H5 & H6 & H7 & H8).
    cbn [length foldr]. rewrite Hrt2 in H8. cbn in H8.
    cbn in Hfc2, Htot2, H6, H7.
    repeat split; try assumption; try lia.
    constructor; [exact I | exact H1].
Qed.

(** ** The wrapper over whole updates *)

Lemma sameSetup_refl w : sameSetup w w.
Proof. repeat split. Qed.

Lemma sameSetup_trans a b c : sameSetup a b -> sameSetup b c -> sameSetup a c.
Proof.
  intros (H1 & H2 & H3 & H4 & H5) (G1 & G2 & G3 & G4 & G5).
  repeat split; try congruence;
    try (eapply sameConfig_trans; eassumption);
    try (destruct H4 as (?&?&?&?), G4 as (?&?&?&?); congruence);
    try (destruct H5 as (?&?&?&?), G5 as (?&?&?&?); congruence).
Qed.

Lemma sameSetup_setBreaker w cb' :
  sameConfig (getBreaker (selectCircuitBreaker w) w) cb' ->
  sameSetup w (setBreaker (selectCircuitBreaker w) cb' w).
Proof.
  intros Hcfg. destruct (selectCircuitBreaker w); cbn in *; repeat split;
    destruct Hcfg as (?&?&?&?); assumption.
Qed.

Lemma execute_sameConfig fn cb σ r cb' σ' :
  execute fn cb σ = (r, cb', σ') -> sameConfig cb cb'.
Proof.
  intros Hex. apply execute_cases in Hex.
  inversion Hex as [| ? ? ? ? ? _ _ _ _ Hcfg | ? ? ? ? _ _ _ Hcfg]; subst;
    [repeat split | exact Hcfg | exact Hcfg].
Qed.

Lemma execute_calls fn cb σ r cb' σ' :
  execute fn cb σ = (r, cb', σ') ->
  (calls σ' = calls σ \/ calls σ' = S (calls σ)) /\
  (forall v, r = Returns v -> calls σ' = S (calls σ)) /\
  (forall e, r = Throws e -> codeIs e "CIRCUIT_OPEN" = false -> calls σ' = S (calls σ)).
Proof.
  intros Hex. apply execute_cases in Hex.
  inversion Hex as [| ? ? ? ? ? _ _ Hc | ? ? ? ? _ _ Hc]; subst.
  - split; [left; reflexivity |]. split; [discriminate |].
    intros e [= <-] Hcode. cbn in Hcode. discriminate.
  - split; [right; exact Hc |]. split; [intros; exact Hc | discriminate].
  - split; [right; exact Hc |]. split; [discriminate | intros; exact Hc].
Qed.

(** What a settled run of [fullProtectionMode] leaves behind. *)
Lemma fullProtectionMode_outcome gtfs (fuel : nat) : forall w σ r w' σ',
  fullProtectionMode fuel gtfs w σ = Some (r, w', σ') ->
  sameSetup w w' /\
  (calls σ <= calls σ')%nat /\
  match r with
  | Returns (Data _) =>
      consecutiveFailures w' = 0 /\ lastSuccessfulUpdate w' = Some (now σ') /\
      (calls σ < calls σ')%nat
  | Returns (Degraded fb) =>
      consecutiveFailures w' = consecutiveFailures w + 1 /\
      lastSuccessfulUpdate w' = lastSuccessfulUpdate w /\
      fb = getGracefulFallback (now σ') w'
  | Throws _ => False
  end.
Proof.
  induction fuel as [| fuel IH]; intros w σ r w' σ' Hrun; [discriminate |].
  cbn [fullProtectionMode] in Hrun.
  destruct (execute gtfs (getBreaker (selectCircuitBreaker w) w) σ)
    as [[r0 cb'] σ1] eqn:Hex.
  pose proof (execute_sameConfig _ _ _ _ _ _ Hex) as Hcfg.
  pose proof (execute_calls _ _ _ _ _ _ Hex) as (Hcalls & Hret & _).
  pose proof (sameSetup_setBreaker w cb' Hcfg) as Hset.
  pose proof (setBreaker_fields (selectCircuitBreaker w) cb' w) as (Hl & Hc & _).
  set (w1 := setBreaker (selectCircuitBreaker w) cb' w) in *.
  assert (Hset1 : forall t, sameSetup w (runAllTimers t w1)).
  { intros t. eapply sameSetup_trans; [exact Hset |]. repeat split. }
  destruct r0 as [v | e].
  - injection Hrun as <- <- <-. specialize (Hret v eq_refl). split.
    + eapply sameSetup_trans; [apply Hset1 |]. repeat split.
    + split; [lia |]. cbn. repeat split. lia.
  - unfold handleUpdateError in Hrun.
    destruct (codeIs e "CIRCUIT_OPEN").
    + injection Hrun as <- <- <-. split.
      * eapply sameSetup_trans; [apply Hset1 |]. repeat split.
      * split; [lia |]. cbn. rewrite Hl, Hc. repeat split.
    + cbn [getCurrentRetryCount] in Hrun.
      match type of Hrun with
      | (if ?c then _ else _) = _ => destruct c
      end.
      * cbn [sleep] in Hrun. apply IH in Hrun as (Hsame & Hle & Hres).
        split; [eapply sameSetup_trans; [apply (Hset1 (now σ1)) |];
                eapply sameSetup_trans; [| exact Hsame]; repeat split |].
        cbn [calls atTime] in Hle, Hres. split; [lia |].
        destruct r as [[v | fb] | e']; [| | exact Hres].
        -- destruct Hres as (? & ? & ?). repeat split; try assumption. lia.
        -- cbn in Hres. rewrite Hl, Hc in Hres. exact Hres.
      * injection Hrun as <- <- <-. split.
        -- eapply sameSetup_trans; [apply Hset1 |]. repeat split.
        -- split; [lia |]. cbn. rewrite Hl, Hc. repeat split.
Qed.

(** X6. A settled full-protection update is accounted for once, however
    many attempts it took: a success sets [consecutiveFailures] to 0 and
    stamps [lastSuccessfulUpdate] with the current time; a fallback adds
    exactly 1 to [consecutiveFailures] and leaves [lastSuccessfulUpdate] as
    it was. The configuration and the mode flags are not written. *)
Theorem X6_one_update_counts_once
    (fuel : nat) (gtfs : AsyncFn) (w : RobustGtfsWrapper) (σ : World)
    (r : Completion UpdateResult) (w' : RobustGtfsWrapper) (σ' : World) :
  fullProtectionMode fuel gtfs w σ = Some (r, w', σ') ->
  config w' = config w /\
  nativeTimeoutSupported w' = nativeTimeoutSupported w /\
  wrapperEnabled w' = wrapperEnabled w /\
  ((exists v, r = Returns (Data v) /\
      consecutiveFailures w' = 0 /\ lastSuccessfulUpdate w' = Some (now σ')) \/
   (exists fb, r = Returns (Degraded fb) /\
      consecutiveFailures w' = consecutiveFailures w + 1 /\
      lastSuccessfulUpdate w' = lastSuccessfulUpdate w)).
Proof.
  intros Hrun. apply fullProtectionMode_outcome in Hrun as ((Hc & Hn & He & _) & _ & Hres).
  repeat split; try assumption.
  destruct r as [[v | fb] | e]; [left | right | contradiction].
  - exists v. tauto.
  - exists fb. tauto.
Qed.

(** More attempts explored do not change a settled run. *)
Lemma fullProtectionMode_more_fuel gtfs (fuel : nat) : forall w σ res,
  fullProtectionMode fuel gtfs w σ = Some res ->
  fullProtectionMode (S fuel) gtfs w σ = Some res.
Proof.
  induction fuel as [| fuel IH]; intros w σ res Hrun; [discriminate |].
  cbn [fullProtectionMode] in Hrun |- *.
  destruct (execute gtfs (getBreaker (selectCircuitBreaker w) w) σ) as [[r0 cb'] σ1].
  destruct r0 as [v | e]; [exact Hrun |].
  unfold handleUpdateError in Hrun |- *.
  destruct (codeIs e "CIRCUIT_OPEN"); [exact Hrun |].
  cbn [getCurrentRetryCount] in Hrun |- *.
  match type of Hrun with
  | (if ?c then _ else _) = _ => destruct c
  end; [| exact Hrun].
  cbn [sleep] in Hrun |- *. apply IH in Hrun. exact Hrun.
Qed.

Lemma fullProtectionMode_fuel_le gtfs (fuel fuel' : nat) w σ res :
  (fuel <= fuel')%nat ->
  fullProtectionMode fuel gtfs w σ = Some res ->
  fullProtectionMode fuel' gtfs w σ = Some res.
Proof.
  induction 1 as [| fuel' _ IH]; [tauto |].
  intros Hrun. apply fullProtectionMode_more_fuel, IH, Hrun.
Qed.

(** One entry into [fullProtectionMode], with the count of invocations. *)
Lemma fullProtectionMode_entry fuel gtfs w σ :
  let key := selectCircuitBreaker w in
  let cb := getBreaker key w in
  (exists r w' σ',
     fullProtectionMode (S fuel) gtfs w σ = Some (r, w', σ') /\
     (calls σ' <= S (calls σ))%nat)
  \/
  (exists w2 σ2,
     fullProtectionMode (S fuel) gtfs w σ = fullProtectionMode fuel gtfs w2 σ2 /\
     calls σ2 = S (calls σ) /\
     selectCircuitBreaker w2 = key /\
     sameConfig cb (getBreaker key w2) /\
     failureCount (getBreaker key w2) = failureCount cb + 1 /\
     (failureThreshold cb <= failureCount cb + 1 -> state (getBreaker key w2) = OPEN) /\
     exists tf, lastFailureTime (getBreaker key w2) = Some tf /\ now σ2 - tf <= 30000).
Proof.
  intros key cb. cbn [fullProtectionMode]. fold key. fold cb.
  destruct (execute gtfs cb σ) as [[r cb'] σ1] eqn:Hex.
  pose proof (execute_calls _ _ _ _ _ _ Hex) as (Hcalls & _ & Hinv).
  apply execute_cases in Hex.
  destruct r as [v | e].
  - left. eexists _, _, _. split; [reflexivity |]. lia.
  - unfold handleUpdateError.
    destruct (codeIs e "CIRCUIT_OPEN") eqn:Hcode.
    + left. eexists _, _, _. split; [reflexivity |]. lia.
    + cbn [getCurrentRetryCount].
      match goal with
      | |- context [if ?c then _ else _] => destruct c eqn:Hretry
      end.
      * right. cbn [sleep].
        eexists _, _. split; [reflexivity |].
        inversion Hex as [Hopen Hlt | | cba e' cb'' σ'' Hadm _ Hc Hcfg Hfc Hlast Hst _ _]; subst.
        { exfalso. cbn in Hcode. discriminate. }
        split; [exact Hc |].
        match goal with
        | |- selectCircuitBreaker (runAllTimers ?t2 (withTracker ?m (runAllTimers ?t1 _))) = _ /\ _ =>
            destruct (reentry_fields w cb' t1 t2 m) as (Hsel & Hget & _)
        end.
        fold key in Hsel, Hget. rewrite Hget.
        split; [exact Hsel |].
        split; [eapply sameConfig_trans; [exact Hcfg |];
                eapply sameConfig_trans; apply runTimers_sameConfig |].
        split; [exact Hfc |].
        split.
        { intros Hth. cbn [runTimers withTimers withStats state]. rewrite Hst.
          destruct (Z.leb_spec (failureThreshold cb) (failureCount cb + 1)); [reflexivity | lia]. }
        exists (now σ1). split; [exact Hlast |].
        cbn [atTime now].
        match goal with
        | |- now σ1 + timerDelay ?d - now σ1 <= _ =>
            assert (timerDelay d <= 30000)
              by (apply timerDelay_le; [lia | apply getRetryDelay_le]); lia
        end.
      * left. eexists _, _, _. split; [reflexivity |]. lia.
Qed.

Lemma fullProtectionMode_open_calls fuel gtfs w σ :
  let cb := getBreaker (selectCircuitBreaker w) w in
  state cb = OPEN ->
  now σ - toNumber (lastFailureTime cb) < resetTimeout cb ->
  exists r w', fullProtectionMode (S fuel) gtfs w σ = Some (r, w', σ).
Proof.
  intros cb Hs Hlt.
  destruct (fullProtectionMode_open fuel gtfs w σ Hs Hlt) as (w' & Hrun & _).
  eauto.
Qed.

Lemma fullProtectionMode_bounded gtfs (n : nat) : forall w σ,
  let cb := getBreaker (selectCircuitBreaker w) w in
  30000 < resetTimeout cb ->
  failureThreshold cb - failureCount cb <= Z.of_nat n ->
  exists r w' σ',
    fullProtectionMode (S (S n)) gtfs w σ = Some (r, w', σ') /\
    (calls σ' - calls σ <= Nat.max 1 n)%nat.
Proof.
  induction n as [| n IH]; intros w σ cb Hreset Hmeasure.
  - destruct (fullProtectionMode_entry 1 gtfs w σ)
      as [(r & w' & σ' & Hrun & Hc)
         | (w2 & σ2 & Hrun & Hc & Hkey & Hcfg & Hfc & Hopen & tf & Hlast & Hel)].
    + exists r, w', σ'. split; [exact Hrun | cbn; lia].
    + fold cb in Hcfg, Hfc, Hopen. rewrite Hrun.
      destruct (fullProtectionMode_open_calls 0 gtfs w2 σ2) as (r & w' & Hrun2).
      * rewrite Hkey. apply Hopen. cbn in Hmeasure. lia.
      * rewrite Hkey, Hlast. destruct Hcfg as (_ & _ & _ & Hrt). rewrite Hrt. cbn. lia.
      * exists r, w', σ2. split; [exact Hrun2 | cbn; lia].
  - destruct (fullProtectionMode_entry (S (S n)) gtfs w σ)
      as [(r & w' & σ' & Hrun & Hc)
         | (w2 & σ2 & Hrun & Hc & Hkey & Hcfg & Hfc & Hopen & tf & Hlast & Hel)].
    + exists r, w', σ'. split; [exact Hrun | lia].
    + fold cb in Hcfg, Hfc, Hopen. rewrite Hrun.
      destruct n as [| m].
      * destruct (fullProtectionMode_open_calls 1 gtfs w2 σ2) as (r & w' & Hrun2).
        -- rewrite Hkey. apply Hopen. cbn in Hmeasure. lia.
        -- rewrite Hkey, Hlast. destruct Hcfg as (_ & _ & _ & Hrt). rewrite Hrt. cbn. lia.
        -- exists r, w', σ2. split; [exact Hrun2 | cbn; lia].
      * destruct (IH w2 σ2) as (r & w' & σ' & Hrun2 & Hc2).
        -- rewrite Hkey. destruct Hcfg as (_ & _ & _ & Hrt). rewrite Hrt. exact Hreset.
        -- rewrite Hkey. destruct Hcfg as (_ & Hth & _). rewrite Hth, Hfc. lia.
        -- exists r, w', σ'. split; [exact Hrun2 | lia].
Qed.

(** X7. What does bound the invocations of one full-protection update is
    the breaker: when the cool-down of the selected breaker is longer than
    30 s, the update settles, and no settled run of it invokes the wrapped
    operation more than [max(1, failureThreshold - failureCount)] times. *)
Theorem X7_breaker_bounds_the_invocations
    (gtfs : AsyncFn) (w : RobustGtfsWrapper) (σ : World) :
  let cb := getBreaker (selectCircuitBreaker w) w in
  30000 < resetTimeout cb ->
  (exists fuel r w' σ', fullProtectionMode fuel gtfs w σ = Some (r, w', σ')) /\
  (forall fuel r w' σ',
     fullProtectionMode fuel gtfs w σ = Some (r, w', σ') ->
     Z.of_nat (calls σ' - calls σ) <= Z.max 1 (failureThreshold cb - failureCount cb)).
Proof.
  intros cb Hreset.
  set (n := Z.to_nat (failureThreshold cb - failureCount cb)).
  destruct (fullProtectionMode_bounded gtfs n w σ Hreset) as (r0 & w0 & σ0 & Hrun0 & Hc0).
  { subst n. fold cb. lia. }
  split; [eauto |].
  intros fuel r w' σ' Hrun.
  assert (Hsame : (r, w', σ') = (r0, w0, σ0)).
  { destruct (Nat.le_ge_cases fuel (S (S n))) as [Hle | Hge].
    - pose proof (fullProtectionMode_fuel_le _ _ _ _ _ _ Hle Hrun) as H1. congruence.
    - pose proof (fullProtectionMode_fuel_le _ _ _ _ _ _ Hge Hrun0) as H1. congruence. }
  injection Hsame as -> -> ->. subst n. lia.
Qed.

(** A call of [updateGtfsRealtime] leaves the setup chosen by its own
    detection step, and never erases the record of a success. *)
Lemma updateGtfsRealtime_setup fuel environment gtfs gtfsConfig w σ r w' σ' :
  updateGtfsRealtime fuel environment gtfs gtfsConfig w σ = Some (r, w', σ') ->
  sameSetup (afterDetection environment gtfsConfig w) w' /\
  (lastSuccessfulUpdate w <> None -> lastSuccessfulUpdate w' <> None).
Proof.
  unfold updateGtfsRealtime. fold (afterDetection environment gtfsConfig w).
  assert (Hl0 : lastSuccessfulUpdate (afterDetection environment gtfsConfig w)
                = lastSuccessfulUpdate w).
  { unfold afterDetection. destruct (lastSuccessfulUpdate w) eqn:Hl; [exact Hl |].
    cbn. exact Hl. }
  set (w0 := afterDetection environment gtfsConfig w) in *. clearbody w0.
  destruct (wrapperEnabled w0); cbn [negb].
  - destruct (nativeTimeoutSupported w0).
    + unfold lightweightMode, awaitDirect.
      destruct (gtfs (calls σ)) as [d v | d e |]; [| | discriminate];
        intros [= <- <- <-].
      * split; [repeat split | cbn; discriminate].
      * split; [| cbn; congruence].
        cbn [setBreaker getBreaker onUpdateFailure countFailure runAllTimers withBreakers
             circuitBreakers main network].
        repeat split; cbn; try reflexivity;
          match goal with
          | |- context [onFailure ?t ?e ?rt ?c] =>
              destruct (onFailure_sameConfig t e rt c) as (?&?&?&?); assumption
          end.
    + intros Hrun. apply fullProtectionMode_outcome in Hrun as (Hsame & _ & Hres).
      split; [exact Hsame |].
      destruct r as [[v | fb] | e]; [| | contradiction].
      * destruct Hres as (_ & -> & _). discriminate.
      * destruct Hres as (_ & -> & _). congruence.
  - unfold awaitDirect.
    destruct (gtfs (calls σ)) as [d v | d e |]; [| | discriminate];
      intros [= <- <- <-]; (split; [repeat split | cbn; congruence]).
Qed.

Lemma detectNativeCapabilities_idempotent environment gtfsConfig w :
  detectNativeCapabilities environment gtfsConfig
    (detectNativeCapabilities environment gtfsConfig w)
  = detectNativeCapabilities environment gtfsConfig w.
Proof.
  unfold detectNativeCapabilities, withFlags. cbn.
  destruct gtfsConfig as [c |]; cbn;
    [destruct (truthy (GtfsConfig.realtimeTimeout c) || truthy (GtfsConfig.timeout c)
               || truthy (GtfsConfig.downloadTimeout c)) |];
    destruct (strIs (GTFS_DISABLE_ROBUST_WRAPPER environment) "true"); reflexivity.
Qed.

Lemma detectNativeCapabilities_flags environment gtfsConfig w w' :
  nativeTimeoutSupported w' = nativeTimeoutSupported w ->
  wrapperEnabled w' = wrapperEnabled w ->
  nativeTimeoutSupported (detectNativeCapabilities environment gtfsConfig w')
    = nativeTimeoutSupported (detectNativeCapabilities environment gtfsConfig w) /\
  wrapperEnabled (detectNativeCapabilities environment gtfsConfig w')
    = wrapperEnabled (detectNativeCapabilities environment gtfsConfig w).
Proof.
  intros Hn He. unfold detectNativeCapabilities. cbn. rewrite Hn, He. split; reflexivity.
Qed.

(** X8. The modes are entered one way only and the construction-time
    settings are never written: whatever its outcome, a call of
    [updateGtfsRealtime] keeps [config] and the thresholds, timeouts and
    names of both breakers, never re-enables a disabled wrapper, never
    withdraws [nativeTimeoutSupported], and never sets
    [lastSuccessfulUpdate] back to [null]. *)
Theorem X8_modes_are_one_way
    (fuel : nat) (environment : Environment) (gtfs : AsyncFn)
    (gtfsConfig : option GtfsConfig.t) (w : RobustGtfsWrapper) (σ : World)
    (r : Completion UpdateResult) (w' : RobustGtfsWrapper) (σ' : World) :
  updateGtfsRealtime fuel environment gtfs gtfsConfig w σ = Some (r, w', σ') ->
  config w' = config w /\
  sameConfig (main (circuitBreakers w)) (main (circuitBreakers w')) /\
  sameConfig (network (circuitBreakers w)) (network (circuitBreakers w')) /\
  (wrapperEnabled w = false -> wrapperEnabled w' = false) /\
  (nativeTimeoutSupported w = true -> nativeTimeoutSupported w' = true) /\
  (lastSuccessfulUpdate w <> None -> lastSuccessfulUpdate w' <> None).
Proof.
  intros Hrun. apply updateGtfsRealtime_setup in Hrun as ((Hc & Hn & He & Hm & Hnet) & Hl).
  assert (Hd : config (afterDetection environment gtfsConfig w) = config w /\
               circuitBreakers (afterDetection environment gtfsConfig w) = circuitBreakers w /\
               (wrapperEnabled w = false ->
                wrapperEnabled (afterDetection environment gtfsConfig w) = false) /\
               (nativeTimeoutSupported w = true ->
                nativeTimeoutSupported (afterDetection environment gtfsConfig w) = true)).
  { unfold afterDetection. destruct (lastSuccessfulUpdate w); [tauto |].
    unfold detectNativeCapabilities. cbn. repeat split.
    - intros ->. destruct (strIs _ _); reflexivity.
    - intros ->. destruct gtfsConfig as [c |]; [| reflexivity].
      destruct (truthy _ || truthy _ || truthy _); reflexivity. }
  destruct Hd as (Hc0 & Hcbs0 & He0 & Hn0). rewrite Hcbs0 in Hm, Hnet.
  repeat split; try congruence;
    try (destruct Hm as (?&?&?&?); assumption);
    try (destruct Hnet as (?&?&?&?); assumption).
  - intros H. rewrite He. auto.
  - intros H. rewrite Hn. auto.
Qed.

(** X9. With the same environment and the same node-gtfs configuration
    the detection, although it may run again, decides the same: after two
    calls in a row the mode flags are those left by the first call. *)
Theorem X9_detection_is_stable_for_unchanged_inputs
    (fuel : nat) (environment : Environment) (gtfs : AsyncFn)
    (gtfsConfig : option GtfsConfig.t) (w : RobustGtfsWrapper) (σ : World)
    (r1 r2 : Completion UpdateResult) (w1 w2 : RobustGtfsWrapper) (σ1 σ2 : World) :
  updateGtfsRealtime fuel environment gtfs gtfsConfig w σ = Some (r1, w1, σ1) ->
  updateGtfsRealtime fuel environment gtfs gtfsConfig w1 σ1 = Some (r2, w2, σ2) ->
  nativeTimeoutSupported w2 = nativeTimeoutSupported w1 /\
  wrapperEnabled w2 = wrapperEnabled w1.
Proof.
  intros Hrun1 Hrun2.
  pose proof (updateGtfsRealtime_setup _ _ _ _ _ _ _ _ _ Hrun1) as ((_ & Hn1 & He1 & _) & Hl1).
  pose proof (updateGtfsRealtime_setup _ _ _ _ _ _ _ _ _ Hrun2) as ((_ & Hn2 & He2 & _) & _).
  rewrite Hn2, He2. unfold afterDetection.
  destruct (lastSuccessfulUpdate w1) eqn:Hlsu1; [split; reflexivity |].
  assert (Hlsu : lastSuccessfulUpdate w = None).
  { destruct (lastSuccessfulUpdate w) eqn:Hl; [| reflexivity].
    exfalso. apply Hl1; [discriminate | reflexivity]. }
  unfold afterDetection in Hn1, He1. rewrite Hlsu in Hn1, He1.
  destruct (detectNativeCapabilities_flags environment gtfsConfig
              (detectNativeCapabilities environment gtfsConfig w) w1 Hn1 He1) as (Ha & Hb).
  rewrite detectNativeCapabilities_idempotent in Ha, Hb.
  rewrite Ha, Hb, Hn1, He1. split; reflexivity.
Qed.

Lemma passthrough_call fuel environment gtfs gtfsConfig w σ r w' σ' :
  strIs (GTFS_DISABLE_ROBUST_WRAPPER environment) "true" = true ->
  lastSuccessfulUpdate w = None ->
  updateGtfsRealtime fuel environment gtfs gtfsConfig w σ = Some (r, w', σ') ->
  passesThrough (gtfs (calls σ)) r /\ calls σ' = S (calls σ) /\
  healthInputs w' = healthInputs w /\
  Stats.totalRequests (stats (main (circuitBreakers w')))
    = Stats.totalRequests (stats (main (circuitBreakers w))) /\
  Stats.totalRequests (stats (network (circuitBreakers w')))
    = Stats.totalRequests (stats (network (circuitBreakers w))) /\
  wrapperEnabled w' = false.
Proof.
  intros Hkill Hlsu. unfold updateGtfsRealtime. rewrite Hlsu.
  unfold detectNativeCapabilities at 1. rewrite Hkill. cbn [wrapperEnabled withFlags negb].
  unfold awaitDirect.
  destruct (gtfs (calls σ)) as [d v | d e |]; [| | discriminate];
    intros [= <- <- <-]; cbn; rewrite ?Hkill; repeat split.
Qed.

(** X10. With [GTFS_DISABLE_ROBUST_WRAPPER=true] the wrapper is
    transparent and blind: on a new wrapper every call invokes the operation
    exactly once and hands its result or its error on unchanged, no counter
    moves, and the health status stays HEALTHY at any time, whatever the
    outcomes were. *)
Theorem X10_disabled_wrapper_is_transparent_and_blind
    (fuel : nat) (environment : Environment) (gtfs : AsyncFn)
    (gtfsConfigs : list (option GtfsConfig.t)) (σ : World)
    (rs : list (Completion UpdateResult)) (w : RobustGtfsWrapper) (σ' : World) :
  strIs (GTFS_DISABLE_ROBUST_WRAPPER environment) "true" = true ->
  updateMany fuel environment gtfs gtfsConfigs (newRobustGtfsWrapper environment) σ
    = Some (rs, w, σ') ->
  calls σ' = (calls σ + length gtfsConfigs)%nat /\
  (forall i r, rs !! i = Some r -> passesThrough (gtfs (calls σ + i)%nat) r) /\
  consecutiveFailures w = 0 /\ lastSuccessfulUpdate w = None /\
  Stats.totalRequests (stats (main (circuitBreakers w))) = 0 /\
  Stats.totalRequests (stats (network (circuitBreakers w))) = 0 /\
  forall t, status (getHealthStatus t w) = HEALTHY.
Proof.
  intros Hkill.
  assert (Hgen : forall cfgs w0 σ0 rs w σ',
    lastSuccessfulUpdate w0 = None ->
    updateMany fuel environment gtfs cfgs w0 σ0 = Some (rs, w, σ') ->
    calls σ' = (calls σ0 + length cfgs)%nat /\
    (forall i r, rs !! i = Some r -> passesThrough (gtfs (calls σ0 + i)%nat) r) /\
    healthInputs w = healthInputs w0 /\
    Stats.totalRequests (stats (main (circuitBreakers w)))
      = Stats.totalRequests (stats (main (circuitBreakers w0))) /\
    Stats.totalRequests (stats (network (circuitBreakers w)))
      = Stats.totalRequests (stats (network (circuitBreakers w0)))).
  { clear rs w σ'. induction cfgs as [| cfg cfgs IH]; intros w0 σ0 rs w σ' Hlsu Hrun.
    - injection Hrun as <- <- <-. cbn. repeat split; try lia.
      intros i r Hi. rewrite lookup_nil in Hi. discriminate.
    - cbn [updateMany] in Hrun.
      destruct (updateGtfsRealtime fuel environment gtfs cfg w0 σ0)
        as [[[r1 w1] σ1] |] eqn:Hcall; [| discriminate].
      destruct (updateMany fuel environment gtfs cfgs w1 σ1)
        as [[[rs2 w2] σ2] |] eqn:Hrest; [| discriminate].
      injection Hrun as <- <- <-.
      destruct (passthrough_call _ _ _ _ _ _ _ _ _ Hkill Hlsu Hcall)
        as (Hpass & Hcalls & Hhealth & Hm & Hn & _).
      assert (Hlsu1 : lastSuccessfulUpdate w1 = None).
      { unfold healthInputs in Hhealth. congruence. }
      destruct (IH w1 σ1 rs2 w2 σ2 Hlsu1 Hrest) as (Hc2 & Hp2 & Hh2 & Hm2 & Hn2).
      cbn [length]. repeat split; try congruence; try lia.
      intros [| i] r Hi; cbn in Hi.
      + injection Hi as <-. rewrite Nat.add_0_r. exact Hpass.
      + replace (calls σ0 + S i)%nat with (calls σ1 + i)%nat by lia. apply Hp2, Hi. }
  intros Hrun.
  destruct (Hgen gtfsConfigs (newRobustGtfsWrapper environment) σ rs w σ' eq_refl Hrun)
    as (Hc & Hp & Hh & Hm & Hn).
  unfold healthInputs in Hh. cbn in Hh, Hm, Hn.
  assert (Hcf : consecutiveFailures w = 0) by congruence.
  assert (Hl : lastSuccessfulUpdate w = None) by congruence.
  assert (Hsm : state (main (circuitBreakers w)) = CLOSED) by congruence.
  assert (Hsn : state (network (circuitBreakers w)) = CLOSED) by congruence.
  repeat split; try assumption.
  intros t. unfold getHealthStatus, breakerValues. cbn [status existsb].
  rewrite Hsm, Hsn, Hcf, Hl. reflexivity.
Qed.

(** X11. The pause before a retry is between 2 s and 30 s, never shrinks
    from one attempt to the next, and is 30 s from the fifth attempt on. *)
Theorem X11_retry_delay_bounds (attemptNumber : Z) :
  1 <= attemptNumber ->
  2000 <= getRetryDelay attemptNumber <= 30000 /\
  getRetryDelay attemptNumber <= getRetryDelay (attemptNumber + 1) /\
  (attemptNumber <= 4 -> getRetryDelay attemptNumber = 2 ^ attemptNumber * 1000) /\
  (5 <= attemptNumber -> getRetryDelay attemptNumber = 30000).
Proof.
  intros Hn. unfold getRetryDelay.
  assert (H2 : 2 ^ 1 <= 2 ^ attemptNumber) by (apply Z.pow_le_mono_r; lia).
  assert (Hs : 2 ^ attemptNumber <= 2 ^ (attemptNumber + 1))
    by (apply Z.pow_le_mono_r; lia).
  change (2 ^ 1) with 2 in H2.
  repeat split; try lia.
  - intros H4. assert (2 ^ attemptNumber <= 2 ^ 4) by (apply Z.pow_le_mono_r; lia).
    change (2 ^ 4) with 16 in *. lia.
  - intros H5. assert (2 ^ 5 <= 2 ^ attemptNumber) by (apply Z.pow_le_mono_r; lia).
    change (2 ^ 5) with 32 in *. lia.
Qed.

(** ** The health report and the health routes *)

(** A breaker reports CRITICAL exactly when its circuit is OPEN. *)
Lemma breaker_critical_iff_open (cb : CircuitBreaker) :
  Breaker.getHealthStatus cb = CRITICAL <-> state cb = OPEN.
Proof.
  unfold Breaker.getHealthStatus.
  destruct (state cb); cbn [State_eqb];
    repeat match goal with
           | |- context [if ?c then _ else _] => destruct c
           end; split; intros H; try discriminate; reflexivity.
Qed.

(** The status computed by the wrapper, by cases. *)
Lemma getHealthStatus_cases (t : Z) (w : RobustGtfsWrapper) :
  lastSuccessfulUpdate w <> Some 0 ->
  (stale t w /\ status (getHealthStatus t w) = DEGRADED) \/
  (~ stale t w /\ (anyOpen w \/ 5 <= consecutiveFailures w) /\
   status (getHealthStatus t w) = CRITICAL) \/
  (~ stale t w /\ ~ anyOpen w /\ 1 <= consecutiveFailures w < 5 /\
   status (getHealthStatus t w) = WARNING) \/
  (~ stale t w /\ ~ anyOpen w /\ consecutiveFailures w < 1 /\
   status (getHealthStatus t w) = HEALTHY).
Proof.
  intros Hclock.
  assert (Hstale : stale t w <->
            truthy (lastSuccessfulUpdate w)
            && (300000 <? t - toNumber (lastSuccessfulUpdate w)) = true).
  { unfold stale. rewrite (truthy_Some _ Hclock).
    destruct (lastSuccessfulUpdate w) as [u |]; cbn.
    - rewrite Z.ltb_lt. split; [intros (u' & [= <-] & H); exact H | eauto].
    - split; [intros (u' & [=] & _) | discriminate]. }
  pose proof (hasOpenCircuit_iff w) as Hopen. fold (anyOpen w) in Hopen.
  unfold getHealthStatus. cbn [status].
  destruct (truthy (lastSuccessfulUpdate w)
            && (300000 <? t - toNumber (lastSuccessfulUpdate w))) eqn:Hs.
  - left. split; [apply Hstale; reflexivity | reflexivity].
  - right. assert (Hns : ~ stale t w) by (rewrite Hstale; discriminate).
    destruct (existsb _ (breakerValues w)) eqn:Hex.
    + left. split; [exact Hns |]. split; [left; apply Hopen; reflexivity | reflexivity].
    + assert (Hno : ~ anyOpen w) by (rewrite <- Hopen; discriminate).
      destruct (Z.leb_spec 5 (consecutiveFailures w)).
      * left. split; [exact Hns |]. split; [right; assumption | reflexivity].
      * right. destruct (Z.leb_spec 1 (consecutiveFailures w)).
        -- left. repeat split; try assumption.
        -- right. repeat split; assumption.
Qed.

(** X12. [GET /health/gtfs] answers 200 or 503, and 503 exactly when a
    breaker is OPEN, or five updates in a row have failed, or the last
    success is more than five minutes old; in particular a breaker that
    reports CRITICAL itself always makes the route answer 503. (The clock
    did not read 0 at the last success.) *)
Theorem X12_gtfs_route_status_code (t : Z) (w : RobustGtfsWrapper) :
  lastSuccessfulUpdate w <> Some 0 ->
  (fst (HealthRoutes.gtfs t w) = 503 <->
   anyOpen w \/ 5 <= consecutiveFailures w \/ stale t w) /\
  (fst (HealthRoutes.gtfs t w) = 200 <->
   ~ anyOpen w /\ consecutiveFailures w < 5 /\ ~ stale t w) /\
  ((exists cb, In cb (breakerValues w) /\ Breaker.getHealthStatus cb = CRITICAL) ->
   fst (HealthRoutes.gtfs t w) = 503).
Proof.
  intros Hclock. unfold HealthRoutes.gtfs. cbn [fst].
  assert (Hcrit : (exists cb, In cb (breakerValues w) /\ Breaker.getHealthStatus cb = CRITICAL)
                  -> anyOpen w).
  { intros (cb & Hin & Hc). exists cb. split; [exact Hin |].
    apply breaker_critical_iff_open, Hc. }
  destruct (getHealthStatus_cases t w Hclock)
    as [(Hs & ->) | [(Hs & Hc & ->) | [(Hs & Ho & Hcf & ->) | (Hs & Ho & Hcf & ->)]]].
  - split; [split; [tauto | reflexivity] |]. split; [split; [discriminate | tauto] |].
    reflexivity.
  - split; [split; [tauto | reflexivity] |]. split; [split; [discriminate |] |].
    + intros (Hno & Hlt & _). destruct Hc; [tauto | lia].
    + reflexivity.
  - split; [split; [discriminate |] |].
    + intros [H | [H | H]]; [tauto | lia | tauto].
    + split; [split; [intros _; repeat split; [assumption | lia | assumption] | reflexivity] |].
      intros H. tauto.
  - split; [split; [discriminate |] |].
    + intros [H | [H | H]]; [tauto | lia | tauto].
    + split; [split; [intros _; repeat split; [assumption | lia | assumption] | reflexivity] |].
      intros H. tauto.
Qed.

(** X13. The basic health check [GET /health] answers 503 exactly when the
    status is CRITICAL, that is when a breaker is OPEN or five updates in a
    row have failed and the last success is not more than five minutes old.
    Once the last success is older than that it answers 200 with status OK,
    an OPEN breaker notwithstanding, while [GET /health/gtfs] answers 503;
    and whenever [GET /health] answers 503, so does [GET /health/gtfs]. *)
Theorem X13_root_route_overlooks_staleness (proc : Process) (t : Z) (w : RobustGtfsWrapper) :
  lastSuccessfulUpdate w <> Some 0 ->
  (fst (HealthRoutes.root proc t w) = 503 <->
   (anyOpen w \/ 5 <= consecutiveFailures w) /\ ~ stale t w) /\
  (stale t w ->
   fst (HealthRoutes.root proc t w) = 200 /\
   HealthRoutes.root_status (snd (HealthRoutes.root proc t w)) = OK /\
   HealthRoutes.gtfs_status (snd (HealthRoutes.root proc t w)) = DEGRADED /\
   fst (HealthRoutes.gtfs t w) = 503) /\
  (fst (HealthRoutes.root proc t w) = 503 -> fst (HealthRoutes.gtfs t w) = 503).
Proof.
  intros Hclock. unfold HealthRoutes.root, HealthRoutes.gtfs.
  destruct (getHealthStatus_cases t w Hclock)
    as [(Hs & Hst) | [(Hs & Hc & Hst) | [(Hs & Ho & Hcf & Hst) | (Hs & Ho & Hcf & Hst)]]];
    rewrite Hst; cbn.
  - split; [split; [discriminate | tauto] |]. split; [intros _; repeat split | discriminate].
  - split; [split; [tauto | reflexivity] |]. split; [tauto | reflexivity].
  - split; [split; [discriminate |] |].
    + intros ([H | H] & _); [tauto | lia].
    + split; [tauto | discriminate].
  - split; [split; [discriminate |] |].
    + intros ([H | H] & _); [tauto | lia].
    + split; [tauto | discriminate].
Qed.

(** X14. In lightweight mode the metrics route reports a success rate of 0
    for the main breaker whatever the outcomes: on a new wrapper with a
    configuration that exposes a timeout, after any number of calls
    [metrics.circuitBreakers.main.successRate] is [+0], and the health
    status of the main breaker itself is HEALTHY or CRITICAL, never WARNING
    or DEGRADED. *)
Theorem X14_lightweight_success_rate_is_zero
    (fuel : nat) (environment : Environment) (gtfs : AsyncFn)
    (gtfsConfig : GtfsConfig.t) (n : nat) (σ : World) (t : Z) :
  strIs (GTFS_DISABLE_ROBUST_WRAPPER environment) "true" = false ->
  truthy (GtfsConfig.realtimeTimeout gtfsConfig) || truthy (GtfsConfig.timeout gtfsConfig)
    || truthy (GtfsConfig.downloadTimeout gtfsConfig) = true ->
  (forall k, gtfs k <> Hangs) ->
  exists rs w σ',
    updateMany fuel environment gtfs (replicate n (Some gtfsConfig))
      (newRobustGtfsWrapper environment) σ = Some (rs, w, σ') /\
    HealthRoutes.successRate (HealthRoutes.metrics_main (snd (HealthRoutes.gtfsMetrics t w)))
      = S754_zero false /\
    (Breaker.getHealthStatus (main (circuitBreakers w)) = HEALTHY \/
     Breaker.getHealthStatus (main (circuitBreakers w)) = CRITICAL).
Proof.
  intros Henv Hcfg Hsettles.
  destruct (lightweight_updates fuel environment gtfs gtfsConfig Henv Hcfg Hsettles
              n (newRobustGtfsWrapper environment) σ)
    as (rs & w & σ' & Hrun & _ & Htot & _);
    try reflexivity.
  { right. reflexivity. }
  exists rs, w, σ'. split; [exact Hrun |]. split.
  - unfold HealthRoutes.gtfsMetrics, HealthRoutes.breakerMetrics, getHealthStats, Breaker.getStats.
    cbn [snd HealthRoutes.metrics_main HealthRoutes.successRate stats_main Breaker.counters].
    rewrite Htot. reflexivity.
  - unfold Breaker.getHealthStatus. rewrite Htot. cbn.
    destruct (state (main (circuitBreakers w))); cbn; auto.
Qed.

(** ** The health routes without the wrapper *)

(** X15. The three simplified routes never contradict each other: for
    every tracking state and time [GET /health] and [GET /health/gtfs]
    answer with the same status code, 503 exactly when the GTFS status is
    CRITICAL or DEGRADED; the GTFS status shown by [GET /health] is the one
    of [GET /health/gtfs], except that WARNING is shown as HEALTHY; and
    [hasRecentError] of the metrics is true exactly when the status is
    CRITICAL. *)
Theorem X15_simple_routes_agree (proc : Process) (t : Z) (s : SimpleHealth.Tracking) :
  fst (SimpleHealth.root proc t s) = fst (SimpleHealth.gtfs t s) /\
  (fst (SimpleHealth.gtfs t s) = 503 <->
   SimpleHealth.status (snd (SimpleHealth.gtfs t s)) = CRITICAL \/
   SimpleHealth.status (snd (SimpleHealth.gtfs t s)) = DEGRADED) /\
  (fst (SimpleHealth.gtfs t s) = 200 \/ fst (SimpleHealth.gtfs t s) = 503) /\
  SimpleHealth.gtfs_status (snd (SimpleHealth.root proc t s)) =
    match SimpleHealth.status (snd (SimpleHealth.gtfs t s)) with
    | WARNING => HEALTHY
    | st => st
    end /\
  (SimpleHealth.hasRecentError (snd (SimpleHealth.gtfsMetrics t s)) = Some true <->
   SimpleHealth.status (snd (SimpleHealth.gtfs t s)) = CRITICAL).
Proof.
  unfold SimpleHealth.root, SimpleHealth.gtfs, SimpleHealth.gtfsMetrics.
  cbn [snd SimpleHealth.hasRecentError].
  destruct (SimpleHealth.recentError t s) as [[|] |]; cbn [SimpleHealth.isTrue];
    destruct (truthy (SimpleHealth.timeSince t (SimpleHealth.lastGtfsUpdate s))
              && (300000 <? toNumber (SimpleHealth.timeSince t (SimpleHealth.lastGtfsUpdate s))));
    destruct (truthy (SimpleHealth.timeSince t (SimpleHealth.lastGtfsUpdate s))
              && (120000 <? toNumber (SimpleHealth.timeSince t (SimpleHealth.lastGtfsUpdate s))));
    cbn; repeat split; intros; try discriminate; try tauto; auto;
    try (destruct H; discriminate).
Qed.

Lemma timeSince_Some (t u : Z) :
  u <> 0 -> SimpleHealth.timeSince t (Some u) = Some (t - u).
Proof.
  intros Hu. unfold SimpleHealth.timeSince. cbn.
  destruct (Z.eqb_spec u 0); [contradiction | reflexivity].
Qed.

(** X16. A successful update erases the past: whatever was tracked before,
    after [updateGtfsHealth(true)] at time [t0] the recorded error is
    [null] and [GET /health/gtfs] reports HEALTHY (200) up to two minutes
    after [t0], WARNING (200) up to five minutes after, and DEGRADED (503)
    from then on. (The clock does not read 0 at [t0].) *)
Theorem X16_successful_update_resets_the_status
    (t0 t : Z) (error : option JsError) (s : SimpleHealth.Tracking) :
  t0 <> 0 ->
  let s' := SimpleHealth.updateGtfsHealth t0 true error s in
  SimpleHealth.lastError (snd (SimpleHealth.gtfs t s')) = None /\
  SimpleHealth.totalUpdates (snd (SimpleHealth.gtfs t s')) = SimpleHealth.gtfsUpdateCount s + 1 /\
  (t - t0 <= 120000 -> fst (SimpleHealth.gtfs t s') = 200 /\
     SimpleHealth.status (snd (SimpleHealth.gtfs t s')) = HEALTHY) /\
  (120000 < t - t0 <= 300000 -> fst (SimpleHealth.gtfs t s') = 200 /\
     SimpleHealth.status (snd (SimpleHealth.gtfs t s')) = WARNING) /\
  (300000 < t - t0 -> fst (SimpleHealth.gtfs t s') = 503 /\
     SimpleHealth.status (snd (SimpleHealth.gtfs t s')) = DEGRADED).
Proof.
  intros Ht0 s'. subst s'. unfold SimpleHealth.gtfs, SimpleHealth.updateGtfsHealth.
  cbn [SimpleHealth.lastGtfsUpdate SimpleHealth.lastGtfsError SimpleHealth.gtfsUpdateCount
       SimpleHealth.recentError SimpleHealth.isTrue].
  rewrite (timeSince_Some t t0 Ht0). cbn [toNumber truthy].
  destruct (Z.eqb_spec (t - t0) 0) as [H0 | H0]; cbn [negb andb].
  - cbn. repeat split; intros; lia.
  - destruct (Z.ltb_spec 300000 (t - t0)); destruct (Z.ltb_spec 120000 (t - t0));
      cbn; repeat split; intros; try lia; reflexivity.
Qed.

(** X17. A failed update makes [GET /health/gtfs] CRITICAL (503) for five
    minutes, whatever was tracked before, a recent success included. After
    these five minutes the error no longer counts: the status is the one
    that the age of the last success alone gives, and a service that has
    never been updated is reported HEALTHY (200). *)
Theorem X17_failed_update_is_critical_for_five_minutes
    (t0 t : Z) (error : option JsError) (s : SimpleHealth.Tracking) :
  let s' := SimpleHealth.updateGtfsHealth t0 false error s in
  (t - t0 < 300000 ->
   fst (SimpleHealth.gtfs t s') = 503 /\
   SimpleHealth.status (snd (SimpleHealth.gtfs t s')) = CRITICAL) /\
  (300000 <= t - t0 -> SimpleHealth.lastGtfsUpdate s = None ->
   fst (SimpleHealth.gtfs t s') = 200 /\
   SimpleHealth.status (snd (SimpleHealth.gtfs t s')) = HEALTHY) /\
  (300000 <= t - t0 ->
   forall u, SimpleHealth.lastGtfsUpdate s = Some u -> u <> 0 ->
     (t - u <= 120000 -> SimpleHealth.status (snd (SimpleHealth.gtfs t s')) = HEALTHY) /\
     (120000 < t - u <= 300000 ->
      SimpleHealth.status (snd (SimpleHealth.gtfs t s')) = WARNING) /\
     (300000 < t - u -> SimpleHealth.status (snd (SimpleHealth.gtfs t s')) = DEGRADED)).
Proof.
  intros s'. subst s'. unfold SimpleHealth.gtfs, SimpleHealth.updateGtfsHealth.
  cbn [SimpleHealth.lastGtfsUpdate SimpleHealth.lastGtfsError SimpleHealth.gtfsUpdateCount
       SimpleHealth.recentError SimpleHealth.isTrue SimpleHealth.timestamp].
  destruct (Z.ltb_spec (t - t0) 300000) as [Hrecent | Hold].
  - split; [intros _; split; reflexivity |]. split; intros; lia.
  - split; [intros; lia |]. split.
    + intros _ ->. cbn. split; reflexivity.
    + intros _ u -> Hu. rewrite (timeSince_Some t u Hu). cbn [toNumber truthy].
      destruct (Z.eqb_spec (t - u) 0) as [H0 | H0]; cbn [negb andb].
      * cbn. repeat split; intros; lia.
      * destruct (Z.ltb_spec 300000 (t - u)); destruct (Z.ltb_spec 120000 (t - u));
          cbn; repeat split; intros; try lia; reflexivity.
Qed.



(** ** The check of the upstream services *)

Lemma attemptOnce_succeeded limit b :
  fst (StatusCheck.attemptOnce limit b) = StatusCheck.Succeeded <->
  StatusCheck.answersOk limit b.
Proof.
  unfold StatusCheck.attemptOnce, StatusCheck.answersOk.
  destruct b as [d [|] | d e |]; try destruct (Z.ltb_spec d limit); cbn;
    split; intros Hx; try discriminate; try lia; try contradiction; reflexivity.
Qed.

Lemma attemptOnce_elapsed limit b : snd (StatusCheck.attemptOnce limit b) <= limit.
Proof.
  unfold StatusCheck.attemptOnce.
  destruct b as [d ok | d e |]; try destruct (Z.ltb_spec d limit); cbn; lia.
Qed.

Lemma checkUrlFrom_attempts (remaining : nat) : forall attempt timeout maxRetries fetch σ,
  let run := StatusCheck.checkUrlFrom remaining attempt timeout maxRetries fetch σ in
  (fst run = true /\
   exists k, (k < remaining)%nat /\
     StatusCheck.answersOk (timerDelay timeout) (fetch (calls σ + k)%nat) /\
     (forall j, (j < k)%nat ->
        ~ StatusCheck.answersOk (timerDelay timeout) (fetch (calls σ + j)%nat)) /\
     calls (snd run) = (calls σ + k + 1)%nat)
  \/
  (fst run = false /\
   (forall j, (j < remaining)%nat ->
      ~ StatusCheck.answersOk (timerDelay timeout) (fetch (calls σ + j)%nat)) /\
   calls (snd run) = (calls σ + remaining)%nat).
Proof.
  induction remaining as [| remaining IH]; intros attempt timeout maxRetries fetch σ run.
  - right. subst run. cbn. repeat split; [intros; lia | lia].
  - subst run. cbn [StatusCheck.checkUrlFrom].
    set (limit := timerDelay timeout) in *.
    pose proof (attemptOnce_succeeded limit (fetch (calls σ))) as Hok.
    destruct (StatusCheck.attemptOnce limit (fetch (calls σ))) as [outcome elapsed].
    cbn [fst] in Hok.
    assert (Hnext : forall σ1, calls σ1 = S (calls σ) ->
      let run := StatusCheck.checkUrlFrom remaining (attempt + 1) timeout maxRetries fetch σ1 in
      ~ StatusCheck.answersOk limit (fetch (calls σ)) ->
      (fst run = true /\
       exists k, (k < S remaining)%nat /\
         StatusCheck.answersOk limit (fetch (calls σ + k)%nat) /\
         (forall j, (j < k)%nat -> ~ StatusCheck.answersOk limit (fetch (calls σ + j)%nat)) /\
         calls (snd run) = (calls σ + k + 1)%nat)
      \/
      (fst run = false /\
       (forall j, (j < S remaining)%nat ->
          ~ StatusCheck.answersOk limit (fetch (calls σ + j)%nat)) /\
       calls (snd run) = (calls σ + S remaining)%nat)).
    { intros σ1 Hc run Hbad. subst run.
      destruct (IH (attempt + 1) timeout maxRetries fetch σ1)
        as [(Hr & k & Hk & Hans & Hfirst & Hcalls) | (Hr & Hnone & Hcalls)];
        fold limit in Hans, Hfirst || fold limit in Hnone; rewrite Hc in *.
      - left. split; [exact Hr |]. exists (S k). split; [lia |].
        replace (calls σ + S k)%nat with (S (calls σ) + k)%nat by lia.
        split; [exact Hans |]. split; [| lia].
        intros [| j] Hj; [rewrite Nat.add_0_r; exact Hbad |].
        replace (calls σ + S j)%nat with (S (calls σ) + j)%nat by lia.
        apply Hfirst. lia.
      - right. split; [exact Hr |]. split; [| lia].
        intros [| j] Hj; [rewrite Nat.add_0_r; exact Hbad |].
        replace (calls σ + S j)%nat with (S (calls σ) + j)%nat by lia.
        apply Hnone. lia. }
    destruct outcome.
    + left. cbn. split; [reflexivity |]. exists 0%nat. split; [lia |].
      rewrite Nat.add_0_r. split; [apply Hok; reflexivity |]. split; [intros; lia | lia].
    + apply Hnext; [reflexivity |]. rewrite <- Hok. discriminate.
    + apply Hnext; [destruct (attempt <? maxRetries); reflexivity |].
      rewrite <- Hok. discriminate.
Qed.

(** X19. [checkUrl] makes at most [maxRetries + 1] requests and stops at
    the first one that is answered with an [ok] response before the abort
    timer: it returns [true] exactly when one of the first
    [maxRetries + 1] requests is answered so, having made no request after
    that one, and [false] after [maxRetries + 1] requests otherwise. *)
Theorem X19_checkUrl_stops_at_the_first_ok
    (fetch : StatusCheck.Fetch) (timeout maxRetries : option Z) (σ : World) :
  0 <= default 2 maxRetries ->
  let limit := timerDelay (default 5000 timeout) in
  let attempts := Z.to_nat (default 2 maxRetries + 1) in
  let run := StatusCheck.checkUrl fetch timeout maxRetries σ in
  (calls (snd run) <= calls σ + attempts)%nat /\
  (fst run = true <->
   exists k, (k < attempts)%nat /\ StatusCheck.answersOk limit (fetch (calls σ + k)%nat)) /\
  (fst run = true ->
   exists k, (k < attempts)%nat /\
     StatusCheck.answersOk limit (fetch (calls σ + k)%nat) /\
     (forall j, (j < k)%nat -> ~ StatusCheck.answersOk limit (fetch (calls σ + j)%nat)) /\
     calls (snd run) = (calls σ + k + 1)%nat) /\
  (fst run = false -> calls (snd run) = (calls σ + attempts)%nat).
Proof.
  intros Hretries limit attempts run. subst run. unfold StatusCheck.checkUrl.
  fold attempts.
  destruct (checkUrlFrom_attempts attempts 0 (default 5000 timeout) (default 2 maxRetries)
              fetch σ)
    as [(Hr & k & Hk & Hans & Hfirst & Hcalls) | (Hr & Hnone & Hcalls)].
  - split; [lia |]. split; [split; [intros _; eauto | intros _; exact Hr] |].
    split; [intros _; eauto 6 |]. rewrite Hr. discriminate.
  - split; [lia |]. split.
    + split; [rewrite Hr; discriminate |]. intros (k & Hk & Hans). exfalso.
      exact (Hnone k Hk Hans).
    + split; [rewrite Hr; discriminate | intros _; exact Hcalls].
Qed.

Lemma backoff_le (attempt : Z) :
  0 <= attempt -> timerDelay (2 ^ attempt * 500) <= 2 ^ attempt * 500.
Proof.
  intros Ha. assert (0 < 2 ^ attempt) by (apply Z.pow_pos_nonneg; lia).
  unfold timerDelay. destruct ((1 <=? 2 ^ attempt * 500) && (2 ^ attempt * 500 <=? 2147483647)); lia.
Qed.

Lemma checkUrlFrom_elapsed (remaining : nat) : forall attempt timeout maxRetries fetch σ,
  0 <= attempt ->
  attempt + Z.of_nat remaining = maxRetries + 1 ->
  now (snd (StatusCheck.checkUrlFrom remaining attempt timeout maxRetries fetch σ)) - now σ
  <= Z.of_nat remaining * timerDelay timeout
     + 500 * (2 ^ maxRetries - 2 ^ Z.min attempt maxRetries).
Proof.
  induction remaining as [| remaining IH]; intros attempt timeout maxRetries fetch σ Ha Hsum.
  - cbn [StatusCheck.checkUrlFrom snd]. rewrite Z.min_r by lia. lia.
  - cbn [StatusCheck.checkUrlFrom].
    pose proof (attemptOnce_elapsed (timerDelay timeout) (fetch (calls σ))) as Hel.
    destruct (StatusCheck.attemptOnce (timerDelay timeout) (fetch (calls σ)))
      as [outcome elapsed]. cbn [snd] in Hel.
    pose proof (timerDelay_pos timeout) as Hlim.
    assert (Hstep : forall σ1,
      now σ1 - now σ <= timerDelay timeout
        + (if attempt <? maxRetries then 2 ^ attempt * 500 else 0) ->
      now (snd (StatusCheck.checkUrlFrom remaining (attempt + 1) timeout maxRetries fetch σ1))
        - now σ
      <= Z.of_nat (S remaining) * timerDelay timeout
         + 500 * (2 ^ maxRetries - 2 ^ Z.min attempt maxRetries)).
    { intros σ1 Hσ1.
      pose proof (IH (attempt + 1) timeout maxRetries fetch σ1) as Hrest.
      destruct (Z.ltb_spec attempt maxRetries) as [Hlt | Hge].
      - rewrite (Z.min_l (attempt + 1)) in Hrest by lia. rewrite Z.min_l by lia.
        replace (2 ^ (attempt + 1)) with (2 * 2 ^ attempt) in Hrest
          by (rewrite <- Z.pow_succ_r by lia; reflexivity).
        lia.
      - rewrite (Z.min_r (attempt + 1)) in Hrest by lia. rewrite Z.min_r by lia. lia. }
    assert (Hpos : 0 < 2 ^ attempt) by (apply Z.pow_pos_nonneg; lia).
    assert (Hmono : 2 ^ Z.min attempt maxRetries <= 2 ^ maxRetries)
      by (apply Z.pow_le_mono_r; lia).
    destruct outcome.
    + cbn [snd now atTime invoked]. nia.
    + apply Hstep. cbn [now atTime invoked]. destruct (attempt <? maxRetries); lia.
    + apply Hstep. pose proof (backoff_le attempt Ha).
      destruct (attempt <? maxRetries); cbn [now atTime invoked]; lia.
Qed.

(** X20. [checkUrl] always comes back in bounded time: it takes at most
    [(maxRetries + 1)] timeouts plus the pauses [500 * (2^maxRetries - 1)]
    ms, whatever the server does; with the default arguments that is at
    most 16.5 s. *)
Theorem X20_checkUrl_returns_in_bounded_time
    (fetch : StatusCheck.Fetch) (timeout maxRetries : option Z) (σ : World) :
  0 <= default 2 maxRetries ->
  now (snd (StatusCheck.checkUrl fetch timeout maxRetries σ)) - now σ
  <= (default 2 maxRetries + 1) * timerDelay (default 5000 timeout)
     + 500 * (2 ^ default 2 maxRetries - 1) /\
  (timeout = None -> maxRetries = None ->
   now (snd (StatusCheck.checkUrl fetch timeout maxRetries σ)) - now σ <= 16500).
Proof.
  intros Hretries.
  assert (Hgen : now (snd (StatusCheck.checkUrl fetch timeout maxRetries σ)) - now σ
                 <= (default 2 maxRetries + 1) * timerDelay (default 5000 timeout)
                    + 500 * (2 ^ default 2 maxRetries - 1)).
  { unfold StatusCheck.checkUrl.
    pose proof (checkUrlFrom_elapsed (Z.to_nat (default 2 maxRetries + 1)) 0
                  (default 5000 timeout) (default 2 maxRetries) fetch σ) as H.
    rewrite Z2Nat.id in H by lia. rewrite Z.min_l in H by lia.
    change (2 ^ 0) with 1 in H. apply H; lia. }
  split; [exact Hgen |].
  intros -> ->. cbn in Hgen. exact Hgen.
Qed.

(** ** The import of the static feed *)

Lemma moveFile_fold (files : list string) : forall from to,
  NoDup files ->
  (forall file, file ∈ files -> is_Some (from !! file)) ->
  exists from' to',
    foldl ImportGtfs.moveFile (Some (from, to)) files = Some (from', to') /\
    forall file,
      if decide (file ∈ files /\ includes file "agency.txt" = false)
      then from' !! file = None /\ to' !! file = from !! file
      else from' !! file = from !! file /\ to' !! file = to !! file.
Proof.
  induction files as [| f files IH]; intros from to Hnodup Hall.
  - exists from, to. split; [reflexivity |]. intros file.
    destruct (decide _) as [[Hin _] | _]; [inversion Hin | done].
  - apply NoDup_cons in Hnodup as [Hf Hnodup]. cbn [foldl].
    destruct (Hall f) as [content Hcontent]; [left |].
    unfold ImportGtfs.moveFile at 2. cbn [mbind option_bind].
    destruct (includes f "agency.txt") eqn:Hexcl.
    + destruct (IH from to Hnodup) as (from' & to' & Hrun & Hspec).
      { intros file Hin. apply Hall. right. exact Hin. }
      exists from', to'. split; [exact Hrun |]. intros file. specialize (Hspec file).
      destruct (decide (file ∈ files /\ _)) as [[Hin Hx] | Hno];
        destruct (decide (file ∈ f :: files /\ _)) as [[Hin' Hx'] | Hno']; try done.
      * exfalso. apply Hno'. split; [right; exact Hin | exact Hx].
      * exfalso. apply elem_of_cons in Hin' as [-> | Hin']; [congruence |].
        apply Hno. done.
    + rewrite Hcontent. cbn [mbind option_bind].
      destruct (IH (delete f from) (<[f := content]> to) Hnodup)
        as (from' & to' & Hrun & Hspec).
      { intros file Hin. rewrite lookup_delete_ne; [apply Hall; right; exact Hin |].
        intros ->. done. }
      exists from', to'. split; [exact Hrun |]. intros file. specialize (Hspec file).
      destruct (decide (file ∈ files /\ _)) as [[Hin Hx] | Hno];
        destruct (decide (file ∈ f :: files /\ _)) as [[Hin' Hx'] | Hno'].
      * assert (f <> file) by (intros ->; done).
        rewrite lookup_delete_ne in Hspec by done. exact Hspec.
      * exfalso. apply Hno'. split; [right; exact Hin | exact Hx].
      * apply elem_of_cons in Hin' as [-> | Hin']; [| exfalso; apply Hno; done].
        rewrite lookup_delete_eq, lookup_insert_eq in Hspec.
        destruct Hspec as [-> ->]. done.
      * assert (f <> file).
        { intros ->. destruct (includes file "agency.txt") eqn:Hx; [congruence |].
          apply Hno'. split; [left | reflexivity]. }
        rewrite lookup_delete_ne, lookup_insert_ne in Hspec by done. exact Hspec.
Qed.

Lemma readdirSync_spec (dir : ImportGtfs.Directory) :
  NoDup (ImportGtfs.readdirSync dir) /\
  forall file, file ∈ ImportGtfs.readdirSync dir <-> is_Some (dir !! file).
Proof.
  unfold ImportGtfs.readdirSync. split; [apply NoDup_fst_map_to_list |].
  intros file. rewrite list_elem_of_fmap. split.
  - intros ([k v] & -> & Hin). apply elem_of_map_to_list in Hin. eauto.
  - intros [v Hv]. exists (file, v). split; [reflexivity |].
    apply elem_of_map_to_list. exact Hv.
Qed.

(** X21. [moveFiles] never throws on a directory of plain files, and it
    never touches a file whose name contains [agency.txt]: such a file
    stays in the source directory and the destination keeps what it had
    under that name. Every other file of the source leaves the source and
    is in the destination with the source's content; names the source does
    not have are unchanged in the destination. *)
Theorem X21_moveFiles_keeps_the_local_agency_file (from to : ImportGtfs.Directory) :
  exists from' to',
    ImportGtfs.moveFiles from to = Some (from', to') /\
    forall file,
      (includes file "agency.txt" = true ->
         from' !! file = from !! file /\ to' !! file = to !! file) /\
      (includes file "agency.txt" = false ->
         from' !! file = None /\ to' !! file = from !! file ∪ to !! file).
Proof.
  destruct (readdirSync_spec from) as [Hnodup Hnames].
  destruct (moveFile_fold (ImportGtfs.readdirSync from) from to Hnodup)
    as (from' & to' & Hrun & Hspec).
  { intros file Hin. apply Hnames. exact Hin. }
  exists from', to'. split; [exact Hrun |]. intros file. specialize (Hspec file).
  destruct (decide _) as [[Hin Hx] | Hno].
  - split; [congruence |]. intros _. destruct Hspec as [-> ->].
    apply Hnames in Hin as [c ->]. split; [reflexivity |].
    destruct (to !! file); reflexivity.
  - split; [intros _; exact Hspec |]. intros Hx. destruct Hspec as [-> ->].
    destruct (from !! file) as [c |] eqn:Hc.
    + exfalso. apply Hno. split; [apply Hnames; eauto | exact Hx].
    + split; [reflexivity |]. destruct (to !! file); reflexivity.
Qed.

Lemma copyFile_fold (from : ImportGtfs.Directory) (files : list string) : forall to,
  (forall file, file ∈ files -> is_Some (from !! file)) ->
  exists to',
    foldl (ImportGtfs.copyFile from) (Some to) files = Some to' /\
    forall file,
      if decide (file ∈ files /\ includes file "agency.txt" = false)
      then to' !! file = from !! file
      else to' !! file = to !! file.
Proof.
  induction files as [| f files IH]; intros to Hall.
  - exists to. split; [reflexivity |]. intros file.
    destruct (decide _) as [[Hin _] | _]; [inversion Hin | done].
  - cbn [foldl]. destruct (Hall f) as [content Hcontent]; [left |].
    unfold ImportGtfs.copyFile at 2. cbn [mbind option_bind].
    destruct (includes f "agency.txt") eqn:Hexcl.
    + destruct (IH to) as (to' & Hrun & Hspec).
      { intros file Hin. apply Hall. right. exact Hin. }
      exists to'. split; [exact Hrun |]. intros file. specialize (Hspec file).
      destruct (decide (file ∈ files /\ _)) as [[Hin Hx] | Hno];
        destruct (decide (file ∈ f :: files /\ _)) as [[Hin' Hx'] | Hno']; try done.
      * exfalso. apply Hno'. split; [right; exact Hin | exact Hx].
      * exfalso. apply elem_of_cons in Hin' as [-> | Hin']; [congruence |].
        apply Hno. done.
    + rewrite Hcontent. cbn [mbind option_bind].
      destruct (IH (<[f := content]> to)) as (to' & Hrun & Hspec).
      { intros file Hin. apply Hall. right. exact Hin. }
      exists to'. split; [exact Hrun |]. intros file. specialize (Hspec file).
      destruct (decide (file ∈ files /\ _)) as [[Hin Hx] | Hno];
        destruct (decide (file ∈ f :: files /\ _)) as [[Hin' Hx'] | Hno'].
      * exact Hspec.
      * exfalso. apply Hno'. split; [right; exact Hin | exact Hx].
      * apply elem_of_cons in Hin' as [-> | Hin']; [| exfalso; apply Hno; done].
        rewrite lookup_insert_eq in Hspec. congruence.
      * assert (f <> file).
        { intros ->. destruct (includes file "agency.txt") eqn:Hx; [congruence |].
          apply Hno'. split; [left | reflexivity]. }
        rewrite lookup_insert_ne in Hspec by done. exact Hspec.
Qed.

(** X22. [copyFiles] never throws on a directory of plain files and gives
    the destination the same content as [moveFiles] does: the two differ
    only in what is left of the source. *)
Theorem X22_copyFiles_fills_the_destination_as_moveFiles
    (from to : ImportGtfs.Directory) :
  exists from' to',
    ImportGtfs.moveFiles from to = Some (from', to') /\
    ImportGtfs.copyFiles from to = Some to' /\
    from' = filter (fun entry => includes entry.1 "agency.txt" = true) from.
Proof.
  destruct (readdirSync_spec from) as [Hnodup Hnames].
  destruct (moveFile_fold (ImportGtfs.readdirSync from) from to Hnodup)
    as (from' & to' & Hrun & Hspec).
  { intros file Hin. apply Hnames. exact Hin. }
  destruct (copyFile_fold from (ImportGtfs.readdirSync from) to)
    as (to2 & Hrun2 & Hspec2).
  { intros file Hin. apply Hnames. exact Hin. }
  exists from', to'. split; [exact Hrun |]. split.
  - unfold ImportGtfs.copyFiles. rewrite Hrun2. f_equal. apply map_eq. intros file.
    specialize (Hspec file). specialize (Hspec2 file).
    destruct (decide _); destruct Hspec as [_ ->]; exact Hspec2.
  - apply map_eq. intros file. specialize (Hspec file).
    destruct (decide _) as [[Hin Hx] | Hno]; destruct Hspec as [-> _].
    + symmetry. apply map_lookup_filter_None. right. intros c _. cbn. congruence.
    + destruct (from !! file) as [c |] eqn:Hc.
      * symmetry. apply map_lookup_filter_Some. split; [exact Hc |]. cbn.
        destruct (includes file "agency.txt") eqn:Hx; [reflexivity |].
        exfalso. apply Hno. split; [apply Hnames; eauto | reflexivity].
      * symmetry. apply map_lookup_filter_None. left. exact Hc.
Qed.

(** ** Instances of the further properties *)

Lemma X1_instance :
  exists rs cb σ',
    executeMany [0; 0; 0; 0] unreachableFeed
      (newCircuitBreaker "GTFS-Realtime-Main" (thresholdOf 3)) startOfRun = (rs, cb, σ') /\
    (state cb = CLOSED \/ failureThreshold cb <= failureCount cb).
Proof.
  eexists _, _, _. split; [vm_compute; reflexivity |].
  eapply (X1_open_only_at_threshold "GTFS-Realtime-Main" (thresholdOf 3) [0; 0; 0; 0]
            unreachableFeed startOfRun).
  vm_compute; reflexivity.
Defined.

Lemma X2_instance :
  exists rs cb σ',
    executeMany [0; 0; 0; 0] unreachableFeed
      (newCircuitBreaker "GTFS-Realtime-Main" (thresholdOf 3)) startOfRun = (rs, cb, σ') /\
    Stats.totalRequests (stats cb) = 4 /\
    Stats.successfulRequests (stats cb) + Stats.failedRequests (stats cb)
      = Z.of_nat (calls σ' - calls startOfRun).
Proof.
  destruct (executeMany [0; 0; 0; 0] unreachableFeed
              (newCircuitBreaker "GTFS-Realtime-Main" (thresholdOf 3)) startOfRun)
    as [[rs cb] σ'] eqn:Hrun.
  exists rs, cb, σ'. split; [reflexivity |].
  destruct (X2_request_accounting _ _ _ _ _ _ _ _ Hrun) as (_ & Htotal & _ & Hsum & _).
  split; [exact Htotal | exact Hsum].
Defined.

Lemma X3_instance :
  Forall (fun g => 0 <= g) [0; 5] /\ timely recoveringFeed /\
  exists rs cb σ',
    executeMany [0; 5] recoveringFeed
      (newCircuitBreaker "GTFS-Realtime-Main" defaultOptions) startOfRun = (rs, cb, σ') /\
    timerDelay (timeout cb) <= 30000 /\
    pendingTimers (fst (idle 30000 cb σ')) = [] /\
    Stats.timeouts (stats (fst (idle 30000 cb σ'))) = Z.of_nat (calls σ' - calls startOfRun).
Proof.
  assert (Hgaps : Forall (fun g => 0 <= g) [0; 5]) by (repeat constructor; lia).
  assert (Htimely : timely recoveringFeed) by (intros [| k]; cbn; lia).
  split; [exact Hgaps |]. split; [exact Htimely |].
  assert (Hto : timerDelay (timeout (snd (fst (executeMany [0; 5] recoveringFeed
              (newCircuitBreaker "GTFS-Realtime-Main" defaultOptions) startOfRun))))
                <= 30000) by (vm_compute; discriminate).
  destruct (executeMany [0; 5] recoveringFeed
              (newCircuitBreaker "GTFS-Realtime-Main" defaultOptions) startOfRun)
    as [[rs cb] σ'] eqn:Hrun.
  exists rs, cb, σ'. split; [reflexivity |]. split; [exact Hto |].
  destruct (X3_every_invocation_ends_as_a_timeout _ _ _ _ _ _ _ _ 30000 Hgaps Htimely Hrun Hto)
    as (Hpending & Htimeouts & _).
  split; [exact Hpending | exact Htimeouts].
Defined.

Lemma X4_instance :
  exists cb1 σ1 rs cb2 σ2,
    execute failingAfterFirst (newCircuitBreaker "GTFS-Realtime-Main" (thresholdOf 2))
      startOfRun = (Returns "feed"%string, cb1, σ1) /\
    executeMany [0; 0] failingAfterFirst cb1 σ1 = (rs, cb2, σ2) /\
    state cb1 = CLOSED /\ failureCount cb1 = 0 /\ state cb2 = OPEN.
Proof.
  assert (Hfirst : exists cb1 σ1,
    execute failingAfterFirst (newCircuitBreaker "GTFS-Realtime-Main" (thresholdOf 2))
      startOfRun = (Returns "feed"%string, cb1, σ1) /\ calls σ1 = 1%nat).
  { eexists _, _. split; vm_compute; reflexivity. }
  destruct Hfirst as (cb1 & σ1 & Hfirst & Hcalls).
  destruct (executeMany [0; 0] failingAfterFirst cb1 σ1) as [[rs cb2] σ2] eqn:Hrun.
  exists cb1, σ1, rs, cb2, σ2. split; [exact Hfirst |]. split; [exact Hrun |].
  destruct (X4_success_restarts_the_failure_count failingAfterFirst
              (newCircuitBreaker "GTFS-Realtime-Main" (thresholdOf 2)) startOfRun
              "feed"%string cb1 σ1 [0; 0] rs cb2 σ2 Hfirst)
    as (Hstate & Hcount & _ & Hopen).
  - intros k _. rewrite Hcalls. exact I.
  - exact Hrun.
  - split; [exact Hstate |]. split; [exact Hcount |].
    apply Hopen; [discriminate | reflexivity].
Defined.

Lemma X5_instance :
  state openedBreaker = OPEN /\ lastFailureTime openedBreaker = Some (now startOfRun) /\
  exists rs cb' σ',
    executeMany [1000; 1000] healthyFeed openedBreaker startOfRun = (rs, cb', σ') /\
    calls σ' = calls startOfRun /\ lastFailureTime cb' = Some (now startOfRun) /\
    letsThrough (fst (idle 58000 cb' σ')) (now (snd (idle 58000 cb' σ'))) = true.
Proof.
  split; [reflexivity |]. split; [reflexivity |].
  destruct (executeMany [1000; 1000] healthyFeed openedBreaker startOfRun)
    as [[rs cb'] σ'] eqn:Hrun.
  exists rs, cb', σ'. split; [reflexivity |].
  destruct (X5_rejections_do_not_restart_the_cool_down healthyFeed [1000; 1000]
              openedBreaker startOfRun (now startOfRun) rs cb' σ')
    as (_ & Hcalls & Hnow & _ & Hlast & _ & _ & Hprobe).
  - reflexivity.
  - reflexivity.
  - repeat constructor; lia.
  - reflexivity.
  - exact Hrun.
  - split; [exact Hcalls |]. split; [exact Hlast |].
    apply Hprobe. rewrite Hnow. vm_compute. discriminate.
Defined.

Lemma X6_instance :
  exists r w' σ',
    fullProtectionMode 3 recoveringFeed (newRobustGtfsWrapper defaultEnvironment) startOfRun
      = Some (r, w', σ') /\
    ((exists v, r = Returns (Data v) /\
        consecutiveFailures w' = 0 /\ lastSuccessfulUpdate w' = Some (now σ')) \/
     (exists fb, r = Returns (Degraded fb) /\
        consecutiveFailures w' = 1 /\ lastSuccessfulUpdate w' = None)).
Proof.
  destruct (fullProtectionMode 3 recoveringFeed (newRobustGtfsWrapper defaultEnvironment)
              startOfRun) as [[[r w'] σ'] |] eqn:Hrun; [| vm_compute in Hrun; discriminate].
  exists r, w', σ'. split; [reflexivity |].
  destruct (X6_one_update_counts_once _ _ _ _ _ _ _ Hrun) as (_ & _ & _ & H). exact H.
Defined.

Lemma X7_instance :
  30000 < resetTimeout
            (getBreaker (selectCircuitBreaker (newRobustGtfsWrapper defaultEnvironment))
               (newRobustGtfsWrapper defaultEnvironment)) /\
  exists fuel r w' σ',
    fullProtectionMode fuel unreachableFeed (newRobustGtfsWrapper defaultEnvironment)
      startOfRun = Some (r, w', σ') /\
    Z.of_nat (calls σ' - calls startOfRun) <= 5.
Proof.
  assert (Hreset : 30000 < resetTimeout
            (getBreaker (selectCircuitBreaker (newRobustGtfsWrapper defaultEnvironment))
               (newRobustGtfsWrapper defaultEnvironment))) by reflexivity.
  split; [exact Hreset |].
  destruct (X7_breaker_bounds_the_invocations unreachableFeed
              (newRobustGtfsWrapper defaultEnvironment) startOfRun Hreset)
    as ((fuel & r & w' & σ' & Hrun) & Hbound).
  exists fuel, r, w', σ'. split; [exact Hrun |].
  exact (Hbound fuel r w' σ' Hrun).
Defined.

Lemma X8_instance :
  exists r w' σ',
    updateGtfsRealtime 3 defaultEnvironment healthyFeed (Some repositoryGtfsConfig)
      (newRobustGtfsWrapper defaultEnvironment) startOfRun = Some (r, w', σ') /\
    config w' = config (newRobustGtfsWrapper defaultEnvironment) /\
    sameConfig (main (circuitBreakers (newRobustGtfsWrapper defaultEnvironment)))
      (main (circuitBreakers w')).
Proof.
  destruct (updateGtfsRealtime 3 defaultEnvironment healthyFeed (Some repositoryGtfsConfig)
              (newRobustGtfsWrapper defaultEnvironment) startOfRun)
    as [[[r w'] σ'] |] eqn:Hrun; [| vm_compute in Hrun; discriminate].
  exists r, w', σ'. split; [reflexivity |].
  destruct (X8_modes_are_one_way _ _ _ _ _ _ _ _ _ Hrun) as (Hconfig & Hmain & _).
  split; [exact Hconfig | exact Hmain].
Defined.

Lemma X9_instance :
  exists r1 w1 σ1 r2 w2 σ2,
    updateGtfsRealtime 3 defaultEnvironment unreachableFeed (Some repositoryGtfsConfig)
      (newRobustGtfsWrapper defaultEnvironment) startOfRun = Some (r1, w1, σ1) /\
    updateGtfsRealtime 3 defaultEnvironment unreachableFeed (Some repositoryGtfsConfig)
      w1 σ1 = Some (r2, w2, σ2) /\
    nativeTimeoutSupported w2 = nativeTimeoutSupported w1 /\
    wrapperEnabled w2 = wrapperEnabled w1.
Proof.
  eexists _, _, _, _, _, _.
  split; [vm_compute; reflexivity |]. split; [vm_compute; reflexivity |].
  eapply (X9_detection_is_stable_for_unchanged_inputs 3 defaultEnvironment unreachableFeed
            (Some repositoryGtfsConfig) (newRobustGtfsWrapper defaultEnvironment) startOfRun);
    vm_compute; reflexivity.
Defined.

Lemma X10_instance :
  strIs (GTFS_DISABLE_ROBUST_WRAPPER disabledEnvironment) "true" = true /\
  exists rs w σ',
    updateMany 1 disabledEnvironment unreachableFeed [Some plainGtfsConfig; None]
      (newRobustGtfsWrapper disabledEnvironment) startOfRun = Some (rs, w, σ') /\
    calls σ' = 2%nat /\ consecutiveFailures w = 0 /\
    forall t, status (getHealthStatus t w) = HEALTHY.
Proof.
  assert (Hswitch : strIs (GTFS_DISABLE_ROBUST_WRAPPER disabledEnvironment) "true" = true)
    by reflexivity.
  split; [exact Hswitch |].
  destruct (updateMany 1 disabledEnvironment unreachableFeed [Some plainGtfsConfig; None]
              (newRobustGtfsWrapper disabledEnvironment) startOfRun)
    as [[[rs w] σ'] |] eqn:Hrun; [| vm_compute in Hrun; discriminate].
  exists rs, w, σ'. split; [reflexivity |].
  destruct (X10_disabled_wrapper_is_transparent_and_blind _ _ _ _ _ _ _ _ Hswitch Hrun)
    as (Hcalls & _ & Hfailures & _ & _ & _ & Hhealthy).
  split; [exact Hcalls |]. split; [exact Hfailures | exact Hhealthy].
Defined.

Lemma X11_instance :
  1 <= 2 /\ 2000 <= getRetryDelay 2 <= 30000 /\ getRetryDelay 2 = 2 ^ 2 * 1000.
Proof.
  assert (H : 1 <= 2) by lia. split; [exact H |].
  destruct (X11_retry_delay_bounds 2 H) as (Hbounds & _ & Hexact & _).
  split; [exact Hbounds |]. apply Hexact. lia.
Defined.

Lemma X12_instance :
  lastSuccessfulUpdate staleWrapper <> Some 0 /\
  fst (HealthRoutes.gtfs (now startOfRun) staleWrapper) = 503.
Proof.
  assert (Hclock : lastSuccessfulUpdate staleWrapper <> Some 0) by discriminate.
  split; [exact Hclock |].
  apply (proj1 (X12_gtfs_route_status_code (now startOfRun) staleWrapper Hclock)).
  left. exists openedBreaker. split; [left; reflexivity | reflexivity].
Defined.

Lemma X13_instance :
  lastSuccessfulUpdate staleWrapper <> Some 0 /\
  stale (now startOfRun) staleWrapper /\
  fst (HealthRoutes.root {| uptime := ofZ 3600; npm_package_version := None |}
         (now startOfRun) staleWrapper) = 200 /\
  fst (HealthRoutes.gtfs (now startOfRun) staleWrapper) = 503.
Proof.
  assert (Hclock : lastSuccessfulUpdate staleWrapper <> Some 0) by discriminate.
  assert (Hstale : stale (now startOfRun) staleWrapper).
  { exists (now startOfRun - 300001). split; reflexivity. }
  split; [exact Hclock |]. split; [exact Hstale |].
  destruct (X13_root_route_overlooks_staleness
              {| uptime := ofZ 3600; npm_package_version := None |}
              (now startOfRun) staleWrapper Hclock) as (_ & Hold & _).
  destruct (Hold Hstale) as (Hroot & _ & _ & Hgtfs). split; [exact Hroot | exact Hgtfs].
Defined.

Lemma X14_instance :
  strIs (GTFS_DISABLE_ROBUST_WRAPPER defaultEnvironment) "true" = false /\
  (forall k, recoveringFeed k <> Hangs) /\
  exists rs w σ',
    updateMany 1 defaultEnvironment recoveringFeed (replicate 3 (Some repositoryGtfsConfig))
      (newRobustGtfsWrapper defaultEnvironment) startOfRun = Some (rs, w, σ') /\
    HealthRoutes.successRate
      (HealthRoutes.metrics_main (snd (HealthRoutes.gtfsMetrics (now startOfRun) w)))
      = S754_zero false.
Proof.
  assert (Hsettles : forall k, recoveringFeed k <> Hangs)
    by (intros [| k]; discriminate).
  split; [reflexivity |]. split; [exact Hsettles |].
  destruct (X14_lightweight_success_rate_is_zero 1 defaultEnvironment recoveringFeed
              repositoryGtfsConfig 3 startOfRun (now startOfRun))
    as (rs & w & σ' & Hrun & Hrate & _).
  - reflexivity.
  - reflexivity.
  - exact Hsettles.
  - exists rs, w, σ'. split; [exact Hrun | exact Hrate].
Defined.

Lemma X16_instance :
  now startOfRun <> 0 /\
  fst (SimpleHealth.gtfs (now startOfRun + 120001)
         (SimpleHealth.updateGtfsHealth (now startOfRun) true None SimpleHealth.initial))
    = 200 /\
  SimpleHealth.status
    (snd (SimpleHealth.gtfs (now startOfRun + 120001)
            (SimpleHealth.updateGtfsHealth (now startOfRun) true None SimpleHealth.initial)))
    = WARNING.
Proof.
  assert (Hclock : now startOfRun <> 0) by discriminate.
  split; [exact Hclock |].
  destruct (X16_successful_update_resets_the_status (now startOfRun)
              (now startOfRun + 120001) None SimpleHealth.initial Hclock)
    as (_ & _ & _ & Hwarning & _).
  apply Hwarning. cbn. lia.
Defined.

Lemma X17_instance :
  fst (SimpleHealth.gtfs (now startOfRun + 299999)
         (SimpleHealth.updateGtfsHealth (now startOfRun) false None SimpleHealth.initial))
    = 503 /\
  fst (SimpleHealth.gtfs (now startOfRun + 300000)
         (SimpleHealth.updateGtfsHealth (now startOfRun) false None SimpleHealth.initial))
    = 200.
Proof.
  split.
  - apply (X17_failed_update_is_critical_for_five_minutes (now startOfRun)
             (now startOfRun + 299999) None SimpleHealth.initial). cbn. lia.
  - apply (X17_failed_update_is_critical_for_five_minutes (now startOfRun)
             (now startOfRun + 300000) None SimpleHealth.initial); [cbn; lia | reflexivity].
Defined.

Lemma X19_instance :
  0 <= default 2 None /\
  fst (StatusCheck.checkUrl okAtThirdRequest None None startOfRun) = true /\
  calls (snd (StatusCheck.checkUrl okAtThirdRequest None None startOfRun)) = 3%nat.
Proof.
  assert (Hretries : 0 <= default 2 None) by (cbn; lia).
  split; [exact Hretries |].
  destruct (X19_checkUrl_stops_at_the_first_ok okAtThirdRequest None None startOfRun Hretries)
    as (_ & Hfound & _ & _).
  split; [| vm_compute; reflexivity].
  apply Hfound. exists 2%nat. split; [cbn; lia |]. vm_compute. reflexivity.
Defined.

Lemma X20_instance :
  0 <= default 2 None /\
  now (snd (StatusCheck.checkUrl (fun _ => StatusCheck.NoAnswer) None None startOfRun))
    - now startOfRun <= 16500.
Proof.
  assert (Hretries : 0 <= default 2 None) by (cbn; lia).
  split; [exact Hretries |].
  apply (X20_checkUrl_returns_in_bounded_time (fun _ => StatusCheck.NoAnswer) None None
           startOfRun Hretries); reflexivity.
Defined.
